(** * Portfolio investment tracker: extraction and deduplication

    A shallow embedding of [src/extractors/portfolio_extractor.py] and
    [src/utils/currency_converter.py].

    Modelling conventions.
    - A Python [str] is a Rocq [string] holding the UTF-8 bytes of the text.
      The character predicates ([isdigit], [isalpha], [isspace], [\d], [\w],
      [\s]) and [upper]/[lower] are Python's restricted to ASCII; a byte
      above 127 is neither digit, letter nor space and has no case.
    - A Python [float] is a binary64 [float] of the kernel; the integer
      literals the code mixes with floats ([0], [100], [1000]) are the floats
      of the same value.
    - A document is what pdfplumber hands to the code: pages in order, each
      with its extracted text and its extracted tables (row-major grids of
      optional text cells).
    - Exceptions are values of [result]; [try]/[except] is [try_except]. *)

From Stdlib Require Import ZArith List Bool Ascii String Lia Floats.
From stdpp Require Import gmap strings list.

Open Scope string_scope.
Open Scope list_scope.
Open Scope nat_scope.

(** ** Exceptions *)

Inductive exn :=
| ValueError
| AttributeError
| IndexError
| TypeError
| OpenError.

Inductive result (A : Type) :=
| Ok (a : A)
| Raise (e : exn).
Arguments Ok {A} a.
Arguments Raise {A} e.

(** Sequencing: the first exception raised ends the block.
    [x ← c; k] is stdpp's notation for [mbind]. *)
#[global] Instance result_ret : MRet result := fun A a => Ok a.
#[global] Instance result_bind : MBind result := fun A B f r =>
  match r with
  | Ok a => f a
  | Raise e => Raise e
  end.

(** [try: body except Exception: handler] *)
Definition try_except {A} (body : result A) (handler : exn -> A) : A :=
  match body with
  | Ok a => a
  | Raise e => handler e
  end.

(** ** Characters *)

Module Chr.

Definition code (c : ascii) : nat := nat_of_ascii c.

Definition is_digit (c : ascii) : bool := (48 <=? code c) && (code c <=? 57).
Definition is_upper (c : ascii) : bool := (65 <=? code c) && (code c <=? 90).
Definition is_lower (c : ascii) : bool := (97 <=? code c) && (code c <=? 122).
Definition is_alpha (c : ascii) : bool := is_upper c || is_lower c.
(** [\w] *)
Definition is_word (c : ascii) : bool := is_alpha c || is_digit c || (code c =? 95).
(** [str.isspace] on one character: tab, LF, VT, FF, CR, FS, GS, RS, US, space *)
Definition is_space (c : ascii) : bool :=
  ((9 <=? code c) && (code c <=? 13)) || ((28 <=? code c) && (code c <=? 32)).

Definition upper (c : ascii) : ascii :=
  if is_lower c then ascii_of_nat (code c - 32) else c.
Definition lower (c : ascii) : ascii :=
  if is_upper c then ascii_of_nat (code c + 32) else c.

Definition nl : ascii := ascii_of_nat 10.

End Chr.

(** ** Python string methods, on lists of characters *)

Module Str.

Definition chars := list ascii.

Definition of_string (s : string) : chars := list_ascii_of_string s.
Definition to_string (l : chars) : string := string_of_list_ascii l.

Definition eqb (a b : chars) : bool := String.eqb (to_string a) (to_string b).

Fixpoint starts_with (p s : chars) : bool :=
  match p, s with
  | [], _ => true
  | _ :: _, [] => false
  | a :: p', b :: s' => Ascii.eqb a b && starts_with p' s'
  end.

(** [sub in s] *)
Fixpoint contains (sub s : chars) : bool :=
  starts_with sub s ||
  match s with
  | [] => false
  | _ :: s' => contains sub s'
  end.

Fixpoint drop_while (p : ascii -> bool) (s : chars) : chars :=
  match s with
  | [] => []
  | c :: s' => if p c then drop_while p s' else s
  end.

Definition lstrip (s : chars) : chars := drop_while Chr.is_space s.
Definition rstrip (s : chars) : chars := rev (drop_while Chr.is_space (rev s)).
Definition strip (s : chars) : chars := rstrip (lstrip s).

(** [s.split(sep)] for a one-character separator: empty fields are kept *)
Fixpoint split_on (sep : ascii) (s : chars) : list chars :=
  match s with
  | [] => [[]]
  | c :: s' =>
      if Ascii.eqb c sep then [] :: split_on sep s'
      else match split_on sep s' with
           | [] => [[c]]
           | w :: ws => (c :: w) :: ws
           end
  end.

(** [s.split()]: fields separated by runs of whitespace, none empty *)
Fixpoint split_ws_aux (cur : chars) (s : chars) : list chars :=
  match s with
  | [] => match cur with [] => [] | _ => [rev cur] end
  | c :: s' =>
      if Chr.is_space c
      then match cur with
           | [] => split_ws_aux [] s'
           | _ => rev cur :: split_ws_aux [] s'
           end
      else split_ws_aux (c :: cur) s'
  end.
Definition split_ws (s : chars) : list chars := split_ws_aux [] s.

(** [sep.join(parts)] *)
Fixpoint join (sep : chars) (parts : list chars) : chars :=
  match parts with
  | [] => []
  | [p] => p
  | p :: ps => p ++ sep ++ join sep ps
  end.

(** [s.count(sub)] and [s.replace(old, new)], [sub] and [old] not empty:
    occurrences are taken left to right and do not overlap *)
Fixpoint count_aux (fuel : nat) (sub s : chars) : nat :=
  match fuel with
  | O => 0
  | S fuel' =>
      match s with
      | [] => 0
      | _ :: s' =>
          if starts_with sub s
          then S (count_aux fuel' sub (skipn (length sub) s))
          else count_aux fuel' sub s'
      end
  end.
Definition count (sub s : chars) : nat := count_aux (length s) sub s.

Fixpoint replace_aux (fuel : nat) (old new s : chars) : chars :=
  match fuel with
  | O => s
  | S fuel' =>
      match s with
      | [] => []
      | c :: s' =>
          if starts_with old s
          then new ++ replace_aux fuel' old new (skipn (length old) s)
          else c :: replace_aux fuel' old new s'
      end
  end.
Definition replace (old new s : chars) : chars := replace_aux (length s) old new s.

(** [s.isdigit()], [s.isalpha()]: not empty and every character in the class *)
Definition isdigit (s : chars) : bool :=
  match s with [] => false | _ => forallb Chr.is_digit s end.
Definition isalpha (s : chars) : bool :=
  match s with [] => false | _ => forallb Chr.is_alpha s end.

(** [s.zfill(width)]: zeros go after a leading sign *)
Definition zfill (width : nat) (s : chars) : chars :=
  let pad := repeat "0"%char (width - length s) in
  match s with
  | c :: s' =>
      if Ascii.eqb c "+" || Ascii.eqb c "-" then c :: pad ++ s' else pad ++ s
  | [] => pad
  end.

End Str.

(** The same methods on [string]. *)

Definition str_upper (s : string) : string :=
  Str.to_string (map Chr.upper (Str.of_string s)).
Definition str_lower (s : string) : string :=
  Str.to_string (map Chr.lower (Str.of_string s)).
Definition str_strip (s : string) : string :=
  Str.to_string (Str.strip (Str.of_string s)).
Definition str_in (sub s : string) : bool :=
  Str.contains (Str.of_string sub) (Str.of_string s).
Definition str_startswith (s p : string) : bool :=
  Str.starts_with (Str.of_string p) (Str.of_string s).
Definition str_count (s sub : string) : nat :=
  Str.count (Str.of_string sub) (Str.of_string s).
Definition str_replace (s old new : string) : string :=
  Str.to_string (Str.replace (Str.of_string old) (Str.of_string new) (Str.of_string s)).
Definition str_split_lines (s : string) : list string :=
  map Str.to_string (Str.split_on Chr.nl (Str.of_string s)).
Definition str_split (s : string) : list string :=
  map Str.to_string (Str.split_ws (Str.of_string s)).
Definition str_join (sep : string) (parts : list string) : string :=
  Str.to_string (Str.join (Str.of_string sep) (map Str.of_string parts)).
Definition str_isdigit (s : string) : bool := Str.isdigit (Str.of_string s).
Definition str_isalpha (s : string) : bool := Str.isalpha (Str.of_string s).
Definition str_zfill (s : string) (width : nat) : string :=
  Str.to_string (Str.zfill width (Str.of_string s)).
(** [s[:n]] *)
Definition str_prefix (s : string) (n : nat) : string :=
  Str.to_string (firstn n (Str.of_string s)).
Definition str_len (s : string) : nat := String.length s.
(** [any(char.isdigit() for char in s)] *)
Definition str_any_digit (s : string) : bool := existsb Chr.is_digit (Str.of_string s).
(** [any(k in s for k in keywords)] *)
Definition any_in (keywords : list string) (s : string) : bool :=
  existsb (fun k => str_in k s) keywords.
(** [s in options] for a list of strings *)
Definition str_among (s : string) (options : list string) : bool :=
  existsb (String.eqb s) options.
(** Truth value of a string: not empty *)
Definition truthy (s : string) : bool := negb (String.eqb s "").

(** ** Regular expressions: the part of Python's [re] the code uses

    A pattern is parsed from the very text of the raw string literal in the
    source (a backslash in a Rocq string is an ordinary character, as in a
    Python raw string), and matched by backtracking with ordered choice:
    alternatives left to right, greedy repetitions longest first, lazy ones
    shortest first; a search takes the leftmost start. *)

Module Re.

Import Str.

Inductive set_item :=
| SChar (c : ascii)
| SRange (lo hi : ascii)
| SDigit                      (* \d *)
| SWord                       (* \w *)
| SSpace                      (* \s *)
| SSeq (bytes : chars).       (* one character above ASCII, as its UTF-8 bytes *)

Inductive regex :=
| RFail
| REps
| RLit (c : ascii)
| RAny                        (* .  any character but a newline *)
| RSet (items : list set_item)
| RSeq (a b : regex)
| RAlt (a b : regex)
| RStar (greedy : bool) (a : regex)
| RGroup (n : nat) (a : regex)
| RBol                        (* ^ *)
| REol                        (* $ *)
| RWordB.                     (* \b *)

Definition RPlus (greedy : bool) (a : regex) : regex := RSeq a (RStar greedy a).
Definition ROpt (greedy : bool) (a : regex) : regex :=
  if greedy then RAlt a REps else RAlt REps a.

(** [a{lo,lo+extra}] *)
Fixpoint ROptN (greedy : bool) (a : regex) (extra : nat) : regex :=
  match extra with
  | O => REps
  | S n => ROpt greedy (RSeq a (ROptN greedy a n))
  end.
Fixpoint RRep (greedy : bool) (a : regex) (lo extra : nat) : regex :=
  match lo with
  | O => ROptN greedy a extra
  | S n => RSeq a (RRep greedy a n extra)
  end.

(** *** Parsing *)

(** Bytes of the UTF-8 character that starts with [c] *)
Definition utf8_len (c : ascii) : nat :=
  let n := Chr.code c in
  if n <? 128 then 1 else if n <? 224 then 2 else if n <? 240 then 3 else 4.

Fixpoint parse_nat_aux (acc : nat) (s : chars) : nat * chars :=
  match s with
  | c :: s' => if Chr.is_digit c then parse_nat_aux (10 * acc + (Chr.code c - 48)) s'
               else (acc, s)
  | [] => (acc, s)
  end.

(** A backslash escape, outside or inside a set: [Some (inl item)] for a
    class, [Some (inr r)] for an assertion *)
Definition parse_escape (c : ascii) : option (set_item + regex) :=
  if Ascii.eqb c "d" then Some (inl SDigit)
  else if Ascii.eqb c "w" then Some (inl SWord)
  else if Ascii.eqb c "s" then Some (inl SSpace)
  else if Ascii.eqb c "b" then Some (inr RWordB)
  else if Chr.is_alpha c || Chr.is_digit c then None
  else Some (inl (SChar c)).

(** The items of a set, up to the closing bracket *)
Fixpoint parse_set (fuel : nat) (s : chars) (first : bool) : option (list set_item * chars) :=
  match fuel with
  | O => None
  | S fuel' =>
      match s with
      | [] => None
      | c :: s' =>
          if Ascii.eqb c "]" && negb first then Some ([], s')
          else if Ascii.eqb c "\" then
            match s' with
            | e :: s'' =>
                match parse_escape e with
                | Some (inl it) =>
                    match parse_set fuel' s'' false with
                    | Some (its, rest) => Some (it :: its, rest)
                    | None => None
                    end
                | _ => None
                end
            | [] => None
            end
          else if 1 <? utf8_len c then
            match parse_set fuel' (skipn (utf8_len c) s) false with
            | Some (its, rest) => Some (SSeq (firstn (utf8_len c) s) :: its, rest)
            | None => None
            end
          else
            match s' with
            | d :: hi :: s'' =>
                if Ascii.eqb d "-" && negb (Ascii.eqb hi "]") then
                  match parse_set fuel' s'' false with
                  | Some (its, rest) => Some (SRange c hi :: its, rest)
                  | None => None
                  end
                else
                  match parse_set fuel' s' false with
                  | Some (its, rest) => Some (SChar c :: its, rest)
                  | None => None
                  end
            | _ =>
                match parse_set fuel' s' false with
                | Some (its, rest) => Some (SChar c :: its, rest)
                | None => None
                end
            end
      end
  end.

(** A quantifier after an atom, if there is one *)
Definition parse_quant (a : regex) (s : chars) : option (regex * chars) :=
  let lazy rest := match rest with
                   | q :: rest' => if Ascii.eqb q "?" then (false, rest') else (true, rest)
                   | [] => (true, rest)
                   end in
  match s with
  | c :: s' =>
      if Ascii.eqb c "*" then let '(g, r) := lazy s' in Some (RStar g a, r)
      else if Ascii.eqb c "+" then let '(g, r) := lazy s' in Some (RPlus g a, r)
      else if Ascii.eqb c "?" then let '(g, r) := lazy s' in Some (ROpt g a, r)
      else if Ascii.eqb c "{" then
        let '(lo, r1) := parse_nat_aux 0 s' in
        match r1 with
        | x :: r2 =>
            if Ascii.eqb x "}" then
              let '(g, r) := lazy r2 in Some (RRep g a lo 0, r)
            else if Ascii.eqb x "," && existsb Chr.is_digit (firstn 1 r2) then
              let '(hi, r3) := parse_nat_aux 0 r2 in
              match r3 with
              | y :: r4 =>
                  if Ascii.eqb y "}" then
                    let '(g, r) := lazy r4 in Some (RRep g a lo (hi - lo), r)
                  else None
              | [] => None
              end
            else None
        | [] => None
        end
      else Some (a, s)
  | [] => Some (a, s)
  end.

(** Alternation, sequence and atom; [g] is the number of the next group *)
Fixpoint parse_alt (fuel : nat) (s : chars) (g : nat) : option (regex * chars * nat) :=
  match fuel with
  | O => None
  | S fuel' =>
      match parse_seq fuel' s g with
      | Some (a, rest, g1) =>
          match rest with
          | c :: rest' =>
              if Ascii.eqb c "|" then
                match parse_alt fuel' rest' g1 with
                | Some (b, rest2, g2) => Some (RAlt a b, rest2, g2)
                | None => None
                end
              else Some (a, rest, g1)
          | [] => Some (a, rest, g1)
          end
      | None => None
      end
  end
with parse_seq (fuel : nat) (s : chars) (g : nat) : option (regex * chars * nat) :=
  match fuel with
  | O => None
  | S fuel' =>
      match s with
      | [] => Some (REps, s, g)
      | c :: _ =>
          if Ascii.eqb c "|" || Ascii.eqb c ")" then Some (REps, s, g)
          else
            match parse_atom fuel' s g with
            | Some (a, rest, g1) =>
                match parse_quant a rest with
                | Some (aq, rest1) =>
                    match parse_seq fuel' rest1 g1 with
                    | Some (REps, rest2, g2) => Some (aq, rest2, g2)
                    | Some (b, rest2, g2) => Some (RSeq aq b, rest2, g2)
                    | None => None
                    end
                | None => None
                end
            | None => None
            end
      end
  end
with parse_atom (fuel : nat) (s : chars) (g : nat) : option (regex * chars * nat) :=
  match fuel with
  | O => None
  | S fuel' =>
      match s with
      | [] => None
      | c :: s' =>
          if Ascii.eqb c "(" then
            if starts_with (of_string "?:") s' then
              match parse_alt fuel' (skipn 2 s') g with
              | Some (a, close :: rest, g1) =>
                  if Ascii.eqb close ")" then Some (a, rest, g1) else None
              | _ => None
              end
            else
              match parse_alt fuel' s' (S g) with
              | Some (a, close :: rest, g1) =>
                  if Ascii.eqb close ")" then Some (RGroup g a, rest, g1) else None
              | _ => None
              end
          else if Ascii.eqb c "[" then
            match parse_set fuel' s' true with
            | Some (its, rest) => Some (RSet its, rest, g)
            | None => None
            end
          else if Ascii.eqb c "\" then
            match s' with
            | e :: rest =>
                match parse_escape e with
                | Some (inl (SChar x)) => Some (RLit x, rest, g)
                | Some (inl it) => Some (RSet [it], rest, g)
                | Some (inr r) => Some (r, rest, g)
                | None => None
                end
            | [] => None
            end
          else if Ascii.eqb c "." then Some (RAny, s', g)
          else if Ascii.eqb c "^" then Some (RBol, s', g)
          else if Ascii.eqb c "$" then Some (REol, s', g)
          else if Ascii.eqb c "*" || Ascii.eqb c "+" || Ascii.eqb c "?" then None
          else Some (RLit c, s', g)
      end
  end.

(** [re.compile]: a pattern Python would refuse matches nothing here; every
    pattern of the source parses (see [patterns_parse]). *)
Definition parse (pattern : string) : option regex :=
  let p := of_string pattern in
  match parse_alt (3 * length p + 3) p 1 with
  | Some (r, [], _) => Some r
  | _ => None
  end.

Definition compile (pattern : string) : regex :=
  match parse pattern with
  | Some r => r
  | None => RFail
  end.

(** *** Matching *)

(** Bytes a set takes at the head of [s], if it matches there *)
Definition item_match (it : set_item) (s : chars) : option nat :=
  match it, s with
  | SSeq bytes, _ =>
      if starts_with bytes s && (0 <? length bytes) then Some (length bytes) else None
  | _, [] => None
  | SChar c, x :: _ => if Ascii.eqb x c then Some 1 else None
  | SRange lo hi, x :: _ =>
      if (Chr.code lo <=? Chr.code x) && (Chr.code x <=? Chr.code hi) then Some 1 else None
  | SDigit, x :: _ => if Chr.is_digit x then Some 1 else None
  | SWord, x :: _ => if Chr.is_word x then Some 1 else None
  | SSpace, x :: _ => if Chr.is_space x then Some 1 else None
  end.

Fixpoint set_match (items : list set_item) (s : chars) : option nat :=
  match items with
  | [] => None
  | it :: items' =>
      match item_match it s with
      | Some n => Some n
      | None => set_match items' s
      end
  end.

(** Captured groups, most recent first *)
Definition caps := list (nat * chars).

(** What is left of the subject, and the groups *)
Definition outcome := (chars * caps)%type.

Definition word_at (c : option ascii) : bool :=
  match c with
  | Some x => Chr.is_word x
  | None => false
  end.

(** [rmatch r prev s cs k]: match [r] at the head of [s], the character
    before it being [prev], then go on with [k]; [None] makes the caller
    backtrack. A repetition stops when a round takes no character. *)
Fixpoint rmatch (r : regex) (prev : option ascii) (s : chars) (cs : caps)
    (k : option ascii -> chars -> caps -> option outcome) {struct r} : option outcome :=
  match r with
  | RFail => None
  | REps => k prev s cs
  | RLit c =>
      match s with
      | x :: s' => if Ascii.eqb x c then k (Some x) s' cs else None
      | [] => None
      end
  | RAny =>
      match s with
      | x :: s' => if Ascii.eqb x Chr.nl then None else k (Some x) s' cs
      | [] => None
      end
  | RSet items =>
      match set_match items s with
      | Some n => k (last (firstn n s)) (skipn n s) cs
      | None => None
      end
  | RSeq a b => rmatch a prev s cs (fun p s' cs' => rmatch b p s' cs' k)
  | RAlt a b =>
      match rmatch a prev s cs k with
      | Some o => Some o
      | None => rmatch b prev s cs k
      end
  | RStar greedy a =>
      (fix loop (fuel : nat) (prev : option ascii) (s : chars) (cs : caps) : option outcome :=
         match fuel with
         | O => k prev s cs
         | S fuel' =>
             let again :=
               rmatch a prev s cs
                 (fun p s' cs' =>
                    if length s' <? length s then loop fuel' p s' cs' else None) in
             if greedy then
               match again with
               | Some o => Some o
               | None => k prev s cs
               end
             else
               match k prev s cs with
               | Some o => Some o
               | None => again
               end
         end) (S (length s)) prev s cs
  | RGroup n a =>
      rmatch a prev s cs
        (fun p s' cs' => k p s' ((n, firstn (length s - length s') s) :: cs'))
  | RBol =>
      match prev with
      | None => k prev s cs
      | Some _ => None
      end
  | REol =>
      match s with
      | [] => k prev s cs
      | [x] => if Ascii.eqb x Chr.nl then k prev s cs else None
      | _ => None
      end
  | RWordB =>
      if xorb (word_at prev) (word_at (head s)) then k prev s cs else None
  end.

Definition accept : option ascii -> chars -> caps -> option outcome :=
  fun _ rest cs => Some (rest, cs).

(** A match object: where it starts, the text matched, the groups *)
Record match_obj := {
  m_start : nat;
  m_text : chars;
  m_caps : caps
}.

Definition match_at (r : regex) (prev : option ascii) (s : chars) (pos : nat)
    : option match_obj :=
  match rmatch r prev s [] accept with
  | Some (rest, cs) =>
      Some {| m_start := pos; m_text := firstn (length s - length rest) s; m_caps := cs |}
  | None => None
  end.

Fixpoint search_from (r : regex) (prev : option ascii) (s : chars) (pos : nat)
    : option match_obj :=
  match match_at r prev s pos with
  | Some m => Some m
  | None =>
      match s with
      | [] => None
      | x :: s' => search_from r (Some x) s' (S pos)
      end
  end.

(** [m.group(n)], [None] for a group that took no part in the match *)
Fixpoint lookup_cap (n : nat) (cs : caps) : option chars :=
  match cs with
  | [] => None
  | (i, t) :: cs' => if i =? n then Some t else lookup_cap n cs'
  end.

Definition group (m : match_obj) (n : nat) : string :=
  match n with
  | O => to_string (m_text m)
  | _ => match lookup_cap n (m_caps m) with
         | Some t => to_string t
         | None => ""
         end
  end.

(** [re.search(pattern, s)], [re.match(pattern, s)] *)
Definition search (pattern s : string) : option match_obj :=
  search_from (compile pattern) None (of_string s) 0.
Definition match_ (pattern s : string) : option match_obj :=
  match_at (compile pattern) None (of_string s) 0.

Definition found (m : option match_obj) : bool :=
  match m with Some _ => true | None => false end.

(** [re.sub(pattern, repl, s)] for a replacement without group references,
    and [re.findall(pattern, s)] for a pattern without groups: matches are
    taken left to right and do not overlap; after an empty match the scan
    moves on by one character. *)
Fixpoint sub_aux (fuel : nat) (r : regex) (repl : chars) (prev : option ascii) (s : chars)
    : chars :=
  match fuel with
  | O => s
  | S fuel' =>
      let step := match s with
                  | [] => []
                  | x :: s' => x :: sub_aux fuel' r repl (Some x) s'
                  end in
      match rmatch r prev s [] accept with
      | Some (rest, _) =>
          if length rest <? length s
          then repl ++ sub_aux fuel' r repl
                         (last (firstn (length s - length rest) s)) rest
          else repl ++ step
      | None => step
      end
  end.

Definition sub (pattern repl s : string) : string :=
  let cs := of_string s in
  to_string (sub_aux (S (length cs)) (compile pattern) (of_string repl) None cs).

Fixpoint findall_aux (fuel : nat) (r : regex) (prev : option ascii) (s : chars)
    : list chars :=
  match fuel with
  | O => []
  | S fuel' =>
      let step := match s with
                  | [] => []
                  | x :: s' => findall_aux fuel' r (Some x) s'
                  end in
      match rmatch r prev s [] accept with
      | Some (rest, _) =>
          let m := firstn (length s - length rest) s in
          if length rest <? length s
          then m :: findall_aux fuel' r (last m) rest
          else m :: step
      | None => step
      end
  end.

Definition findall (pattern s : string) : list string :=
  let cs := of_string s in
  map to_string (findall_aux (S (length cs)) (compile pattern) None cs).

End Re.

(** ** Python's [float(str)]

    The grammar of the language reference: an optional sign, then [inf],
    [infinity] or [nan] in any case, or a decimal number with optional
    fraction and exponent, digits optionally grouped by single underscores;
    blanks around it are dropped. The value is the binary64 nearest to the
    decimal number, ties to even. Anything else raises [ValueError]. *)

Module PyFloat.

Import Str.

Local Open Scope Z_scope.

(** digitpart ::= digit (["_"] digit)* *)
Fixpoint more_digits (acc : list Z) (s : chars) : list Z * chars :=
  match s with
  | c :: s' =>
      if Chr.is_digit c then more_digits (Z.of_nat (Chr.code c - 48) :: acc) s'
      else if Ascii.eqb c "_" then
        match s' with
        | d :: s'' =>
            if Chr.is_digit d then more_digits (Z.of_nat (Chr.code d - 48) :: acc) s''
            else (acc, s)
        | [] => (acc, s)
        end
      else (acc, s)
  | [] => (acc, s)
  end.

(** The digits read, most significant first; none when [s] starts with no digit *)
Definition digitpart (s : chars) : list Z * chars :=
  match s with
  | c :: _ => if Chr.is_digit c then let '(ds, rest) := more_digits [] s in (rev ds, rest)
              else ([], s)
  | [] => ([], s)
  end.

Definition digits_value (ds : list Z) : Z := fold_left (fun acc d => 10 * acc + d) ds 0.

Definition sign (s : chars) : bool * chars :=
  match s with
  | c :: s' => if Ascii.eqb c "-" then (true, s')
               else if Ascii.eqb c "+" then (false, s')
               else (false, s)
  | [] => (false, s)
  end.

(** exponent ::= ("e" | "E") [sign] digitpart; [Some 0] when there is none *)
Definition exponent (s : chars) : option Z :=
  match s with
  | [] => Some 0
  | c :: s' =>
      if Ascii.eqb c "e" || Ascii.eqb c "E" then
        let '(neg, s1) := sign s' in
        match digitpart s1 with
        | ((_ :: _) as ds, []) => Some (if neg then - digits_value ds else digits_value ds)
        | _ => None
        end
      else None
  end.

(** floatnumber: the decimal mantissa and the power of ten *)
Definition floatnumber (s : chars) : option (Z * Z) :=
  let '(ip, s1) := digitpart s in
  let with_fraction (fp : list Z) (rest : chars) :=
    match exponent rest with
    | Some e => Some (digits_value (ip ++ fp), e - Z.of_nat (length fp))
    | None => None
    end in
  match s1 with
  | c :: s2 =>
      if Ascii.eqb c "." then
        let '(fp, s3) := digitpart s2 in
        match ip, fp with
        | [], [] => None
        | _, _ => with_fraction fp s3
        end
      else match ip with
           | [] => None
           | _ => with_fraction [] s1
           end
  | [] => match ip with
          | [] => None
          | _ => with_fraction [] s1
          end
  end.

(** The binary64 nearest to [p / q], for [p] and [q] positive *)
Definition nearest (p q : Z) : float :=
  let e0 := Z.log2 p - Z.log2 q - 52 in
  let quot e := if 0 <=? e then p / (q * 2 ^ e) else (p * 2 ^ (- e)) / q in
  let e1 := if quot e0 <? 2 ^ 52 then e0 - 1 else e0 in
  let e := Z.max e1 (-1074) in
  let n := if 0 <=? e then p else p * 2 ^ (- e) in
  let d := if 0 <=? e then q * 2 ^ e else q in
  let m := n / d in
  let r := n mod d in
  let m' := if (d <? 2 * r) || ((d =? 2 * r) && Z.odd m) then m + 1 else m in
  if (0 <=? e) && (2 ^ 1024 <=? m' * 2 ^ e) then infinity
  else Z.ldexp (of_uint63 (Uint63.of_Z m')) e.

Definition decimal_value (mant exp10 : Z) : float :=
  if mant =? 0 then 0%float
  else if 0 <=? exp10 then nearest (mant * 10 ^ exp10) 1
  else nearest mant (10 ^ (- exp10)).

Definition float_of_chars (s : chars) : result float :=
  let '(neg, body) := sign (strip s) in
  let signed (x : float) := if neg then (- x)%float else x in
  let low := map Chr.lower body in
  if eqb low (of_string "inf") || eqb low (of_string "infinity") then Ok (signed infinity)
  else if eqb low (of_string "nan") then Ok nan
  else match floatnumber body with
       | Some (mant, exp10) => Ok (signed (decimal_value mant exp10))
       | None => Raise ValueError
       end.

End PyFloat.

(** [float(s)] *)
Definition py_float (s : string) : result float := PyFloat.float_of_chars (Str.of_string s).

(** ** The Holding Record *)

(** Values kept under [raw_data] for debugging *)
Inductive raw_value :=
| RawStr (s : string)
| RawNum (x : float)
| RawInt (n : nat)
| RawNums (xs : list float)
| RawRow (cells : list (option string)).

Record Holding := {
  manager_name : string;
  asset_type : string;
  asset_name : string;
  current_investment_value : float;
  current_market_value : float;
  value_as_of_date : string;
  pl_amount : float;
  pl_percentage : float;
  irr_percentage : float;
  investment_date : string;
  raw_data : list (string * raw_value);
  (** set by the Kotak extractor only *)
  potential_duplicate : option (list string)
}.

(** [PortfolioExtractor.standard_schema]: every extractor copies it and then
    assigns the fields it knows. *)
Definition standard_schema : Holding := {|
  manager_name := "";
  asset_type := "";
  asset_name := "";
  current_investment_value := 0;
  current_market_value := 0;
  value_as_of_date := "";
  pl_amount := 0;
  pl_percentage := 0;
  irr_percentage := 0;
  investment_date := "";
  raw_data := [];
  potential_duplicate := None
|}.

(** ** Value-parsing utilities of [PortfolioExtractor] *)

(** A cell of a table, or any value handed to [clean_currency_value]:
    [None] is Python's [None], for which [pd.isna] holds. *)
Definition cell := option string.

(** [str(cell)] *)
Definition str_of_cell (c : cell) : string :=
  match c with
  | Some s => s
  | None => "None"
  end.

(** Truth value of a cell: neither [None] nor empty *)
Definition cell_truthy (c : cell) : bool :=
  match c with
  | Some s => truthy s
  | None => false
  end.

(** [clean_currency_value], with its [try]/[except ValueError] *)
Definition clean_currency_value (value_str : cell) : result float :=
  match value_str with
  | None => Ok 0%float
  | Some v =>
      if negb (truthy v) || String.eqb (str_strip v) "-" || String.eqb (str_strip v) ""
      then Ok 0%float
      else
        let cleaned := Re.sub "[₹$,\s]" "" v in
        match py_float cleaned with
        | Raise ValueError => Ok 0%float
        | r => r
        end
  end.

(** The value [clean_currency_value] returns; it never raises
    (see [clean_currency_value_Ok]), so the handler is never run. *)
Definition currency_value (value_str : cell) : float :=
  try_except (clean_currency_value value_str) (fun _ => 0%float).

Definition month_map : list (string * string) :=
  [("jan", "01"); ("feb", "02"); ("mar", "03"); ("apr", "04");
   ("may", "05"); ("jun", "06"); ("jul", "07"); ("aug", "08");
   ("sep", "09"); ("oct", "10"); ("nov", "11"); ("dec", "12")].

(** [d.get(k, default)] on a dict written as a literal *)
Fixpoint dict_get (d : list (string * string)) (k default : string) : string :=
  match d with
  | [] => default
  | (k', v) :: d' => if String.eqb k k' then v else dict_get d' k default
  end.

Definition date_patterns : list string :=
  ["(\d{2})/(\d{2})/(\d{4})";
   "(\d{1,2})\s+(\w+)\s+(\d{4})";
   "(\d{4})-(\d{2})-(\d{2})"].

(** [parse_date]: the first pattern found decides; every pattern has three
    groups, so the branch always returns. *)
Fixpoint parse_date_loop (patterns : list string) (date_str : string) : string :=
  match patterns with
  | [] => date_str
  | pattern :: rest =>
      match Re.search pattern date_str with
      | Some m =>
          if str_in "-" date_str then str_prefix date_str 10
          else
            let day := Re.group m 1 in
            let month := Re.group m 2 in
            let year := Re.group m 3 in
            let month :=
              if str_isalpha month
              then dict_get month_map (str_prefix (str_lower month) 3) "01"
              else month in
            year +:+ "-" +:+ str_zfill month 2 +:+ "-" +:+ str_zfill day 2
      | None => parse_date_loop rest date_str
      end
  end.

Definition parse_date (date_str : string) : string :=
  if negb (truthy date_str) then "" else parse_date_loop date_patterns date_str.

(** ** The document, as pdfplumber presents it *)

Definition row := list cell.
Definition table := list row.

Record Page := {
  extract_text : string;
  extract_tables : list table
}.

(** [pdfplumber.open(path, password)]: the pages, or an exception *)
Definition pdf := result (list Page).

(** [enumerate(xs, start)] *)
Fixpoint enumerate_from {A} (start : nat) (xs : list A) : list (nat * A) :=
  match xs with
  | [] => []
  | x :: xs' => (start, x) :: enumerate_from (S start) xs'
  end.
Definition enumerate {A} (xs : list A) : list (nat * A) := enumerate_from 0 xs.

(** [any('kw' in str(cell) for cell in row if cell)] *)
Definition row_mentions (kw : string) (r : row) : bool :=
  existsb (fun c => cell_truthy c && str_in kw (str_of_cell c)) r.

(** [xs[i]] for an index known to be in range; [None] cell otherwise *)
Definition cell_at (r : row) (i : nat) : cell := nth i r None.

(** The items before the first one that fails [p]: the part of a list a
    loop walks before its [break] *)
Fixpoint take_while {A} (p : A -> bool) (xs : list A) : list A :=
  match xs with
  | [] => []
  | x :: xs' => if p x then x :: take_while p xs' else []
  end.

(** ** Asset-identity normalizer *)

(** [create_asset_key]. The patterns of the generic normalization are the
    raw strings of the source, character for character. *)
Definition create_asset_key (asset_name : string) : string :=
  let key := str_upper asset_name in
  let date_suffix :=
    match Re.search "(\d{1,2}[-/]\w{3}[-/]\d{2,4})" key with
    | Some date_match => "_" +:+ Re.group date_match 1
    | None => ""
    end in
  if str_in "ASK" key && str_in "GROWTH" key && str_in "INDIA" key then
    let series_suffix :=
      match Re.search "(SERIES\s*\w+|CLASS\s*\w+)" key with
      | Some series_match => "_" +:+ Re.group series_match 1
      | None => ""
      end in
    "ASK GROWTH INDIA" +:+ series_suffix +:+ date_suffix
  else if str_in "ALTACURA" key && str_in "AI" key && str_in "ABSOLUTE" key
          && str_in "RETURN" key then
    str_replace key " " "_"
  else if str_in "WHITE" key && str_in "OAK" key && str_in "INDIA" key
          && (str_in "EQUITY" key || str_in "VI" key) then
    "WHITE OAK INDIA EQUITY" +:+ date_suffix
  else if str_in "ACCURACAP" key && (str_in "ALPHA" key || str_in "PRIME" key) then
    "ACCURACAP ALPHA" +:+ date_suffix
  else if str_in "WHITE" key && str_in "SPACE" key && str_in "ALPHA" key then
    str_replace key " " "_"
  else if str_in "MOTILAL OSWAL" key
          && (str_in "ALTERNATIVE" key || str_in "FOUNDERS" key || str_in "SELECT" key) then
    if str_in "SELECT" key && (str_in "OPP" key || str_in "OPPORTUNITIES" key) then
      "MOTILAL OSWAL SELECT OPPORTUNITIES"
    else if str_in "FOUNDERS" key
            || (str_in "MOTILAL" key && str_in "OSWL" key && str_in "ANCHORS" key) then
      "MOTILAL OSWAL FOUNDERS"
    else "MOTILAL OSWAL ALTERNATIVE"
  else
    let key := Re.sub "\\(DEMAT\\)" "" key in
    let key := Re.sub "\\(ERSTWHILE.*?\\)" "" key in
    let key := Re.sub "\\bCLASS A1\\b|\\bCL A1\\b|\\bCLASS B1\\b|\\bCL B1\\b|\\bCL D4\\b" "" key in
    let key := Re.sub "\\bDIRECT PLAN\\b|\\bREGULAR PLAN\\b" "" key in
    let key := Re.sub "\\bGROWTH\\b" "" key in
    let key := Re.sub "\\bLTD\\b|\\bLIMITED\\b" "" key in
    let key := Re.sub "\\bLLP\\b" "" key in
    let key := Re.sub "\\bFUND\\b" "" key in
    let key := Re.sub "\\bAIF\\b" "" key in
    let key := Re.sub "\\bEQUITY\\b" "" key in
    let key := Re.sub "\\bVI\\b" "" key in
    let key := Re.sub "\\bTRUST\\b" "" key in
    let key := Re.sub "\\bINVESTMENT\\b" "" key in
    let key := Re.sub "\\bALTERNATIVE\\b" "" key in
    let key := Re.sub "\\bSERIES\\b|\\bSR\\b" "" key in
    let key := Re.sub "\\bI\\b|\\bIV\\b" "" key in
    let key := Re.sub "[-\\s]+" " " key in
    let key := Re.sub "\\s*-\\s*25-" "" key in
    let key := Re.sub "\\s*6W\\s*12A" "" key in
    let key := Re.sub "\\s*OPT\\s*1" "" key in
    str_strip (Re.sub "\\s+" " " key).

(** ** Deduplication engine *)

Definition manager_priority : list string :=
  ["Client Associates"; "IND Money"; "Yes Bank"; "Motilal Oswal"; "IIFL 360 One"; "Kotak"].

(** An entry of [removed_duplicates] *)
Record removed_entry := {
  duplicate_holding : Holding;
  original_manager : string
}.

(** [get_original_manager] *)
Fixpoint get_original_manager (seen_assets : gset string) (asset_key : string)
    (clean_holdings : list Holding) : string :=
  match clean_holdings with
  | [] => "Unknown"
  | holding :: rest =>
      if String.eqb (create_asset_key (asset_name holding)) asset_key
      then manager_name holding
      else get_original_manager seen_assets asset_key rest
  end.

(** The first loop of [remove_duplicates]: one more holding filed under its
    manager *)
Definition file_holding (holdings_by_manager : gmap string (list Holding)) (holding : Holding)
    : gmap string (list Holding) :=
  let manager := manager_name holding in
  let d := match holdings_by_manager !! manager with
           | None => <[manager := []]> holdings_by_manager
           | Some _ => holdings_by_manager
           end in
  alter (fun hs => hs ++ [holding]) manager d.

Definition group_by_manager (all_holdings : list Holding) : gmap string (list Holding) :=
  fold_left file_holding all_holdings ∅.

(** The local variables of the second loop *)
Record dedup_state := {
  clean_holdings : list Holding;
  removed_duplicates : list removed_entry;
  seen_assets : gset string
}.

Definition dedup_init : dedup_state :=
  {| clean_holdings := []; removed_duplicates := []; seen_assets := ∅ |}.

(** The body of the inner loop *)
Definition dedup_holding (st : dedup_state) (holding : Holding) : dedup_state :=
  let asset_key := create_asset_key (asset_name holding) in
  if bool_decide (asset_key ∈ seen_assets st) then
    {| clean_holdings := clean_holdings st;
       removed_duplicates :=
         removed_duplicates st ++
         [{| duplicate_holding := holding;
             original_manager :=
               get_original_manager (seen_assets st) asset_key (clean_holdings st) |}];
       seen_assets := seen_assets st |}
  else
    {| clean_holdings := clean_holdings st ++ [holding];
       removed_duplicates := removed_duplicates st;
       seen_assets := {[asset_key]} ∪ seen_assets st |}.

(** The body of the outer loop: a manager without holdings is skipped *)
Definition dedup_manager (holdings_by_manager : gmap string (list Holding))
    (st : dedup_state) (manager : string) : dedup_state :=
  match holdings_by_manager !! manager with
  | None => st
  | Some holdings => fold_left dedup_holding holdings st
  end.

(** The state when the loops are over *)
Definition dedup_run (all_holdings : list Holding) : dedup_state :=
  fold_left (dedup_manager (group_by_manager all_holdings)) manager_priority dedup_init.

(** [remove_duplicates]: [return clean_holdings] *)
Definition remove_duplicates (all_holdings : list Holding) : list Holding :=
  clean_holdings (dedup_run all_holdings).

(** What a Python function hands back: here a list of holdings, or a pair
    of such a list and a log of removed entries *)
Inductive py_value :=
| PyList (holdings : list Holding)
| PyPair (holdings : list Holding) (log : list removed_entry).

(** The value of the [return] statement of [remove_duplicates] *)
Definition remove_duplicates_return (all_holdings : list Holding) : py_value :=
  PyList (remove_duplicates all_holdings).

(** Comparisons of Python floats *)
Definition gt (a b : float) : bool := PrimFloat.ltb b a.
Definition is_zero (a : float) : bool := PrimFloat.eqb a 0.

(** ** [CurrencyConverter] (src/utils/currency_converter.py) *)

Module CurrencyConverter.

(** What the converter finds outside the program when asked for a rate: a
    cache entry younger than 24 hours under the cache key, and the answer of
    the rate service ([None] for a time-out, a status other than 200, a
    payload without the currency, or a rate of zero). *)
Record world := {
  valid_cache : string -> option float;
  service_rate : string -> string -> option float
}.

Definition fallback_rates : list (string * float) :=
  [("USD_INR", 83.25%float); ("EUR_INR", 90.5%float); ("GBP_INR", 105.75%float)].

Fixpoint lookup_rate (d : list (string * float)) (k : string) : option float :=
  match d with
  | [] => None
  | (k', v) :: d' => if String.eqb k k' then Some v else lookup_rate d' k
  end.

(** [get_exchange_rate(from_currency, to_currency)]; [None] is Python's *)
Definition get_exchange_rate (w : world) (from_currency to_currency : string)
    : option float :=
  let cache_key := from_currency +:+ "_" +:+ to_currency in
  match valid_cache w cache_key with
  | Some rate => Some rate
  | None =>
      match service_rate w from_currency to_currency with
      | Some rate => Some rate
      | None => lookup_rate fallback_rates cache_key
      end
  end.

(** The attributes of an instance: the methods of the class and the fields
    [__init__] assigns *)
Inductive attribute :=
| load_cache
| save_cache
| is_cache_valid
| get_exchange_rate_method
| convert_amount
| format_currency
| cache_file
| cache
| api_base.

Definition attributes : list (string * attribute) :=
  [("load_cache", load_cache); ("save_cache", save_cache);
   ("is_cache_valid", is_cache_valid); ("get_exchange_rate", get_exchange_rate_method);
   ("convert_amount", convert_amount); ("format_currency", format_currency);
   ("cache_file", cache_file); ("cache", cache); ("api_base", api_base)].

(** [converter.<name>]: Python raises [AttributeError] for a name the
    instance does not have *)
Fixpoint find_attribute (l : list (string * attribute)) (name : string) : result attribute :=
  match l with
  | [] => Raise AttributeError
  | (n, a) :: l' => if String.eqb name n then Ok a else find_attribute l' name
  end.
Definition getattr (name : string) : result attribute := find_attribute attributes name.

(** [attr(arg)] read as a rate. Only [get_exchange_rate] yields a number
    from one string (the string is its [from_currency]); with [None] or
    with any other attribute the arithmetic on the rate fails. *)
Definition call_for_rate (w : world) (a : attribute) (arg : string) : result float :=
  match a with
  | get_exchange_rate_method =>
      match get_exchange_rate w arg "INR" with
      | Some rate => Ok rate
      | None => Raise TypeError
      end
  | _ => Raise TypeError
  end.

End CurrencyConverter.

(** ** [INDMoneyExtractor] *)

Module INDMoney.

Definition period_months : list (string * string) :=
  [("JANUARY", "01"); ("FEBRUARY", "02"); ("MARCH", "03"); ("APRIL", "04");
   ("MAY", "05"); ("JUNE", "06"); ("JULY", "07"); ("AUGUST", "08");
   ("SEPTEMBER", "09"); ("OCTOBER", "10"); ("NOVEMBER", "11"); ("DECEMBER", "12")].

(** [parse_date_from_period] *)
Definition parse_date_from_period (period_str : string) : string :=
  if negb (truthy period_str) then ""
  else
    match Re.search "([A-Z]+)\s*-\s*(\d{4})" (str_upper period_str) with
    | Some m =>
        let month_name := Re.group m 1 in
        let year := Re.group m 2 in
        let month_num := dict_get period_months (str_upper month_name) "12" in
        let day :=
          if str_among month_num ["01"; "03"; "05"; "07"; "08"; "10"; "12"] then "31"
          else if str_among month_num ["04"; "06"; "09"; "11"] then "30"
          else "28" in
        year +:+ "-" +:+ month_num +:+ "-" +:+ day
    | None => ""
    end.

Definition holdings_keywords : list string :=
  ["HOLDINGS"; "SYMBOL"; "MARKET PRICE"; "COST BASIS"; "QUANTITY";
   "PORTFOLIO"; "STOCK"; "SHARES"; "USD"; "UNREALIZED"].

(** The column scan of one row: market value and cost basis in USD *)
Definition scan_cell (acc : float * float) (ic : nat * cell) : float * float :=
  let '(market_value_usd, cost_basis_usd) := acc in
  let '(col_idx, c) := ic in
  if cell_truthy c then
    let value := currency_value c in
    let market_value_usd :=
      if gt value 100 && (3 <=? col_idx) then
        if is_zero market_value_usd || (col_idx =? 4) then value else market_value_usd
      else market_value_usd in
    let cost_basis_usd :=
      if gt value 100 && (6 <=? col_idx) then
        if is_zero cost_basis_usd || (col_idx =? 7) then value else cost_basis_usd
      else cost_basis_usd in
    (market_value_usd, cost_basis_usd)
  else acc.

Definition scan_columns (r : row) : float * float :=
  fold_left scan_cell (enumerate r) (0%float, 0%float).

(** The body of the row loop: the holdings it appends *)
Definition extract_row (exchange_rate : float) (holding_dates : list (string * string))
    (report_date : string) (page_num table_idx : nat) (ir : nat * row) : list Holding :=
  let '(row_idx, r) := ir in
  if (length r <? 5) then []
  else
    let symbol := if cell_truthy (cell_at r 0) then str_strip (str_of_cell (cell_at r 0)) else "" in
    let description :=
      if cell_truthy (cell_at r 1) then str_strip (str_of_cell (cell_at r 1)) else "" in
    if negb (truthy symbol) || str_startswith symbol "*" || String.eqb symbol "Symbol"
       || str_among symbol ["Total"; "Grand Total"]
    then []
    else
      let '(market_value_usd, cost_basis_usd) := scan_columns r in
      let market := (market_value_usd * exchange_rate)%float in
      let invested := (cost_basis_usd * exchange_rate)%float in
      let pl := (market - invested)%float in
      let holding := {|
        manager_name := "IND Money";
        asset_type := "US Stocks";
        asset_name := symbol +:+ " - " +:+ str_prefix description 30;
        current_investment_value := invested;
        current_market_value := market;
        value_as_of_date := report_date;
        pl_amount := pl;
        pl_percentage :=
          if gt invested 0 then (pl / invested * 100)%float
          else pl_percentage standard_schema;
        irr_percentage := irr_percentage standard_schema;
        investment_date := dict_get holding_dates symbol "";
        raw_data :=
          [("symbol", RawStr symbol); ("market_value_usd", RawNum market_value_usd);
           ("cost_basis_usd", RawNum cost_basis_usd); ("exchange_rate", RawNum exchange_rate);
           ("page", RawInt (page_num + 1)); ("table_index", RawInt table_idx);
           ("row_index", RawInt row_idx)];
        potential_duplicate := potential_duplicate standard_schema
      |} in
      if gt (current_market_value holding) 0 then [holding] else [].

(** Index of the header row among the first three rows *)
Definition find_header (t : table) : option nat :=
  fst <$> list_find (fun r => row_mentions "Symbol" r = true) (firstn 3 t).

Definition extract_table (exchange_rate : float) (holding_dates : list (string * string))
    (report_date : string) (page_num : nat) (it : nat * table) : list Holding :=
  let '(table_idx, t) := it in
  if length t <? 3 then []
  else
    match find_header t with
    | None => []
    | Some header_row_idx =>
        flat_map (extract_row exchange_rate holding_dates report_date page_num table_idx)
          (enumerate_from (header_row_idx + 1) (skipn (header_row_idx + 1) t))
    end.

Definition extract_page (exchange_rate : float) (holding_dates : list (string * string))
    (report_date : string) (ip : nat * Page) : list Holding :=
  let '(page_num, page) := ip in
  let text := extract_text page in
  let has_holdings_keywords := any_in holdings_keywords (str_upper text) in
  if negb has_holdings_keywords then []
  else
    let is_summary_only :=
      str_in "SUMMARY" (str_upper text) && negb (str_in "DETAILED" (str_upper text))
      && (2 <? str_count text "Total") in
    if is_summary_only then []
    else
      flat_map (extract_table exchange_rate holding_dates report_date page_num)
        (enumerate (extract_tables page)).

(** The report date read from the first page *)
Definition read_report_date (pages : list Page) : string :=
  match pages with
  | [] => ""
  | first :: _ =>
      match Re.search "Monthly Statement Period:\s*([A-Z]+\s*-\s*\d{4})" (extract_text first) with
      | Some period_match => parse_date_from_period (Re.group period_match 1)
      | None => ""
      end
  end.

(** The pages loop, for a rate in hand *)
Definition extract_pages (exchange_rate : float) (holding_dates : list (string * string))
    (report_date : string) (pages : list Page) : list Holding :=
  flat_map (extract_page exchange_rate holding_dates report_date) (enumerate pages).

(** [extract]. [holding_dates] is what [get_holding_dates_from_excel] read
    from the spreadsheet (empty without one: that method catches its own
    exceptions). The rate is asked of the converter under the name
    [get_usd_to_inr_rate]; the whole body is one [try] whose handler
    returns the empty list. *)
Definition extract (w : CurrencyConverter.world) (file : pdf)
    (holding_dates : list (string * string)) : list Holding :=
  try_except
    (pages ← file;
     let report_date := read_report_date pages in
     method ← CurrencyConverter.getattr "get_usd_to_inr_rate";
     exchange_rate ← CurrencyConverter.call_for_rate w method report_date;
     mret (extract_pages exchange_rate holding_dates report_date pages))
    (fun _ => []).

End INDMoney.

(** ** [ClientAssociatesExtractor] *)

Module ClientAssociates.

Definition holdings_keywords : list string :=
  ["SECURITY"; "AIF"; "FUND"; "EQUITY"; "DEBT"; "MARKET VALUE";
   "TOTAL COST"; "UNIT COST"; "QUANTITY"; "IRR%"; "G/L"].

Definition fund_keywords : list string := ["Fund"; "AIF"; "Alpha"; "Growth"].

Definition is_date_part (part : string) : bool :=
  Re.found (Re.match_ "\d{2}/\d{2}/\d{4}" part).

(** The conversion loop over the parts of a line: a part with a dot, or all
    digits, is handed to [float]; a [ValueError] skips the part. *)
Definition convert_part (part : string) : list float :=
  let clean_part := Re.sub "[,]" "" part in
  if str_in "." clean_part || str_isdigit clean_part then
    try_except (value ← py_float clean_part; mret [value]) (fun _ => [])
  else [].

Definition convert_parts (parts : list string) : list float := flat_map convert_part parts.

(** One of the three lines after a fund line, read as a line of ten numbers *)
Definition candidate_values (text_lines : list string) (k : nat) : option (list float) :=
  match text_lines !! k with
  | None => None
  | Some l =>
      let candidate_line := str_strip l in
      if (str_len candidate_line <? 20) || str_among candidate_line ["Jan-23"; "23"; "Feb-23"]
      then None
      else if truthy candidate_line
              && forallb (fun c => Chr.is_digit c || existsb (Ascii.eqb c) (Str.of_string "., "))
                   (Str.of_string candidate_line)
      then
        let values := convert_parts (str_split candidate_line) in
        if length values =? 10 then Some values else None
      else None
  end.

Definition next_line_values (text_lines : list string) (i : nat) : option (list float) :=
  match candidate_values text_lines (i + 1) with
  | Some v => Some v
  | None =>
      match candidate_values text_lines (i + 2) with
      | Some v => Some v
      | None => candidate_values text_lines (i + 3)
      end
  end.

(** [xs[k]] for a list of numbers, where the code has checked the length *)
Definition num_at (xs : list float) (k : nat) : float := nth k xs 0%float.

(** A fund line of the page text: the holdings it appends. [line] is the
    stripped line number [i] of [text_lines]. *)
Definition extract_fund_line (report_date current_category : string) (page_num : nat)
    (text_lines : list string) (i : nat) (line : string) : list Holding :=
  let parts := str_split line in
  (* the parts before the first date, and whether a date was found *)
  let fund_name_parts := take_while (fun part => negb (is_date_part part)) parts in
  let date_part := parts !! length fund_name_parts in
  match date_part with
  | None => []
  | Some part =>
      let investment_date := parse_date part in
      match fund_name_parts with
      | [] => []
      | _ =>
          let fund_name := str_join " " fund_name_parts in
          let date_index := length fund_name_parts in
          let converted_values :=
            if 0 <? date_index then
              match next_line_values text_lines i with
              | Some values => values
              | None => convert_parts (skipn (date_index + 1) parts)
              end
            else [] in
          let enough := (0 <? date_index) && (5 <=? length converted_values) in
          let total_cost := if enough then num_at converted_values 2 else 0%float in
          let market_value := if enough then num_at converted_values 4 else 0%float in
          let pl := if enough then (market_value - total_cost)%float else 0%float in
          let pl_pct :=
            if enough && gt total_cost 0 then (pl / total_cost * 100)%float else 0%float in
          let irr :=
            if enough && (8 <? length converted_values) then num_at converted_values 8
            else 0%float in
          if gt total_cost 1000 && gt market_value 1000 then
            [{| manager_name := "Client Associates";
                asset_type := "AIF";
                asset_name := fund_name;
                current_investment_value := total_cost;
                current_market_value := market_value;
                value_as_of_date := report_date;
                pl_amount := pl;
                pl_percentage := pl_pct;
                irr_percentage := irr;
                investment_date := investment_date;
                raw_data :=
                  [("category", RawStr current_category); ("line_number", RawInt (i + 1));
                   ("page", RawInt (page_num + 1)); ("numeric_values", RawNums converted_values);
                   ("raw_line", RawStr line); ("irr_percentage", RawNum irr)];
                potential_duplicate := potential_duplicate standard_schema |}]
          else []
      end
  end.

(** The loop over the lines of a page: the category seen last, and the
    holdings appended *)
Definition text_line_step (report_date : string) (page_num : nat) (text_lines : list string)
    (acc : string * list Holding) (il : nat * string) : string * list Holding :=
  let '(current_category, found) := acc in
  let '(i, raw_line) := il in
  let line := str_strip raw_line in
  if str_among line ["Equity"; "Debt"] then (line, found)
  else if negb (truthy line) || str_among line ["-"; "PRIVATE AND CONFIDENTIAL"]
          || str_in "Report Date" line
  then acc
  else if any_in fund_keywords line && str_any_digit line then
    (current_category,
     found ++ extract_fund_line report_date current_category page_num text_lines i line)
  else acc.

Definition extract_text_lines (report_date : string) (page_num : nat) (text : string)
    : list Holding :=
  let text_lines := str_split_lines text in
  snd (fold_left (text_line_step report_date page_num text_lines) (enumerate text_lines)
         ("", [])).

(** A row of the backup table path; [holdings] is everything appended so
    far, which the duplicate test reads *)
Definition table_row_step (report_date : string) (page_num table_idx : nat)
    (holdings : list Holding) (ir : nat * row) : list Holding :=
  let '(row_idx, r) := ir in
  if length r <? 8 then holdings
  else
    let security_name :=
      if cell_truthy (cell_at r 0) then str_strip (str_of_cell (cell_at r 0)) else "" in
    if negb (truthy security_name)
       || str_among security_name ["Security"; "Equity"; "Debt"; "-"; "Equity - Total"]
       || str_in "Date" security_name
    then holdings
    else if any_in fund_keywords security_name then
      let investment_date :=
        if 1 <? length r then parse_date (str_of_cell (cell_at r 1)) else "" in
      let total_cost := if 6 <? length r then currency_value (cell_at r 6) else 0%float in
      let market_value := if 8 <? length r then currency_value (cell_at r 8) else 0%float in
      let pl := if 10 <? length r then currency_value (cell_at r 10) else 0%float in
      let pl_pct := if 11 <? length r then currency_value (cell_at r 11) else 0%float in
      if gt total_cost 1000 && gt market_value 1000 then
        let duplicate :=
          existsb (fun h => String.eqb (asset_name h) security_name
                            && PrimFloat.ltb (abs (current_investment_value h - total_cost)) 1000)
            holdings in
        if negb duplicate then
          holdings ++
          [{| manager_name := "Client Associates";
              asset_type := "AIF";
              asset_name := security_name;
              current_investment_value := total_cost;
              current_market_value := market_value;
              value_as_of_date := report_date;
              pl_amount := pl;
              pl_percentage := pl_pct;
              irr_percentage := irr_percentage standard_schema;
              investment_date := investment_date;
              raw_data :=
                [("page", RawInt (page_num + 1)); ("table_index", RawInt table_idx);
                 ("row_index", RawInt row_idx); ("source", RawStr "table")];
              potential_duplicate := potential_duplicate standard_schema |}]
        else holdings
      else holdings
    else holdings.

Definition table_step (report_date : string) (page_num : nat)
    (holdings : list Holding) (it : nat * table) : list Holding :=
  let '(table_idx, t) := it in
  if length t <? 2 then holdings
  else if existsb (row_mentions "Security") (firstn 3 t) then
    fold_left (table_row_step report_date page_num table_idx) (enumerate t) holdings
  else holdings.

Definition page_step (report_date : string) (holdings : list Holding) (ip : nat * Page)
    : list Holding :=
  let '(page_num, page) := ip in
  let text := extract_text page in
  if negb (any_in holdings_keywords (str_upper text)) then holdings
  else if str_in "RETURN (XIRR)" text && negb (str_in "SECURITY" text) then holdings
  else
    let holdings := holdings ++ extract_text_lines report_date page_num text in
    fold_left (table_step report_date page_num) (enumerate (extract_tables page)) holdings.

(** [extract]: [pdf.pages[0]] raises [IndexError] on a document without
    pages; the handler of the enclosing [try] returns the empty list. *)
Definition extract (file : pdf) : list Holding :=
  try_except
    (pages ← file;
     first ← match pages with
             | [] => Raise IndexError
             | p :: _ => Ok p
             end;
     let report_date :=
       match Re.search "Report Date : (\d{2}/\d{2}/\d{4})" (extract_text first) with
       | Some date_match => parse_date (Re.group date_match 1)
       | None => ""
       end in
     mret (fold_left (page_step report_date) (enumerate pages) []))
    (fun _ => []).

End ClientAssociates.

(** [parse_date_from_text], the same method in [IIFL360OneExtractor] and
    [MotilalOswalExtractor] *)
Definition parse_date_from_text (text : string) : string :=
  if negb (truthy text) then ""
  else
    match Re.search "(\d{1,2})\s+(\w+)\s+(\d{4})" text with
    | Some date_match =>
        let day := Re.group date_match 1 in
        let month := Re.group date_match 2 in
        let year := Re.group date_match 3 in
        let month_num := dict_get month_map (str_prefix (str_lower month) 3) "01" in
        year +:+ "-" +:+ month_num +:+ "-" +:+ str_zfill day 2
    | None => ""
    end.

(** [str(row[i]).strip() if row[i] else ''] *)
Definition stripped_cell (r : row) (i : nat) : string :=
  if cell_truthy (cell_at r i) then str_strip (str_of_cell (cell_at r i)) else "".

(** ** [MotilalOswalExtractor] *)

Module MotilalOswal.

Definition equity_row (report_date : string) (r : row) : list Holding :=
  if length r <? 10 then []
  else
    let sector := stripped_cell r 0 in
    let security := stripped_cell r 1 in
    let isin := stripped_cell r 2 in
    if negb (truthy security) || str_in "Total" security || negb (truthy isin)
       || String.eqb security "-"
    then []
    else
      let invested :=
        if 11 <? length r then currency_value (cell_at r 11)
        else current_investment_value standard_schema in
      let market :=
        if 13 <? length r then currency_value (cell_at r 13)
        else current_market_value standard_schema in
      let pl := (market - invested)%float in
      let holding := {|
        manager_name := "Motilal Oswal";
        asset_type := "Direct Equity";
        asset_name := security;
        current_investment_value := invested;
        current_market_value := market;
        value_as_of_date := report_date;
        pl_amount := pl;
        pl_percentage :=
          if gt invested 0 then (pl / invested * 100)%float
          else pl_percentage standard_schema;
        irr_percentage := irr_percentage standard_schema;
        investment_date := investment_date standard_schema;
        raw_data := [("sector", RawStr sector); ("isin", RawStr isin);
                     ("page", RawStr "Direct Equity")];
        potential_duplicate := potential_duplicate standard_schema
      |} in
      if gt (current_market_value holding) 0 then [holding] else [].

(** The header of a table: its first row *)
Definition header_mentions (kw : string) (t : table) : bool :=
  existsb (fun c => cell_truthy c && str_in kw (str_of_cell c)) (nth 0 t []).

(** [extract_direct_equity] *)
Definition extract_direct_equity (page : Page) (report_date : string) : list Holding :=
  flat_map
    (fun t =>
       if length t <? 2 then []
       else if header_mentions "ISIN" t then flat_map (equity_row report_date) (skipn 1 t)
       else [])
    (extract_tables page).

Definition aif_row (report_date : string) (r : row) : list Holding :=
  if length r <? 8 then []
  else
    let category := stripped_cell r 0 in
    let instrument := stripped_cell r 1 in
    let asset_class := stripped_cell r 3 in
    if negb (truthy instrument) || str_in "Total" category || negb (truthy asset_class)
       || String.eqb instrument "-"
    then []
    else
      let invested :=
        if 5 <? length r then currency_value (cell_at r 5)
        else current_investment_value standard_schema in
      let market :=
        if 6 <? length r then currency_value (cell_at r 6)
        else current_market_value standard_schema in
      let pl := (market - invested)%float in
      let holding := {|
        manager_name := "Motilal Oswal";
        asset_type := "AIF";
        asset_name := instrument;
        current_investment_value := invested;
        current_market_value := market;
        value_as_of_date := report_date;
        pl_amount := pl;
        pl_percentage :=
          if gt invested 0 then (pl / invested * 100)%float
          else pl_percentage standard_schema;
        irr_percentage := irr_percentage standard_schema;
        investment_date := investment_date standard_schema;
        raw_data :=
          [("category", RawStr category);
           ("xirr", RawNum (if 11 <? length r then currency_value (cell_at r 11) else 0%float));
           ("page", RawStr "AIF")];
        potential_duplicate := potential_duplicate standard_schema
      |} in
      if gt (current_market_value holding) 0 then [holding] else [].

(** [extract_aif_holdings] *)
Definition extract_aif_holdings (page : Page) (report_date : string) : list Holding :=
  flat_map
    (fun t =>
       if length t <? 2 then []
       else if header_mentions "Instrument" t then flat_map (aif_row report_date) (skipn 1 t)
       else [])
    (extract_tables page).

Definition equity_keywords : list string :=
  ["DIRECT EQUITY"; "EQUITY HOLDING"; "ISIN"; "SECTOR"; "SECURITY";
   "MARKET VALUE"; "INVESTMENT VALUE"; "UNREALIZED"].
Definition aif_keywords : list string :=
  ["AIF"; "ALTERNATIVE INVESTMENT"; "INSTRUMENT"; "ASSET CLASS";
   "PORTFOLIO MANAGEMENT"; "FUND MANAGER"; "XIRR"].

Definition extract_page (report_date : string) (ip : nat * Page) : list Holding :=
  let '(page_num, page) := ip in
  let text := extract_text page in
  if page_num <? 2 then []
  else
    let has_equity_keywords := any_in equity_keywords (str_upper text) in
    let has_aif_keywords := any_in aif_keywords (str_upper text) in
    if negb has_equity_keywords && negb has_aif_keywords then []
    else
      let is_summary_only :=
        str_in "SUMMARY" (str_upper text) && negb (str_in "DETAILED" (str_upper text))
        && (3 <? str_count text "Total") in
      if is_summary_only then []
      else
        (if has_equity_keywords then extract_direct_equity page report_date else [])
        ++ (if has_aif_keywords then extract_aif_holdings page report_date else []).

(** [extract] *)
Definition extract (file : pdf) : list Holding :=
  try_except
    (pages ← file;
     let report_date :=
       match pages with
       | [] => ""
       | first :: _ => parse_date_from_text (extract_text first)
       end in
     mret (flat_map (extract_page report_date) (enumerate pages)))
    (fun _ => []).

End MotilalOswal.

(** ** [YesBankExtractor] *)

Module YesBank.

(** [_classify_asset_type] *)
Definition _classify_asset_type (category fund_name : string) : string :=
  if str_in "Index" category || str_in "INDEX" (str_upper fund_name) || str_in "ETF" category
  then "Index Funds/ETFs"
  else if str_in "Equity" category then "Equity Mutual Funds"
  else if str_in "Debt" category then "Debt Mutual Funds"
  else if str_in "Hybrid" category then "Hybrid Mutual Funds"
  else "Mutual Funds".

Definition amount_pattern : string := "\d+,\d+,\d+\.\d+".
Definition financial_pattern : string := "\d+,\d+,\d+\.\d+.*\d+\.\d+.*\d+,\d+,\d+\.\d+".

(** An entry of [individual_funds] *)
Record fund := {
  name : string;
  investment : float;
  current : float;
  fund_raw_data : string
}.

(** The loop over the lines of a cell: the name lines gathered, and the
    line with the financial data when one is found *)
Fixpoint scan_fund_lines (lines : list string) (fund_name_lines : list string)
    : list string * option string :=
  match lines with
  | [] => (fund_name_lines, None)
  | line :: rest =>
      if Re.found (Re.search financial_pattern line) then
        let fund_name_in_line :=
          take_while (fun word => negb (Re.found (Re.match_ amount_pattern word)))
            (str_split line) in
        (fund_name_lines ++ fund_name_in_line, Some line)
      else scan_fund_lines rest (fund_name_lines ++ [str_strip line])
  end.

(** One round of the loop over rows 1 and 2 of a table; the state is the
    current [fund_name] and [individual_funds] *)
Definition scan_fund_row (t : table) (acc : string * list fund) (row_idx : nat)
    : string * list fund :=
  let '(fund_name, individual_funds) := acc in
  match t !! row_idx with
  | Some r =>
      if cell_truthy (cell_at r 0) then
        let fund_text := str_strip (str_of_cell (cell_at r 0)) in
        if truthy fund_text && Re.found (Re.search amount_pattern fund_text) then
          match scan_fund_lines (str_split_lines fund_text) [] with
          | (fund_name_lines, Some financial_data) =>
              let fund_name := str_strip (str_join " " fund_name_lines) in
              let numbers := Re.findall amount_pattern financial_data in
              if 2 <=? length numbers then
                (fund_name,
                 individual_funds ++
                 [{| name := fund_name;
                     investment := currency_value (numbers !! 0);
                     current := currency_value (numbers !! 1);
                     fund_raw_data := financial_data |}])
              else (fund_name, individual_funds)
          | (_, None) => acc
          end
        else acc
      else acc
  | None => acc
  end.

Definition fund_holding (report_date category : string) (page_num table_idx : nat) (f : fund)
    : list Holding :=
  if gt (investment f) 1000 && gt (current f) 1000 then
    let pl := (current f - investment f)%float in
    [{| manager_name := "Yes Bank";
        asset_type := _classify_asset_type category (name f);
        asset_name := name f;
        current_investment_value := investment f;
        current_market_value := current f;
        value_as_of_date := report_date;
        pl_amount := pl;
        pl_percentage :=
          if gt (investment f) 0 then (pl / investment f * 100)%float
          else pl_percentage standard_schema;
        irr_percentage := irr_percentage standard_schema;
        investment_date := investment_date standard_schema;
        raw_data :=
          [("category", RawStr category); ("table_index", RawInt table_idx);
           ("raw_financial_data", RawStr (fund_raw_data f)); ("page", RawInt (page_num + 1))];
        potential_duplicate := potential_duplicate standard_schema |}]
  else [].

(** The simple case: the name in row 1, the amounts in row 2 *)
Definition simple_table (report_date category fund_name : string) (page_num table_idx : nat)
    (t : table) : list Holding :=
  let fund_name :=
    match t !! 1 with
    | Some r =>
        if cell_truthy (cell_at r 0) then
          let full_text := str_strip (str_of_cell (cell_at r 0)) in
          let fund_name_parts :=
            map str_strip
              (take_while (fun line => negb (Re.found (Re.search amount_pattern line)))
                 (str_split_lines full_text)) in
          str_strip (str_join " " fund_name_parts)
        else fund_name
    | None => fund_name
    end in
  match t !! 2 with
  | Some r =>
      if 4 <=? length r then
        let investment_str := if cell_truthy (cell_at r 1) then str_of_cell (cell_at r 1) else "" in
        let current_value_str :=
          if cell_truthy (cell_at r 3) then str_of_cell (cell_at r 3) else "" in
        let investment_amount := currency_value (Some investment_str) in
        let current_value := currency_value (Some current_value_str) in
        if gt investment_amount 1000 && gt current_value 1000 && truthy fund_name then
          let pl := (current_value - investment_amount)%float in
          [{| manager_name := "Yes Bank";
              asset_type := _classify_asset_type category fund_name;
              asset_name := fund_name;
              current_investment_value := investment_amount;
              current_market_value := current_value;
              value_as_of_date := report_date;
              pl_amount := pl;
              pl_percentage :=
                if gt investment_amount 0 then (pl / investment_amount * 100)%float
                else pl_percentage standard_schema;
              irr_percentage := irr_percentage standard_schema;
              investment_date := investment_date standard_schema;
              raw_data :=
                [("category", RawStr category); ("table_index", RawInt table_idx);
                 ("investment_str", RawStr investment_str);
                 ("current_value_str", RawStr current_value_str);
                 ("page", RawInt (page_num + 1))];
              potential_duplicate := potential_duplicate standard_schema |}]
        else []
      else []
  | None => []
  end.

Definition extract_table (report_date : string) (page_num : nat) (it : nat * table)
    : list Holding :=
  let '(table_idx, t) := it in
  if length t <? 2 then []
  else
    let has_fund_names :=
      existsb (fun r => cell_truthy (cell_at r 0)
                        && any_in ["FUND"; "SCHEME"; "PLAN"; "INDEX"]
                             (str_upper (str_of_cell (cell_at r 0)))) t in
    if negb has_fund_names then []
    else
      let category := stripped_cell (nth 0 t []) 0 in
      let '(fund_name, individual_funds) := fold_left (scan_fund_row t) [1; 2] ("", []) in
      match individual_funds with
      | _ :: _ => flat_map (fund_holding report_date category page_num table_idx) individual_funds
      | [] => simple_table report_date category fund_name page_num table_idx t
      end.

Definition extract_page (report_date : string) (ip : nat * Page) : list Holding :=
  let '(page_num, page) := ip in
  let text := extract_text page in
  if page_num <? 5 then []
  else
    let has_investment_keywords :=
      any_in ["FUND"; "SCHEME"; "PLAN"; "EQUITY"; "DEBT"; "INDEX"; "GROWTH"; "DIVIDEND"]
        (str_upper text) in
    let has_fund_data :=
      any_in ["PRUDENTIAL"; "FLEXICAP"; "MULTICAP"; "MIDCAP"; "NIFTY"; "INDEX"]
        (str_upper text) in
    if negb has_investment_keywords && negb has_fund_data then []
    else
      let is_summary_only :=
        str_in "Grand Total" text && negb (str_in "Category/" text)
        && (length (str_split_lines text) <? 15) && (str_count text "," <? 10) in
      if is_summary_only then []
      else flat_map (extract_table report_date page_num) (enumerate (extract_tables page)).

(** [extract] *)
Definition extract (file : pdf) : list Holding :=
  try_except
    (pages ← file;
     mret (flat_map (extract_page "2025-08-31") (enumerate pages)))
    (fun _ => []).

End YesBank.

(** ** [IIFL360OneExtractor] *)

Module IIFL360One.

(** [_classify_asset_type] *)
Definition _classify_asset_type (instrument_name text_context : string) : string :=
  let instrument_upper := str_upper instrument_name in
  let context_upper := str_upper text_context in
  if str_in "AIF" instrument_upper || str_in "AIF" context_upper then "AIF"
  else if str_in "UNLISTED" context_upper || str_in "UNLISTED" instrument_upper
  then "Unlisted Equity"
  else if str_in "MANAGED ACCOUNTS" context_upper || str_in "DIVERSIFIED ALPHA" instrument_upper
  then "AIF"
  else if str_in "EQUITY" context_upper || str_in "EQUITY" instrument_upper
  then "Direct Equity"
  else if str_in "DEBT" context_upper || str_in "BOND" instrument_upper then "Debt/Bonds"
  else "Other".

(** The loop over the parts of a line: name parts and positive numbers *)
Definition scan_part (acc : list string * list float) (part : string)
    : list string * list float :=
  let '(instrument_name_parts, numeric_values) := acc in
  if Re.found (Re.match_ "^[\d,]+\.?\d*$" part) then
    let value := currency_value (Some part) in
    if gt value 0 then (instrument_name_parts, numeric_values ++ [value]) else acc
  else if negb (str_in "%" part) && negb (Re.found (Re.match_ "^\d{2}-\w{3}-\d{2}$" part))
  then (instrument_name_parts ++ [part], numeric_values)
  else acc.

(** The look-ahead that completes the instrument name; [lines] are the
    lines after the current one, at most nine of them *)
Fixpoint continue_name (lines : list string) (instrument_name : string) : string :=
  match lines with
  | [] => instrument_name
  | raw :: rest =>
      let next_line := str_strip raw in
      if truthy next_line
         && any_in ["FUND"; "MANAGER"; "ALPHA"; "CLASS"; "AIF"; "CATEGORY"; "LIMITED"; "PRIVATE"]
              (str_upper next_line)
      then
        if negb (Re.found (Re.search "[\d,]+\.?\d*\s*%" next_line)) && (3 <? str_len next_line)
        then continue_name rest (instrument_name +:+ " " +:+ next_line)
        else continue_name rest instrument_name
      else if (truthy next_line && str_in "BSE" (str_upper next_line))
              || str_in "INDEX" (str_upper next_line)
      then continue_name rest (instrument_name +:+ " " +:+ next_line)
      else if negb (truthy next_line)
              || any_in ["TOTAL"; "UNLISTED"; "MANAGED"; "GAIN/LOSS"; "PRICE"] (str_upper next_line)
      then instrument_name
      else continue_name rest instrument_name
  end.

(** An instrument line: the holdings it appends *)
Definition extract_instrument_line (report_date current_category : string) (page_num : nat)
    (text_lines : list string) (i : nat) (line : string) : list Holding :=
  let '(instrument_name_parts, numeric_values) := fold_left scan_part (str_split line) ([], []) in
  let instrument_name := str_join " " instrument_name_parts in
  let instrument_name :=
    continue_name (firstn 9 (skipn (i + 1) text_lines)) instrument_name in
  if 3 <=? length numeric_values then
    let first := nth 0 numeric_values 0%float in
    let quantity := if PrimFloat.ltb first 100000 then first else 0%float in
    let large_amounts := List.filter (fun v => gt v 100000) numeric_values in
    let holding_cost := if 2 <=? length large_amounts then nth 0 large_amounts 0%float else 0%float in
    let current_value := if 2 <=? length large_amounts then nth 1 large_amounts 0%float else 0%float in
    if gt holding_cost 1000 && gt current_value 1000 && truthy instrument_name then
      let pl := (current_value - holding_cost)%float in
      [{| manager_name := "IIFL 360 One";
          asset_type := _classify_asset_type instrument_name current_category;
          asset_name := str_prefix (str_strip instrument_name) 100;
          current_investment_value := holding_cost;
          current_market_value := current_value;
          value_as_of_date := report_date;
          pl_amount := pl;
          pl_percentage :=
            if gt holding_cost 0 then (pl / holding_cost * 100)%float
            else pl_percentage standard_schema;
          irr_percentage := irr_percentage standard_schema;
          investment_date := investment_date standard_schema;
          raw_data :=
            [("category", RawStr current_category); ("line_number", RawInt (i + 1));
             ("quantity", RawNum quantity); ("page", RawInt (page_num + 1));
             ("numeric_values", RawNums numeric_values); ("raw_line", RawStr line)];
          potential_duplicate := potential_duplicate standard_schema |}]
    else []
  else [].

(** The [while] loop over the lines: [i] goes up by one each round *)
Definition text_line_step (report_date : string) (page_num : nat) (text_lines : list string)
    (acc : string * list Holding) (il : nat * string) : string * list Holding :=
  let '(current_category, found) := acc in
  let '(i, raw_line) := il in
  let line := str_strip raw_line in
  if any_in ["MANAGED ACCOUNTS EQUITY"; "UNLISTED EQUITY"; "DIRECT EQUITY"; "DEBT"]
       (str_upper line)
  then (line, found)
  else if truthy line
          && any_in ["ABAKKUS"; "DIVERSIFIED"; "NATIONAL STOCK EXCHANGE"; "FUND"] (str_upper line)
  then
    (current_category,
     found ++ extract_instrument_line report_date current_category page_num text_lines i line)
  else acc.

Definition extract_page (report_date : string) (ip : nat * Page) : list Holding :=
  let '(page_num, page) := ip in
  let text := extract_text page in
  if page_num <? 3 then []
  else
    let has_holdings_keywords :=
      any_in ["DETAILED HOLDING"; "HOLDING STATEMENT"; "MANAGED ACCOUNTS"; "UNLISTED EQUITY";
              "INSTRUMENT NAME"; "PORTFOLIO MANAGER"; "HOLDING COST"; "NET ASSET VALUE"; "AIF"]
        (str_upper text) in
    let has_instrument_data :=
      any_in ["ABAKKUS"; "DIVERSIFIED"; "ALPHA FUND"; "NATIONAL STOCK EXCHANGE";
              "PORTFOLIO MANAGER"; "QUANTITY"]
        (str_upper text) in
    if negb has_holdings_keywords && negb has_instrument_data then []
    else
      let is_summary_only :=
        str_in "SUMMARY OF TOTAL PORTFOLIO" text && negb (str_in "INSTRUMENT NAME" text)
        && negb (str_in "DETAILED HOLDING" text) in
      let is_transaction_only :=
        (str_in "TRANSACTION STATEMENT" text || str_in "CORPORATE ACTION" text)
        && negb (str_in "HOLDING STATEMENT" text) in
      if is_summary_only || is_transaction_only then []
      else
        let text_lines := str_split_lines text in
        (* the loop over the tables that follows appends nothing *)
        snd (fold_left (text_line_step report_date page_num text_lines)
               (enumerate text_lines) ("", [])).

(** [extract] *)
Definition extract (file : pdf) : list Holding :=
  try_except
    (pages ← file;
     let report_date :=
       match pages with
       | [] => ""
       | first :: _ => parse_date_from_text (extract_text first)
       end in
     mret (flat_map (extract_page report_date) (enumerate pages)))
    (fun _ => []).

End IIFL360One.

(** ** [KotakExtractor] *)

Module Kotak.

(** [self.duplicate_patterns] *)
Definition duplicate_patterns : list (string * string) :=
  [("ALTACURA.*AI.*ABSOLUTE.*RETURN.*FUND", "Client Associates");
   ("ASK.*GROWTH.*INDIA.*FUND", "Client Associates");
   ("WHITE.*OAK.*INDIA.*EQUITY.*FUND", "Client Associates");
   ("ACCURACAP.*ALPHA", "Client Associates");
   ("WHITE.*SPACE.*ALPHA.*FUND", "Client Associates")].

(** [_check_for_duplicates] *)
Definition _check_for_duplicates (instrument_name : string) : list string :=
  flat_map
    (fun pattern_info =>
       if Re.found (Re.search (fst pattern_info) (str_upper instrument_name))
       then [snd pattern_info] else [])
    duplicate_patterns.

(** [_classify_kotak_asset_type] *)
Definition _classify_kotak_asset_type (category instrument_name : string) : string :=
  let category_upper := if truthy category then str_upper category else "" in
  let instrument_upper := str_upper instrument_name in
  if str_in "AIF" instrument_upper || str_in "CLASS A1" instrument_upper then "AIF"
  else if str_in "MUTUAL FUNDS" category_upper || str_in "FUND" instrument_upper
  then "Mutual Funds"
  else if str_in "BONDS" category_upper || str_in "NCD" instrument_upper
          || str_in "BD" instrument_upper
  then "Bonds"
  else if str_in "DIRECT EQUITY" category_upper || str_in "LTD" instrument_upper
  then "Direct Equity"
  else if str_in "BANK" category_upper || str_in "CASH" category_upper then "Cash/Bank"
  else "Other".

(** [_is_numeric_string] *)
Definition _is_numeric_string (s : string) : bool :=
  if negb (truthy s) then false
  else
    let cleaned := Re.sub "[,\s₹\-]" "" s in
    str_isdigit (str_replace cleaned "." "") && (2 <? str_len cleaned).

(** [any(self._is_numeric_string(str(cell)) for cell in cells if cell)] *)
Definition has_numeric_cell (cells : list cell) : bool :=
  existsb (fun c => cell_truthy c && _is_numeric_string (str_of_cell c)) cells.

Definition starts_with_any (line : string) (prefixes : list string) : bool :=
  existsb (str_startswith line) prefixes.

(** [_extract_investment_dates_from_text]: the loop keeps the instrument
    seen last and the dates found *)
Definition dates_step (acc : option string * gmap string string) (raw_line : string)
    : option string * gmap string string :=
  let '(current_instrument, investment_dates) := acc in
  let line := str_strip raw_line in
  let is_potential_instrument :=
    (8 <? str_len line)
    && any_in ["FUND"; "GROWTH"; "LTD"; "LIMITED"; "NCD"; "BD"; "CORPORATION"; "SERVICES";
               "BANK"; "SCHEME"] (str_upper line)
    && negb (starts_with_any line ["Txn."; "Asset"; "Seg."; "Total"])
    && negb (str_any_digit (str_prefix line 10))
    && negb (str_among line ["Direct Equity"; "E-Retail/E-Commerce"; "LIFE INSURANCE";
                             "PRIVATE SECTOR BANK"; "COMPUTERS - SOFTWARE & CONSULTING"]) in
  if is_potential_instrument then (Some (str_strip line), investment_dates)
  else
    match current_instrument with
    | Some instrument =>
        if starts_with_any line ["Txn."; "Asset"; "Seg."]
           || Re.found (Re.search "(Txn\.|Asset|Seg\.)\s*\d{1,2}/\d{1,2}/\d{2,4}" line)
        then
          match Re.search "(?:Txn\.|Asset|Seg\.)\s*(\d{1,2}/\d{1,2}/\d{2,4})" line with
          | Some date_match =>
              (None, <[instrument := parse_date (Re.group date_match 1)]> investment_dates)
          | None => (None, investment_dates)
          end
        else acc
    | None => acc
    end.

Definition _extract_investment_dates_from_text (text : string) : gmap string string :=
  if negb (truthy text) then ∅
  else snd (fold_left dates_step (str_split_lines text) (None, ∅)).

(** The first loop of [_extract_holding_from_row] *)
Definition scan_cell (acc : float * float) (ic : nat * cell) : float * float :=
  let '(holding_cost, market_value) := acc in
  let '(i, c) := ic in
  if cell_truthy c then
    let value := currency_value c in
    if gt value 10000 then
      if (2 <=? i) && is_zero holding_cost then (value, market_value)
      else if (4 <=? i) && is_zero market_value then (holding_cost, value)
      else acc
    else acc
  else acc.

(** Holding cost and market value of a row, after both attempts *)
Definition row_amounts (r : row) : float * float :=
  let '(holding_cost, market_value) := fold_left scan_cell (enumerate r) (0%float, 0%float) in
  if is_zero holding_cost || is_zero market_value then
    let amounts :=
      flat_map (fun c => if cell_truthy c && gt (currency_value c) 10000
                         then [currency_value c] else []) r in
    if 2 <=? length amounts
    then (nth 0 amounts 0%float, nth 1 amounts 0%float)
    else (holding_cost, market_value)
  else (holding_cost, market_value).

Definition fallback_date_patterns : list string :=
  ["\d{1,2}/\d{1,2}/\d{2,4}"; "\d{1,2}-\d{1,2}-\d{2,4}"; "\d{1,2}\.\d{1,2}\.\d{2,4}"].

(** The date read from the First Purchase Date column; [purchase_date_col]
    is [None] where the code has -1 *)
Definition fallback_date (r : row) (purchase_date_col : option nat) : string :=
  match purchase_date_col with
  | Some col =>
      if (col <? length r) && cell_truthy (cell_at r col) then
        let cell_str := str_strip (str_of_cell (cell_at r col)) in
        if existsb (fun pattern => Re.found (Re.match_ pattern cell_str)) fallback_date_patterns
        then parse_date cell_str
        else ""
      else ""
  | None => ""
  end.

(** [_extract_holding_from_row]; [None] is Python's *)
Definition _extract_holding_from_row (instrument_name : string) (r : row)
    (category report_date : string) (page_num : nat) (purchase_date_col : option nat)
    (investment_date : string) : option Holding :=
  let '(holding_cost, market_value) := row_amounts r in
  if gt holding_cost 0 && gt market_value 0 then
    let asset_type := _classify_kotak_asset_type category instrument_name in
    let is_bond := String.eqb asset_type "Bonds" in
    Some {|
      manager_name := "Kotak";
      asset_type := asset_type;
      asset_name := str_strip instrument_name;
      current_investment_value := holding_cost;
      current_market_value := if is_bond then holding_cost else market_value;
      value_as_of_date := report_date;
      pl_amount := if is_bond then 0%float else (market_value - holding_cost)%float;
      pl_percentage :=
        if is_bond then 0%float
        else if gt holding_cost 0 then ((market_value - holding_cost) / holding_cost * 100)%float
        else pl_percentage standard_schema;
      irr_percentage := irr_percentage standard_schema;
      investment_date :=
        if truthy investment_date then investment_date
        else fallback_date r purchase_date_col;
      raw_data :=
        [("category", RawStr category); ("page", RawInt page_num); ("raw_row", RawRow r);
         ("instrument_name", RawStr instrument_name)];
      potential_duplicate := Some (_check_for_duplicates instrument_name)
    |}
  else None.

(** The column of the First Purchase Date, looked for in the two rows after
    the header row (those of them the table has) *)
Definition purchase_col_in_row (next_row : row) : option nat :=
  fst <$> list_find
    (fun c => let cell_str := if cell_truthy c then str_upper (str_of_cell c) else "" in
              ((str_in "FIRST" cell_str && str_in "PURCHASE" cell_str)
               || str_in "PURCHASE DATE" cell_str) = true)
    next_row.

Definition find_purchase_date_col (t : table) : option nat :=
  match list_find (fun r => row_mentions "Instrument Name" r = true) (firstn 5 t) with
  | None => None
  | Some (row_idx, _) =>
      match from_option purchase_col_in_row None (t !! (row_idx + 1)) with
      | Some col => Some col
      | None => from_option purchase_col_in_row None (t !! (row_idx + 2))
      end
  end.

Definition header_found (t : table) : bool :=
  existsb (row_mentions "Instrument Name") (firstn 5 t).

(** The loop over the rows of a holdings table; the state is the category
    row seen last and the holdings appended *)
Definition row_step (report_date : string) (page_num : nat)
    (investment_dates : gmap string string) (purchase_date_col : option nat) (t : table)
    (acc : string * list Holding) (ir : nat * row) : string * list Holding :=
  let '(current_category, found) := acc in
  let '(row_idx, r) := ir in
  match r with
  | [] => acc
  | _ =>
      let instrument_name := stripped_cell r 0 in
      if negb (truthy instrument_name) || str_in "Instrument Name" instrument_name
         || str_in "Bal. No. Of" instrument_name || str_in "Total" instrument_name
         || str_in "Category" instrument_name || str_among instrument_name ["-"; ""]
      then acc
      else if any_in ["MUTUAL FUNDS"; "DIRECT EQUITY"; "OTHER PRODUCTS"; "BONDS"; "BANK ACCOUNTS"]
                (str_upper instrument_name)
      then (instrument_name, found)
      else if _is_numeric_string instrument_name
              || (str_len (str_replace (str_replace instrument_name "," "") "." "") <? 5)
      then acc
      else
        let numeric_row :=
          match t !! (row_idx + 1) with
          | Some next_row => if has_numeric_cell next_row then Some next_row else None
          | None => None
          end in
        let numeric_row := if has_numeric_cell (skipn 1 r) then Some r else numeric_row in
        let is_transaction_ref :=
          str_startswith (str_upper instrument_name) "INE0TLC"
          || ((str_len instrument_name <? 15)
              && str_startswith (str_upper instrument_name) "INE") in
        let is_valid_instrument :=
          truthy instrument_name && (10 <? str_len instrument_name)
          && negb is_transaction_ref in
        match numeric_row with
        | Some nr =>
            if is_valid_instrument then
              let investment_date := default "" (investment_dates !! instrument_name) in
              match _extract_holding_from_row instrument_name nr current_category report_date
                      (page_num + 1) purchase_date_col investment_date with
              | Some holding =>
                  if gt (current_market_value holding) 1000
                  then (current_category, found ++ [holding])
                  else acc
              | None => acc
              end
            else acc
        | None => acc
        end
  end.

Definition extract_table (report_date : string) (page_num : nat)
    (investment_dates : gmap string string) (t : table) : list Holding :=
  if length t <? 3 then []
  else if header_found t then
    snd (fold_left
           (row_step report_date page_num investment_dates (find_purchase_date_col t) t)
           (enumerate t) ("", []))
  else [].

Definition extract_page (report_date : string) (ip : nat * Page) : list Holding :=
  let '(page_num, page) := ip in
  let text := extract_text page in
  if page_num <? 4 then []
  else if negb (any_in ["HOLDING STATEMENT"; "INSTRUMENT NAME"; "MARKET VALUE"; "HOLDING COST";
                        "UNREALISED"; "EQUITY"; "FUND"; "MUTUAL FUNDS"] (str_upper text))
  then []
  else
    let is_transaction_page :=
      str_in "PORTFOLIO ACTIVITY" (str_upper text) || str_in "Activity Date" text in
    let is_notes_page := str_in "Returns are based on XIRR" text in
    if is_transaction_page || is_notes_page then []
    else
      let investment_dates := _extract_investment_dates_from_text text in
      flat_map (extract_table report_date page_num investment_dates) (extract_tables page).

(** [extract] *)
Definition extract (file : pdf) : list Holding :=
  try_except
    (pages ← file;
     mret (flat_map (extract_page "2025-08-31") (enumerate pages)))
    (fun _ => []).

End Kotak.

(** ** Specification functions used in the statements and proofs *)

(** The holdings of the managers of the priority list, manager by manager
    in priority order, each manager's in the order received *)
Definition by_priority (priority : list string) (all_holdings : list Holding) : list Holding :=
  concat (map (fun m => filter (fun h => manager_name h = m) all_holdings) priority).

(** First-claim-wins over a list: a holding is kept when its key is new *)
Fixpoint keep_first (seen : gset string) (l : list Holding) : list Holding :=
  match l with
  | [] => []
  | h :: l' =>
      if bool_decide (create_asset_key (asset_name h) ∈ seen) then keep_first seen l'
      else h :: keep_first ({[create_asset_key (asset_name h)]} ∪ seen) l'
  end.

(** A list made of one block of holdings per manager, in the order of [ps] *)
Fixpoint grouped (ps : list string) (l : list Holding) : Prop :=
  match ps with
  | [] => l = []
  | p :: ps' =>
      exists l1 l2, l = l1 ++ l2 /\ Forall (fun h => manager_name h = p) l1 /\ grouped ps' l2
  end.

(** Investment and market value both above [t] *)
Definition above (t : float) (h : Holding) : Prop :=
  gt (current_investment_value h) t = true /\ gt (current_market_value h) t = true.

(** An amount the Kotak row scan can hold: the initial zero, or a cell
    value that passed the test [value > 10000] *)
Definition amount_ok (x : float) : Prop := x = 0%float \/ gt x 10000 = true.

(** The guard constant of each extractor's acceptance test on
    [current_market_value] *)
Definition materiality_threshold (manager : string) : float :=
  if str_among manager ["Client Associates"; "Yes Bank"; "IIFL 360 One"; "Kotak"]
  then 1000%float
  else 0%float.

(** The extractors, by manager name *)
Inductive extractor :=
| ExINDMoney (w : CurrencyConverter.world) (holding_dates : list (string * string))
| ExClientAssociates
| ExYesBank
| ExMotilalOswal
| ExIIFL360One
| ExKotak.

Definition extractor_name (e : extractor) : string :=
  match e with
  | ExINDMoney _ _ => "IND Money"
  | ExClientAssociates => "Client Associates"
  | ExYesBank => "Yes Bank"
  | ExMotilalOswal => "Motilal Oswal"
  | ExIIFL360One => "IIFL 360 One"
  | ExKotak => "Kotak"
  end.

(** The shared capability [extract] *)
Definition run_extractor (e : extractor) (file : pdf) : list Holding :=
  match e with
  | ExINDMoney w holding_dates => INDMoney.extract w file holding_dates
  | ExClientAssociates => ClientAssociates.extract file
  | ExYesBank => YesBank.extract file
  | ExMotilalOswal => MotilalOswal.extract file
  | ExIIFL360One => IIFL360One.extract file
  | ExKotak => Kotak.extract file
  end.

(** ** Sample inputs for the scenarios of the specification *)

Module Sample.

(** A holding as an extractor would emit it, with the given manager, name,
    investment value and market value *)
Definition holding (manager name : string) (invested market : float) : Holding := {|
  manager_name := manager;
  asset_type := "AIF";
  asset_name := name;
  current_investment_value := invested;
  current_market_value := market;
  value_as_of_date := "2025-08-31";
  pl_amount := (market - invested)%float;
  pl_percentage := ((market - invested) / invested * 100)%float;
  irr_percentage := 0;
  investment_date := "";
  raw_data := [];
  potential_duplicate := None
|}.

(** The two spellings of one tranche, reported by two issuers *)
Definition abc_series_one : Holding :=
  holding "Client Associates" "ABC Growth Fund - Series I" 5000000 6000000.
Definition abc_sr_one : Holding :=
  holding "Kotak" "ABC GROWTH FUND SR I" 5000000 6100000.

(** One fund under two spellings that differ in case and trailing blanks *)
Definition alpha_from_ca : Holding :=
  holding "Client Associates" "XYZ Alpha Fund" 2000000 2500000.
Definition alpha_from_kotak : Holding :=
  holding "Kotak" "xyz alpha fund " 2000000 2400000.

(** A holding of an issuer outside the priority list *)
Definition from_other_bank : Holding :=
  holding "HDFC Bank" "Liquid Fund" 100000 101000.

End Sample.

(** ** Sample documents *)

Module SampleDoc.

Definition nl : string := String Chr.nl "".

Definition blank_page : Page := {| extract_text := ""; extract_tables := [] |}.

(** A converter that finds a fresh rate of 83.0 for USD to INR in its cache *)
Definition world_83 : CurrencyConverter.world := {|
  CurrencyConverter.valid_cache :=
    fun key => if String.eqb key "USD_INR" then Some 83%float else None;
  CurrencyConverter.service_rate := fun _ _ => None
|}.

(** An IND Money statement for AUGUST - 2025 with one holdings row whose
    market value is 1,000 USD *)
Definition indmoney_document : list Page :=
  [{| extract_text := "Monthly Statement Period: AUGUST - 2025" +:+ nl +:+ "Holdings";
      extract_tables :=
        [[ [Some "Symbol"; Some "Description"; Some "Quantity"; Some "Market Price";
            Some "Market Value"; Some "Currency"; Some "Unrealized"; Some "Cost Basis"];
           [Some "AAPL"; Some "Apple Inc"; Some "5"; Some "200.00";
            Some "1,000.00"; Some "USD"; Some "100.00"; Some "900.00"];
           [Some "Total"; None; None; None; Some "1,000.00"; None; None; Some "900.00"] ]] |}].

(** A Client Associates page whose holdings appear in a table only: total
    cost 5,000, market value 6,000, and 999 in the gain/loss column *)
Definition client_associates_document : list Page :=
  [{| extract_text := "Report Date : 31/08/2025" +:+ nl +:+ "Security";
      extract_tables :=
        [[ [Some "Security"; Some "Purchase"; Some "Quantity"; Some "Unit Cost"; None; None;
            Some "Total Cost"; Some "Market Price"; Some "Market Value"; Some "Income";
            Some "Total G/L"; Some "% G/L"];
           [Some "ABC Growth Fund"; Some "01/01/2023"; Some "50"; Some "100.00"; None; None;
            Some "5,000.00"; Some "120.00"; Some "6,000.00"; Some "0.00";
            Some "999.00"; Some "1.00"] ]] |}].

(** A Motilal Oswal equity row with no investment value (a dash) and a
    market value of 5,000, on the third page *)
Definition motilal_document : list Page :=
  let page := {|
    extract_text := "Holdings as on 26 Sep 2025" +:+ nl +:+ "ISIN";
    extract_tables :=
      [[ [Some "Sector"; Some "Security"; Some "ISIN"];
         [Some "IT"; Some "Infosys Ltd"; Some "INE009A01021"; None; None; None; None; None;
          None; None; None; Some "-"; None; Some "5,000.00"] ]] |} in
  [blank_page; blank_page; page].

(** A Kotak holdings page (the fifth) with a bond under the Bonds category:
    holding cost 1,00,000 and a quoted market value of 1,05,000 *)
Definition kotak_document : list Page :=
  let page := {|
    extract_text := "HOLDING STATEMENT";
    extract_tables :=
      [[ [Some "Instrument Name"; Some "Quantity"; Some "Avg Price"; Some "Holding Cost";
          Some "Price"; Some "Market Value"];
         [Some "Bonds"; None; None; None; None; None];
         [Some "9.5% XYZ FINANCE NCD 2027"; Some "100"; Some "1,000.00"; Some "1,00,000.00";
          Some "1,050.00"; Some "1,05,000.00"] ]] |} in
  [blank_page; blank_page; blank_page; blank_page; page].

(** The records the extractors emit for these documents *)
Definition client_associates_holding : Holding :=
  Eval vm_compute in
    default standard_schema (head (ClientAssociates.extract (Ok client_associates_document))).
Definition motilal_holding : Holding :=
  Eval vm_compute in
    default standard_schema (head (MotilalOswal.extract (Ok motilal_document))).
Definition kotak_holding : Holding :=
  Eval vm_compute in
    default standard_schema (head (Kotak.extract (Ok kotak_document))).

End SampleDoc.

(** The floor each extractor puts under [current_investment_value], where
    it tests it *)
Definition investment_floor (e : extractor) : option float :=
  match e with
  | ExClientAssociates | ExYesBank | ExIIFL360One | ExKotak => Some 1000%float
  | ExMotilalOswal | ExINDMoney _ _ => None
  end.

(** Every pattern the source hands to [re] *)
Definition source_patterns : list string :=
  ["[₹$,\s]"; "([A-Z]+)\s*-\s*(\d{4})";
   "Monthly Statement Period:\s*([A-Z]+\s*-\s*\d{4})";
   "Report Date : (\d{2}/\d{2}/\d{4})"; "\d{2}/\d{2}/\d{4}"; "[,]";
   YesBank.amount_pattern; YesBank.financial_pattern;
   "(\d{1,2})\s+(\w+)\s+(\d{4})"; "^[\d,]+\.?\d*$"; "^\d{2}-\w{3}-\d{2}$";
   "[\d,]+\.?\d*\s*%"; "(Txn\.|Asset|Seg\.)\s*\d{1,2}/\d{1,2}/\d{2,4}";
   "(?:Txn\.|Asset|Seg\.)\s*(\d{1,2}/\d{1,2}/\d{2,4})"; "[,\s₹\-]";
   "(\d{1,2}[-/]\w{3}[-/]\d{2,4})"; "(SERIES\s*\w+|CLASS\s*\w+)";
   "\\(DEMAT\\)"; "\\(ERSTWHILE.*?\\)";
   "\\bCLASS A1\\b|\\bCL A1\\b|\\bCLASS B1\\b|\\bCL B1\\b|\\bCL D4\\b";
   "\\bDIRECT PLAN\\b|\\bREGULAR PLAN\\b"; "\\bGROWTH\\b"; "\\bLTD\\b|\\bLIMITED\\b";
   "\\bLLP\\b"; "\\bFUND\\b"; "\\bAIF\\b"; "\\bEQUITY\\b"; "\\bVI\\b"; "\\bTRUST\\b";
   "\\bINVESTMENT\\b"; "\\bALTERNATIVE\\b"; "\\bSERIES\\b|\\bSR\\b"; "\\bI\\b|\\bIV\\b";
   "[-\\s]+"; "\\s*-\\s*25-"; "\\s*6W\\s*12A"; "\\s*OPT\\s*1"; "\\s+"]
  ++ date_patterns ++ Kotak.fallback_date_patterns ++ map fst Kotak.duplicate_patterns.

(** ** More specification functions *)

(** The canonical key of a holding *)
Definition asset_key (h : Holding) : string := create_asset_key (asset_name h).

(** The asset types each extractor can assign *)
Definition asset_types (e : extractor) : list string :=
  match e with
  | ExINDMoney _ _ => ["US Stocks"]
  | ExClientAssociates => ["AIF"]
  | ExYesBank =>
      ["Index Funds/ETFs"; "Equity Mutual Funds"; "Debt Mutual Funds";
       "Hybrid Mutual Funds"; "Mutual Funds"]
  | ExMotilalOswal => ["Direct Equity"; "AIF"]
  | ExIIFL360One => ["AIF"; "Unlisted Equity"; "Direct Equity"; "Debt/Bonds"; "Other"]
  | ExKotak => ["AIF"; "Mutual Funds"; "Bonds"; "Direct Equity"; "Cash/Bank"; "Other"]
  end.

(** P&L derived from the two values of the record: the difference, and its
    percentage of the investment value when that is positive, else 0 *)
Definition recomputed (h : Holding) : Prop :=
  pl_amount h = (current_market_value h - current_investment_value h)%float
  /\ pl_percentage h =
     (if gt (current_investment_value h) 0
      then pl_amount h / current_investment_value h * 100
      else 0)%float.

(** The fixed-value policy for bonds *)
Definition fixed_value (h : Holding) : Prop :=
  current_market_value h = current_investment_value h
  /\ pl_amount h = 0%float /\ pl_percentage h = 0%float.

(** What the code of an extractor fixes of every record it builds *)
Definition emitted_shape (e : extractor) (h : Holding) : Prop :=
  manager_name h = extractor_name e
  /\ asset_type h ∈ asset_types e
  /\ match e with
     | ExYesBank | ExMotilalOswal | ExIIFL360One => recomputed h
     | ExKotak => if String.eqb (asset_type h) "Bonds" then fixed_value h else recomputed h
     | ExClientAssociates | ExINDMoney _ _ => True
     end
  /\ match e with
     | ExYesBank | ExKotak => value_as_of_date h = "2025-08-31"
     | _ => True
     end
  /\ match e with
     | ExKotak =>
         exists managers, potential_duplicate h = Some managers
                          /\ Forall (fun m => m = "Client Associates") managers
     | _ => potential_duplicate h = None
     end
  /\ match e with
     | ExClientAssociates => True
     | _ => irr_percentage h = 0%float
     end.

(** Pages at the start of a document that an extractor never reads
    holdings from *)
Definition leading_pages (e : extractor) : nat :=
  match e with
  | ExYesBank => 5
  | ExKotak => 4
  | ExIIFL360One => 3
  | ExMotilalOswal => 2
  | ExClientAssociates | ExINDMoney _ _ => 0
  end.

(** ** [CurrencyConverter.convert_amount] *)

(** [convert_amount(amount, from_currency, to_currency)]: a rate that is
    [None] or zero is falsy, and the amount comes back unconverted *)
Definition convert_amount (w : CurrencyConverter.world) (amount : float)
    (from_currency to_currency : string) : float :=
  if String.eqb from_currency to_currency then amount
  else
    match CurrencyConverter.get_exchange_rate w from_currency to_currency with
    | Some rate => if is_zero rate then amount else (amount * rate)%float
    | None => amount
    end.

(** ** The driver [main] of portfolio_extractor.py, without its file
    handling and printing *)

Module Driver.

(** What [find_file_by_pattern] found in the data folder for each issuer:
    [None] where no file name matches *)
Record inputs := {
  ind_file : option pdf;
  ind_holding_dates : list (string * string);
  ca_file : option pdf;
  yb_file : option pdf;
  kotak_file : option pdf;
  mo_file : option pdf;
  iifl_file : option pdf
}.

Definition extracted (e : extractor) (file : option pdf) : list Holding :=
  match file with
  | Some f => run_extractor e f
  | None => []
  end.

(** [all_holdings], in the order [main] extends it *)
Definition all_holdings (w : CurrencyConverter.world) (i : inputs) : list Holding :=
  extracted (ExINDMoney w (ind_holding_dates i)) (ind_file i)
  ++ extracted ExClientAssociates (ca_file i)
  ++ extracted ExYesBank (yb_file i)
  ++ extracted ExKotak (kotak_file i)
  ++ extracted ExMotilalOswal (mo_file i)
  ++ extracted ExIIFL360One (iifl_file i).

(** The list [main] saves *)
Definition clean_holdings (w : CurrencyConverter.world) (i : inputs) : list Holding :=
  remove_duplicates (all_holdings w i).

End Driver.

(** ** The dashboard (src/utils/dashboard.py): loading and grouping *)

Module Dashboard.

(** The test of [load_portfolio_data] on one entry of the saved list *)
Definition is_valid (item : Holding) : bool :=
  gt (current_market_value item) 0
  && negb (str_startswith (asset_name item) "*")
  && negb (str_startswith (asset_name item) "Disclaimer").

(** [load_portfolio_data], on the list the JSON file holds *)
Definition load_portfolio_data (data : list Holding) : list Holding :=
  List.filter is_valid data.

(** An entry of [managers_summary] *)
Record summary := {
  investment : float;
  market_value : float;
  count : nat;
  asset_types : gset string
}.

Definition empty_summary : summary :=
  {| investment := 0; market_value := 0; count := 0; asset_types := ∅ |}.

Definition add_item (s : summary) (item : Holding) : summary :=
  {| investment := (investment s + current_investment_value item)%float;
     market_value := (market_value s + current_market_value item)%float;
     count := count s + 1;
     asset_types := asset_types s ∪ {[asset_type item]} |}.

(** One round of the loop that groups by manager *)
Definition summarize_item (managers_summary : gmap string summary) (item : Holding)
    : gmap string summary :=
  let manager := manager_name item in
  let d := match managers_summary !! manager with
           | None => <[manager := empty_summary]> managers_summary
           | Some _ => managers_summary
           end in
  alter (fun s => add_item s item) manager d.

(** [managers_summary] of [create_dashboard_html] *)
Definition managers_summary (portfolio_data : list Holding) : gmap string summary :=
  fold_left summarize_item portfolio_data ∅.

End Dashboard.

(** Month and day a statement period can be turned into *)
Definition month_ends : list string :=
  ["01-31"; "02-28"; "03-31"; "04-30"; "05-31"; "06-30";
   "07-31"; "08-31"; "09-30"; "10-31"; "11-30"; "12-31"].

(** The state kept by the loop: the seen set is the set of keys of the
    clean holdings, and every log entry names the manager of a clean holding
    with the key of the dropped record *)
Definition provenance_ok (st : dedup_state) : Prop :=
  (forall k, k ∈ seen_assets st <-> exists h, h ∈ clean_holdings st /\ asset_key h = k)
  /\ Forall (fun e => exists h, h ∈ clean_holdings st
                               /\ asset_key h = asset_key (duplicate_holding e)
                               /\ original_manager e = manager_name h)
       (removed_duplicates st).

(** * Properties *)

Arguments create_asset_key : simpl never.

(** ** Regular expressions *)

(** Every pattern of the source is accepted by the parser. *)
Lemma patterns_parse :
  forallb (fun p => bool_decide (is_Some (Re.parse p))) source_patterns = true.
Proof. vm_compute. reflexivity. Qed.

(** A doubled backslash in a raw string is a pattern for one literal
    backslash: [\\bGROWTH\\b] in the source looks for the nine characters
    backslash, b, GROWTH, backslash, b, and [[-\\s]+] for runs of hyphens,
    backslashes and the letter s. *)
Lemma doubled_backslash_is_literal :
  Re.sub "\\bGROWTH\\b" "" "ABC GROWTH FUND" = "ABC GROWTH FUND"
  /\ Re.sub "\\bGROWTH\\b" "" "ABC \bGROWTH\b FUND" = "ABC  FUND"
  /\ Re.sub "\bGROWTH\b" "" "ABC GROWTH FUND" = "ABC  FUND"
  /\ Re.sub "[-\\s]+" " " "A - B  sss C" = "A   B    C".
Proof. repeat split; vm_compute; reflexivity. Qed.

(** ** Deduplication: the run of [remove_duplicates] as a list function *)

Section Dedup.

Implicit Types (h : Holding) (l all : list Holding) (m : string) (st : dedup_state).

Lemma file_holding_lookup (d : gmap string (list Holding)) h m :
  file_holding d h !! m =
  if decide (manager_name h = m) then Some (default [] (d !! m) ++ [h]) else d !! m.
Proof.
  unfold file_holding. case_decide as E.
  - subst m. destruct (d !! manager_name h) eqn:Hd.
    + rewrite lookup_alter_eq, Hd. reflexivity.
    + rewrite lookup_alter_eq, lookup_insert_eq. reflexivity.
  - destruct (d !! manager_name h) eqn:Hd.
    + by rewrite lookup_alter_ne.
    + rewrite lookup_alter_ne by done. by rewrite lookup_insert_ne.
Qed.

Lemma group_by_manager_lookup all m :
  group_by_manager all !! m =
  match filter (fun h => manager_name h = m) all with
  | [] => None
  | hs => Some hs
  end.
Proof.
  unfold group_by_manager.
  induction all as [|h all IH] using rev_ind.
  - simpl. apply lookup_empty.
  - rewrite fold_left_app. simpl. rewrite file_holding_lookup, filter_app.
    rewrite IH. case_decide as E.
    + rewrite filter_cons_True by done. rewrite filter_nil.
      destruct (filter _ all) as [|x xs]; reflexivity.
    + rewrite filter_cons_False by done. rewrite filter_nil, app_nil_r. reflexivity.
Qed.

Lemma dedup_manager_filter all st m :
  dedup_manager (group_by_manager all) st m =
  fold_left dedup_holding (filter (fun h => manager_name h = m) all) st.
Proof.
  unfold dedup_manager. rewrite group_by_manager_lookup.
  destruct (filter _ all); reflexivity.
Qed.

Lemma fold_left_concat_map {A B S} (f : S -> B -> S) (g : A -> list B) (xs : list A) (s : S) :
  fold_left (fun s x => fold_left f (g x) s) xs s = fold_left f (concat (map g xs)) s.
Proof.
  revert s. induction xs as [|x xs IH]; intros s; simpl; [done|].
  rewrite fold_left_app. apply IH.
Qed.

Lemma dedup_run_by_priority all :
  dedup_run all = fold_left dedup_holding (by_priority manager_priority all) dedup_init.
Proof.
  unfold dedup_run, by_priority.
  rewrite <- fold_left_concat_map.
  generalize dedup_init. generalize manager_priority.
  induction l as [|m ms IH]; intros st; simpl; [done|].
  rewrite dedup_manager_filter. apply IH.
Qed.


Lemma dedup_fold_clean l st :
  clean_holdings (fold_left dedup_holding l st) =
  clean_holdings st ++ keep_first (seen_assets st) l.
Proof.
  revert st. induction l as [|h l IH]; intros st; simpl.
  - by rewrite app_nil_r.
  - rewrite IH. unfold dedup_holding.
    destruct (bool_decide _); simpl; [done|]. by rewrite <- app_assoc.
Qed.

Lemma remove_duplicates_keep_first all :
  remove_duplicates all = keep_first ∅ (by_priority manager_priority all).
Proof.
  unfold remove_duplicates. rewrite dedup_run_by_priority, dedup_fold_clean. reflexivity.
Qed.

Lemma keep_first_idem (seen : gset string) l :
  keep_first seen (keep_first seen l) = keep_first seen l.
Proof.
  revert seen. induction l as [|h l IH]; intros seen; simpl; [done|].
  destruct (bool_decide (create_asset_key (asset_name h) ∈ seen)) eqn:E; [apply IH|].
  simpl. rewrite E. f_equal. apply IH.
Qed.

Lemma keep_first_app (seen : gset string) l1 l2 :
  exists seen', keep_first seen (l1 ++ l2) = keep_first seen l1 ++ keep_first seen' l2.
Proof.
  revert seen. induction l1 as [|h l1 IH]; intros seen; simpl.
  - by exists seen.
  - destruct (bool_decide _); [apply IH|].
    destruct (IH ({[create_asset_key (asset_name h)]} ∪ seen)) as [s Hs].
    exists s. by rewrite Hs.
Qed.

Lemma keep_first_Forall (P : Holding -> Prop) (seen : gset string) l :
  Forall P l -> Forall P (keep_first seen l).
Proof.
  intros H. revert seen. induction H as [|h l Hh Hl IH]; intros seen; simpl; [constructor|].
  destruct (bool_decide _); [apply IH|]. constructor; [done|apply IH].
Qed.

Lemma grouped_keep_first ps (seen : gset string) l :
  grouped ps l -> grouped ps (keep_first seen l).
Proof.
  revert seen l. induction ps as [|p ps IH]; intros seen l; simpl.
  - intros ->. reflexivity.
  - intros (l1 & l2 & -> & H1 & H2).
    destruct (keep_first_app seen l1 l2) as [s Hs].
    exists (keep_first seen l1), (keep_first s l2). split; [done|]. split.
    + by apply keep_first_Forall.
    + by apply IH.
Qed.

Lemma grouped_by_priority ps all : grouped ps (by_priority ps all).
Proof.
  unfold by_priority. induction ps as [|p ps IH]; simpl; [done|].
  eexists _, _. split; [reflexivity|]. split; [|exact IH].
  apply Forall_forall. intros h Hh. by apply list_elem_of_filter in Hh as [? _].
Qed.

Lemma grouped_managers ps l :
  grouped ps l -> Forall (fun h => manager_name h ∈ ps) l.
Proof.
  revert l. induction ps as [|p ps IH]; simpl; intros l.
  - intros ->. constructor.
  - intros (l1 & l2 & -> & H1 & H2). apply Forall_app. split.
    + eapply Forall_impl; [exact H1|]. intros h ->. apply list_elem_of_here.
    + eapply Forall_impl; [exact (IH _ H2)|]. intros h Hh. by apply list_elem_of_further.
Qed.

Lemma filter_none (P : Holding -> Prop) `{forall h, Decision (P h)} l :
  Forall (fun h => ~ P h) l -> filter P l = [].
Proof.
  induction 1 as [|h l Hh Hl IH]; [done|]. by rewrite filter_cons_False.
Qed.

Lemma filter_all (P : Holding -> Prop) `{forall h, Decision (P h)} l :
  Forall P l -> filter P l = l.
Proof.
  induction 1 as [|h l Hh Hl IH]; [done|]. rewrite filter_cons_True by done. by f_equal.
Qed.

Lemma by_priority_grouped ps l :
  NoDup ps -> grouped ps l -> by_priority ps l = l.
Proof.
  unfold by_priority. revert l. induction ps as [|p ps IH]; simpl; intros l Hnd.
  - by intros ->.
  - intros (l1 & l2 & -> & H1 & H2).
    apply NoDup_cons in Hnd as [Hp Hnd].
    pose proof (grouped_managers _ _ H2) as Hm.
    rewrite filter_app, (filter_all _ l1 H1).
    rewrite (filter_none _ l2).
    2:{ eapply Forall_impl; [exact Hm|]. intros h Hh E. simpl in Hh. rewrite E in Hh. contradiction. }
    rewrite app_nil_r. f_equal.
    etransitivity; [|exact (IH l2 Hnd H2)]. f_equal.
    apply map_ext_in. intros m Hm'. rewrite filter_app.
    rewrite (filter_none _ l1); [done|].
    eapply Forall_impl; [exact H1|]. intros h E1 E2. simpl in E1. rewrite E1 in E2. subst m.
    apply Hp. by apply list_elem_of_In.
Qed.

Lemma NoDup_manager_priority : NoDup manager_priority.
Proof. apply (bool_decide_unpack _). vm_compute. exact I. Qed.

Lemma remove_duplicates_idempotent_aux all :
  remove_duplicates (remove_duplicates all) = remove_duplicates all.
Proof.
  rewrite !remove_duplicates_keep_first.
  rewrite (by_priority_grouped manager_priority (keep_first ∅ _)).
  - apply keep_first_idem.
  - apply NoDup_manager_priority.
  - apply grouped_keep_first, grouped_by_priority.
Qed.


Lemma dedup_holding_cases st h :
  (clean_holdings (dedup_holding st h) = clean_holdings st ++ [h] /\
   removed_duplicates (dedup_holding st h) = removed_duplicates st) \/
  (clean_holdings (dedup_holding st h) = clean_holdings st /\
   exists o, removed_duplicates (dedup_holding st h) =
             removed_duplicates st ++ [{| duplicate_holding := h; original_manager := o |}]).
Proof.
  unfold dedup_holding. destruct (bool_decide _); simpl; [right|left]; eauto.
Qed.

Lemma dedup_fold_origin l st h :
  h ∈ clean_holdings (fold_left dedup_holding l st) ∨
  h ∈ duplicate_holding <$> removed_duplicates (fold_left dedup_holding l st) ->
  h ∈ clean_holdings st ∨ h ∈ duplicate_holding <$> removed_duplicates st ∨ h ∈ l.
Proof.
  revert st. induction l as [|x l IH]; intros st; simpl.
  - tauto.
  - intros H. apply IH in H.
    destruct (dedup_holding_cases st x) as [[Hc Hr]|[Hc [o Hr]]]; rewrite Hc, Hr in H.
    + rewrite elem_of_app, list_elem_of_singleton in H. rewrite elem_of_cons. tauto.
    + rewrite fmap_app, elem_of_app in H. simpl in H.
      rewrite list_elem_of_singleton in H. rewrite elem_of_cons. tauto.
Qed.

Lemma dedup_fold_covers l st h :
  h ∈ clean_holdings st ∨ h ∈ duplicate_holding <$> removed_duplicates st ∨ h ∈ l ->
  h ∈ clean_holdings (fold_left dedup_holding l st) ∨
  h ∈ duplicate_holding <$> removed_duplicates (fold_left dedup_holding l st).
Proof.
  revert st. induction l as [|x l IH]; intros st; simpl.
  - rewrite elem_of_nil. tauto.
  - intros H. apply IH.
    destruct (dedup_holding_cases st x) as [[Hc Hr]|[Hc [o Hr]]]; rewrite Hc, Hr.
    + rewrite elem_of_app, list_elem_of_singleton. rewrite elem_of_cons in H. tauto.
    + rewrite fmap_app, elem_of_app. simpl.
      rewrite list_elem_of_singleton. rewrite elem_of_cons in H. tauto.
Qed.

Lemma elem_of_by_priority ps all h :
  h ∈ by_priority ps all <-> h ∈ all /\ manager_name h ∈ ps.
Proof.
  unfold by_priority. induction ps as [|p ps IH]; simpl.
  - rewrite !elem_of_nil. tauto.
  - rewrite elem_of_app, IH, list_elem_of_filter, elem_of_cons. intuition congruence.
Qed.

Lemma grouped_nil ps : grouped ps [].
Proof.
  induction ps as [|p ps IH]; simpl; [done|].
  exists [], []. repeat split; [constructor|exact IH].
Qed.

Lemma grouped_single ps b j :
  ps !! j = Some (manager_name b) -> grouped ps [b].
Proof.
  revert j. induction ps as [|p ps IH]; intros j Hj; [by destruct j|].
  destruct j as [|j]; simpl in Hj.
  - injection Hj as ->. exists [b], []. repeat split; [by repeat constructor|apply grouped_nil].
  - exists [], [b]. repeat split; [constructor|by eapply IH].
Qed.

Lemma grouped_pair ps a b i j :
  ps !! i = Some (manager_name a) ->
  ps !! j = Some (manager_name b) ->
  i < j ->
  grouped ps [a; b].
Proof.
  revert i j. induction ps as [|p ps IH]; intros i j Hi Hj Hij; [by destruct i|].
  destruct j as [|j]; [lia|]. simpl in Hj.
  destruct i as [|i]; simpl in Hi.
  - injection Hi as ->. exists [a], [b].
    repeat split; [by repeat constructor|by eapply grouped_single].
  - exists [], [a; b]. repeat split; [constructor|]. eapply IH; eauto. lia.
Qed.

Lemma by_priority_pair a b i j :
  manager_priority !! i = Some (manager_name a) ->
  manager_priority !! j = Some (manager_name b) ->
  i < j ->
  by_priority manager_priority [a; b] = [a; b] /\
  by_priority manager_priority [b; a] = [a; b].
Proof.
  intros Ha Hb Hij.
  assert (Hne : manager_name a <> manager_name b).
  { intros E. rewrite <- E in Hb.
    pose proof (NoDup_lookup _ _ _ _ NoDup_manager_priority Ha Hb). lia. }
  pose proof (grouped_pair _ _ _ _ _ Ha Hb Hij) as G.
  pose proof (by_priority_grouped manager_priority [a; b] NoDup_manager_priority G) as E.
  split; [exact E|].
  rewrite <- E.
  unfold by_priority. f_equal. apply map_ext. intros m.
  rewrite !filter_cons, !filter_nil.
  repeat case_decide; try reflexivity; congruence.
Qed.

Lemma first_claim_wins_run a b :
  create_asset_key (asset_name a) = create_asset_key (asset_name b) ->
  fold_left dedup_holding [a; b] dedup_init =
  {| clean_holdings := [a];
     removed_duplicates := [{| duplicate_holding := b; original_manager := manager_name a |}];
     seen_assets := {[create_asset_key (asset_name a)]} ∪ ∅ |}.
Proof.
  intros E. simpl. unfold dedup_holding at 2. simpl.
  rewrite bool_decide_eq_false_2 by set_solver.
  unfold dedup_holding. simpl.
  rewrite bool_decide_eq_true_2 by (rewrite <- E; set_solver).
  simpl. rewrite <- E, String.eqb_refl. reflexivity.
Qed.

End Dedup.

(** ** Claims about the deduplication engine *)

(** C2 (code defect). The two spellings of the scenario do not get the same
    key: the patterns of the generic normalization are written with doubled
    backslashes in raw strings, so they look for a literal backslash and
    strip nothing; only the hyphen is turned into a blank. The keys differ
    and deduplication keeps both holdings. *)
Theorem scenario_keys_differ :
  create_asset_key "ABC Growth Fund - Series I" = "ABC GROWTH FUND   SERIES I"
  /\ create_asset_key "ABC GROWTH FUND SR I" = "ABC GROWTH FUND SR I"
  /\ String.eqb (create_asset_key "ABC Growth Fund - Series I")
                (create_asset_key "ABC GROWTH FUND SR I") = false
  /\ remove_duplicates [Sample.abc_series_one; Sample.abc_sr_one]
     = [Sample.abc_series_one; Sample.abc_sr_one]
  /\ removed_duplicates (dedup_run [Sample.abc_series_one; Sample.abc_sr_one]) = [].
Proof. repeat split; vm_compute; reflexivity. Qed.

(** C4. First-claim-wins: of two holdings with the same canonical key, one
    of issuer A earlier in the priority list and one of issuer B later in
    it, the clean output is A's record alone, unchanged, and the removed
    log is B's record paired with A's manager name; this in whichever order
    the two records arrive. *)
Theorem first_claim_wins (a b : Holding) (i j : nat) (input : list Holding) :
  create_asset_key (asset_name a) = create_asset_key (asset_name b) ->
  manager_priority !! i = Some (manager_name a) ->
  manager_priority !! j = Some (manager_name b) ->
  i < j ->
  input = [a; b] \/ input = [b; a] ->
  remove_duplicates input = [a]
  /\ removed_duplicates (dedup_run input)
     = [{| duplicate_holding := b; original_manager := manager_name a |}].
Proof.
  intros Hkey Ha Hb Hij Hin.
  destruct (by_priority_pair a b i j Ha Hb Hij) as [E1 E2].
  assert (E : by_priority manager_priority input = [a; b]) by (destruct Hin; subst; done).
  unfold remove_duplicates. rewrite dedup_run_by_priority, E.
  rewrite (first_claim_wins_run a b Hkey). split; reflexivity.
Qed.

Lemma first_claim_wins_witness :
  remove_duplicates [Sample.alpha_from_kotak; Sample.alpha_from_ca] = [Sample.alpha_from_ca]
  /\ removed_duplicates (dedup_run [Sample.alpha_from_kotak; Sample.alpha_from_ca])
     = [{| duplicate_holding := Sample.alpha_from_kotak;
           original_manager := "Client Associates" |}].
Proof.
  apply (first_claim_wins Sample.alpha_from_ca Sample.alpha_from_kotak 0 5).
  - vm_compute. reflexivity.
  - reflexivity.
  - reflexivity.
  - lia.
  - right. reflexivity.
Defined.

(** C5. Idempotence: deduplicating the clean output again returns it
    unchanged, same records in the same order. *)
Theorem remove_duplicates_idempotent (x : list Holding) :
  remove_duplicates (remove_duplicates x) = remove_duplicates x.
Proof. apply remove_duplicates_idempotent_aux. Qed.

(** C6 (as amended). [remove_duplicates] returns one value, the list of
    clean holdings. The removed log is built during the run and dropped at
    the [return]; every input holding of a manager of the priority list is
    either in the clean list or in that log. *)
Theorem remove_duplicates_returns_clean_list (all_holdings : list Holding) (h : Holding) :
  h ∈ all_holdings ->
  manager_name h ∈ manager_priority ->
  remove_duplicates_return all_holdings = PyList (clean_holdings (dedup_run all_holdings))
  /\ (h ∈ clean_holdings (dedup_run all_holdings)
      \/ h ∈ duplicate_holding <$> removed_duplicates (dedup_run all_holdings)).
Proof.
  intros Hin Hm. split; [reflexivity|].
  rewrite dedup_run_by_priority. apply dedup_fold_covers.
  right. right. by apply elem_of_by_priority.
Qed.

Lemma remove_duplicates_returns_clean_list_witness :
  remove_duplicates_return [Sample.alpha_from_ca; Sample.alpha_from_kotak]
  = PyList (clean_holdings (dedup_run [Sample.alpha_from_ca; Sample.alpha_from_kotak]))
  /\ (Sample.alpha_from_kotak
        ∈ clean_holdings (dedup_run [Sample.alpha_from_ca; Sample.alpha_from_kotak])
      \/ Sample.alpha_from_kotak
           ∈ duplicate_holding <$>
             removed_duplicates (dedup_run [Sample.alpha_from_ca; Sample.alpha_from_kotak])).
Proof.
  apply (remove_duplicates_returns_clean_list
           [Sample.alpha_from_ca; Sample.alpha_from_kotak] Sample.alpha_from_kotak).
  - apply list_elem_of_further, list_elem_of_here.
  - apply (bool_decide_unpack _). vm_compute. exact I.
Defined.

(** C6 as stated fails: on two duplicates the value returned is the bare
    list with the survivor; it is no pair, and the dropped record, which the
    run did log, is not part of it. *)
Lemma remove_duplicates_returns_no_pair :
  remove_duplicates_return [Sample.alpha_from_ca; Sample.alpha_from_kotak]
  = PyList [Sample.alpha_from_ca]
  /\ (forall clean log,
        remove_duplicates_return [Sample.alpha_from_ca; Sample.alpha_from_kotak]
        <> PyPair clean log)
  /\ removed_duplicates (dedup_run [Sample.alpha_from_ca; Sample.alpha_from_kotak])
     = [{| duplicate_holding := Sample.alpha_from_kotak;
           original_manager := "Client Associates" |}].
Proof.
  split; [vm_compute; reflexivity|]. split; [|vm_compute; reflexivity].
  intros clean log H. discriminate H.
Qed.

(** C10. A holding whose manager is not in the priority list is dropped
    without a trace: it is neither in the clean list nor in the removed
    log. *)
Theorem unlisted_manager_dropped (all_holdings : list Holding) (h : Holding) :
  h ∈ all_holdings ->
  manager_name h ∉ manager_priority ->
  (h ∉ remove_duplicates all_holdings)
  /\ (h ∉ duplicate_holding <$> removed_duplicates (dedup_run all_holdings)).
Proof.
  intros _ Hm.
  assert (H : ~ (h ∈ clean_holdings (dedup_run all_holdings)
                 \/ h ∈ duplicate_holding <$> removed_duplicates (dedup_run all_holdings))).
  { rewrite dedup_run_by_priority. intros H. apply dedup_fold_origin in H.
    simpl in H. rewrite !elem_of_nil, elem_of_by_priority in H. tauto. }
  unfold remove_duplicates. tauto.
Qed.

Lemma unlisted_manager_dropped_witness :
  (Sample.from_other_bank
     ∉ remove_duplicates [Sample.alpha_from_ca; Sample.from_other_bank])
  /\ (Sample.from_other_bank
        ∉ duplicate_holding <$>
          removed_duplicates (dedup_run [Sample.alpha_from_ca; Sample.from_other_bank])).
Proof.
  apply (unlisted_manager_dropped
           [Sample.alpha_from_ca; Sample.from_other_bank] Sample.from_other_bank).
  - apply list_elem_of_further, list_elem_of_here.
  - apply (bool_decide_unpack _). vm_compute. exact I.
Defined.

(** ** What the extractors emit *)

Lemma gt_10000_1000 (v : float) : gt v 10000 = true -> gt v 1000 = true.
Proof.
  unfold gt. rewrite !ltb_spec.
  replace (Prim2SF 10000) with (S754_finite false 5497558138880000 (-39)) by (vm_compute; reflexivity).
  replace (Prim2SF 1000) with (S754_finite false 8796093022208000 (-43)) by (vm_compute; reflexivity).
  destruct (Prim2SF v) as [s| s| |s m e]; try destruct s; simpl; try discriminate; try reflexivity.
  unfold SFltb, SFcompare.
  destruct (Z.compare_spec (-39) e); destruct (Z.compare_spec (-43) e); try lia; try discriminate; try reflexivity.
Qed.

Lemma fold_left_invariant {A B} (I : A -> Prop) (f : A -> B -> A) (xs : list B) (a : A) :
  I a -> (forall a x, I a -> I (f a x)) -> I (fold_left f xs a).
Proof.
  intros Ha Hf. revert a Ha. induction xs as [|x xs IH]; intros a Ha; simpl; [done|].
  apply IH, Hf, Ha.
Qed.

Lemma Forall_flat_map {A B} (P : B -> Prop) (f : A -> list B) (xs : list A) :
  (forall x, Forall P (f x)) -> Forall P (flat_map f xs).
Proof.
  intros Hf. induction xs as [|x xs IH]; simpl; [constructor|].
  apply Forall_app. split; [apply Hf|apply IH].
Qed.

(** Destructs the test that decides what a loop body appends *)
Ltac emit_cases :=
  repeat first
    [ apply Forall_nil_2
    | progress cbv zeta
    | match goal with
      | |- Forall _ (if ?c then _ else _) => destruct c eqn:?
      | |- Forall _ (match ?x with _ => _ end) => destruct x eqn:?
      | |- Forall _ (snd (if ?c then _ else _)) => destruct c eqn:?
      | |- Forall _ (snd (match ?x with _ => _ end)) => destruct x eqn:?
      end ].

Module KotakFacts.
Import Kotak.

Lemma scan_cell_ok acc ic :
  amount_ok (fst acc) /\ amount_ok (snd acc) ->
  amount_ok (fst (scan_cell acc ic)) /\ amount_ok (snd (scan_cell acc ic)).
Proof.
  destruct acc as [hc mv], ic as [i c]. unfold scan_cell. cbv beta iota zeta.
  intros [H1 H2]. cbn [fst snd] in H1, H2.
  destruct (cell_truthy c); [|done].
  destruct (gt (currency_value c) 10000) eqn:E; [|done].
  destruct ((2 <=? i) && is_zero hc); cbn [fst snd]; [split; [by right|done]|].
  destruct ((4 <=? i) && is_zero mv); cbn [fst snd]; [split; [done|by right]|done].
Qed.

Lemma filter_amounts_ok (r : row) :
  Forall (fun v => gt v 10000 = true)
    (flat_map (fun c => if cell_truthy c && gt (currency_value c) 10000
                        then [currency_value c] else []) r).
Proof.
  apply Forall_flat_map. intros c.
  destruct (cell_truthy c); simpl; [|constructor].
  destruct (gt (currency_value c) 10000) eqn:E; repeat constructor. exact E.
Qed.

Lemma row_amounts_ok (r : row) :
  amount_ok (fst (row_amounts r)) /\ amount_ok (snd (row_amounts r)).
Proof.
  unfold row_amounts.
  pose proof (fold_left_invariant
                (fun acc => amount_ok (fst acc) /\ amount_ok (snd acc))
                scan_cell (enumerate r) (0%float, 0%float)) as H.
  destruct (fold_left scan_cell (enumerate r) (0%float, 0%float)) as [hc mv].
  assert (Hacc : amount_ok hc /\ amount_ok mv).
  { apply H; [split; by left|]. intros; by apply scan_cell_ok. }
  destruct (is_zero hc || is_zero mv); [|exact Hacc].
  pose proof (filter_amounts_ok r) as Hf.
  destruct (flat_map _ r) as [|x [|y l]]; simpl; try exact Hacc.
  inversion Hf as [|? ? Hx Hf']; subst. inversion Hf' as [|? ? Hy ?]; subst.
  split; by right.
Qed.

(** What [_extract_holding_from_row] guarantees of the record it returns *)
Lemma row_holding_facts name r cat rd pn pc idate h :
  _extract_holding_from_row name r cat rd pn pc idate = Some h ->
  gt (current_investment_value h) 10000 = true
  /\ (asset_type h = "Bonds" ->
      current_market_value h = current_investment_value h
      /\ pl_amount h = 0%float /\ pl_percentage h = 0%float).
Proof.
  unfold _extract_holding_from_row.
  pose proof (row_amounts_ok r) as [Hc _].
  destruct (row_amounts r) as [hc mv]. simpl in Hc.
  destruct (gt hc 0 && gt mv 0) eqn:G; [|discriminate].
  intros [= <-]. simpl. split.
  - destruct Hc as [-> | Hc]; [|exact Hc].
    apply andb_true_iff in G as [G _]. vm_compute in G. discriminate.
  - intros ->. simpl. done.
Qed.

Lemma extract_Forall (P : Holding -> Prop) (file : pdf) :
  (forall name r cat rd pn pc idate h,
      _extract_holding_from_row name r cat rd pn pc idate = Some h ->
      gt (current_market_value h) 1000 = true -> P h) ->
  Forall P (extract file).
Proof.
  intros HP. unfold extract. destruct file as [pages|e]; simpl; [|constructor].
  apply Forall_flat_map. intros [page_num page]. unfold extract_page.
  emit_cases. apply Forall_flat_map. intros t. unfold extract_table.
  emit_cases.
  apply (fold_left_invariant (fun acc => Forall P (snd acc))); [constructor|].
  intros [cat found] [row_idx r] Hacc. simpl in Hacc. unfold row_step.
  emit_cases; simpl; try exact Hacc.
  apply Forall_app. split; [exact Hacc|]. repeat constructor. eapply HP; eauto.
Qed.

End KotakFacts.

Lemma INDMoney_extract_nil w file dates : INDMoney.extract w file dates = [].
Proof.
  unfold INDMoney.extract. destruct file as [pages|e]; reflexivity.
Qed.

(** The page loop of IND Money, for whatever rate it is given, emits only
    holdings with a positive market value. *)
Lemma INDMoney_pages_Forall rate dates report_date pages :
  Forall (fun h => gt (current_market_value h) 0 = true)
    (INDMoney.extract_pages rate dates report_date pages).
Proof.
  unfold INDMoney.extract_pages.
  apply Forall_flat_map. intros [page_num page]. unfold INDMoney.extract_page.
  emit_cases. apply Forall_flat_map. intros [table_idx t]. unfold INDMoney.extract_table.
  emit_cases. apply Forall_flat_map. intros [row_idx r]. unfold INDMoney.extract_row.
  emit_cases. repeat constructor. assumption.
Qed.

Lemma ClientAssociates_extract_Forall file : Forall (above 1000) (ClientAssociates.extract file).
Proof.
  unfold ClientAssociates.extract. destruct file as [pages|e]; [|apply Forall_nil_2].
  generalize (enumerate pages). intros ps.
  destruct pages as [|first pages']; [apply Forall_nil_2|].
  cbn [mbind result_bind mret result_ret try_except].
  set (rd := match Re.search _ _ with Some _ => _ | None => _ end). clearbody rd.
  apply (fold_left_invariant (Forall (above 1000))); [constructor|].
  intros holdings [page_num page] Hacc. unfold ClientAssociates.page_step.
  emit_cases; try exact Hacc.
  apply (fold_left_invariant (Forall (above 1000))).
  - apply Forall_app. split; [exact Hacc|].
    unfold ClientAssociates.extract_text_lines.
    apply (fold_left_invariant (fun acc => Forall (above 1000) (snd acc))); [constructor|].
    intros [cat found] [i raw_line] Hf. simpl in Hf.
    unfold ClientAssociates.text_line_step.
    emit_cases; simpl; try exact Hf.
    apply Forall_app. split; [exact Hf|].
    unfold ClientAssociates.extract_fund_line.
    emit_cases.
    all: match goal with
         | H : _ && _ = true |- _ => apply andb_true_iff in H as [? ?]
         end; repeat constructor; assumption.
  - intros hs [table_idx t] Hhs. unfold ClientAssociates.table_step.
    emit_cases; try exact Hhs.
    apply (fold_left_invariant (Forall (above 1000))); [exact Hhs|].
    intros hs' [row_idx r] Hhs'. unfold ClientAssociates.table_row_step.
    emit_cases; try exact Hhs'.
    apply Forall_app. split; [exact Hhs'|].
    match goal with
    | H : gt _ 1000 && gt _ 1000 = true |- _ => apply andb_true_iff in H as [? ?]
    end.
    repeat constructor; assumption.
Qed.

Ltac split_guard :=
  repeat match goal with
         | H : _ && _ = true |- _ => apply andb_true_iff in H as [? ?]
         end.

Lemma YesBank_extract_Forall file : Forall (above 1000) (YesBank.extract file).
Proof.
  unfold YesBank.extract. destruct file as [pages|e]; [|apply Forall_nil_2].
  cbn [mbind result_bind mret result_ret try_except].
  apply Forall_flat_map. intros [page_num page]. unfold YesBank.extract_page.
  emit_cases. apply Forall_flat_map. intros [table_idx t]. unfold YesBank.extract_table.
  emit_cases.
  - unfold YesBank.simple_table. emit_cases.
    all: split_guard; repeat constructor; assumption.
  - apply Forall_flat_map. intros fnd. unfold YesBank.fund_holding.
    emit_cases. split_guard. repeat constructor; assumption.
Qed.

Lemma IIFL360One_extract_Forall file : Forall (above 1000) (IIFL360One.extract file).
Proof.
  unfold IIFL360One.extract. destruct file as [pages|e]; [|apply Forall_nil_2].
  cbn [mbind result_bind mret result_ret try_except].
  apply Forall_flat_map. intros [page_num page]. unfold IIFL360One.extract_page.
  emit_cases.
  apply (fold_left_invariant (fun acc => Forall (above 1000) (snd acc))); [constructor|].
  intros [cat found] [i raw_line] Hf. simpl in Hf.
  unfold IIFL360One.text_line_step.
  emit_cases; simpl; try exact Hf.
  apply Forall_app. split; [exact Hf|].
  unfold IIFL360One.extract_instrument_line.
  emit_cases.
  all: split_guard; repeat constructor; assumption.
Qed.

Lemma MotilalOswal_extract_Forall file :
  Forall (fun h => gt (current_market_value h) 0 = true) (MotilalOswal.extract file).
Proof.
  unfold MotilalOswal.extract. destruct file as [pages|e]; [|apply Forall_nil_2].
  cbn [mbind result_bind mret result_ret try_except].
  apply Forall_flat_map. intros [page_num page]. unfold MotilalOswal.extract_page.
  emit_cases.
  all: apply Forall_app; split.
  all: emit_cases.
  all: unfold MotilalOswal.extract_direct_equity, MotilalOswal.extract_aif_holdings.
  all: apply Forall_flat_map; intros t; emit_cases.
  all: apply Forall_flat_map; intros r.
  all: unfold MotilalOswal.equity_row, MotilalOswal.aif_row; emit_cases.
  all: repeat constructor; assumption.
Qed.

Lemma gt_1000_not_le (v : float) : gt v 1000 = true -> PrimFloat.leb v 1000 = false.
Proof.
  unfold gt. rewrite ltb_spec, leb_spec.
  replace (Prim2SF 1000) with (S754_finite false 8796093022208000 (-43))
    by (vm_compute; reflexivity).
  destruct (Prim2SF v) as [s| s| |s m e]; try destruct s; simpl;
    try discriminate; try reflexivity.
  unfold SFltb, SFleb, SFcompare.
  destruct (Z.compare_spec (-43) e) as [E|E|E];
    destruct (Z.compare_spec e (-43)) as [E'|E'|E'];
    try lia; try discriminate; try reflexivity.
  pose proof (Pos.compare_cont_antisym 8796093022208000 m Eq) as H.
  cbn [CompOpp] in H. rewrite <- H.
  destruct (Pos.compare_cont Eq 8796093022208000 m); simpl; try discriminate; reflexivity.
Qed.

Lemma gt_0_not_le (v : float) : gt v 0 = true -> PrimFloat.leb v 0 = false.
Proof.
  unfold gt. rewrite ltb_spec, leb_spec.
  replace (Prim2SF 0) with (S754_zero false) by (vm_compute; reflexivity).
  destruct (Prim2SF v) as [s| s| |s m e]; try destruct s; simpl;
    try discriminate; reflexivity.
Qed.

(** ** Claims about the value-parsing utilities *)

Lemma py_float_raises_ValueError (s : string) (e : exn) :
  py_float s = Raise e -> e = ValueError.
Proof.
  unfold py_float, PyFloat.float_of_chars.
  destruct (PyFloat.sign _) as [neg body].
  destruct (_ || _); [discriminate|].
  destruct (Str.eqb _ _); [discriminate|].
  destruct (PyFloat.floatnumber body) as [[mant exp10]|]; [discriminate|].
  by intros [= <-].
Qed.

Lemma clean_currency_value_Ok (c : cell) : clean_currency_value c = Ok (currency_value c).
Proof.
  unfold currency_value, clean_currency_value. destruct c as [v|]; [|reflexivity].
  destruct (_ || _); [reflexivity|].
  destruct (py_float _) as [x|e] eqn:E; [reflexivity|].
  apply py_float_raises_ValueError in E as ->. reflexivity.
Qed.

(** C7. [clean_currency_value] never raises: on every string it returns a
    float, which is 0.0 when the string is empty, is the placeholder "-" or
    blank once stripped, or is refused by [float] after the currency signs,
    commas and blanks are taken out, and is the parsed number otherwise. In
    particular "-" gives 0.0 and "₹1,234.50" gives 1234.5. *)
Theorem clean_currency_value_total (s : string) :
  (exists x, clean_currency_value (Some s) = Ok x)
  /\ clean_currency_value (Some s)
     = Ok (if negb (truthy s) || String.eqb (str_strip s) "-" || String.eqb (str_strip s) ""
           then 0%float
           else match py_float (Re.sub "[₹$,\s]" "" s) with
                | Ok x => x
                | Raise _ => 0%float
                end)
  /\ clean_currency_value (Some "") = Ok 0%float
  /\ clean_currency_value (Some "-") = Ok 0%float
  /\ clean_currency_value (Some "not a number") = Ok 0%float
  /\ clean_currency_value (Some "₹1,234.50") = Ok 1234.5%float.
Proof.
  split; [rewrite clean_currency_value_Ok; eauto|].
  split; [|repeat split; vm_compute; reflexivity].
  unfold clean_currency_value.
  destruct (_ || _); [reflexivity|].
  destruct (py_float _) as [x|e] eqn:E; [reflexivity|].
  apply py_float_raises_ValueError in E as ->. reflexivity.
Qed.

(** ** Claims about the extractors *)

(** C1 (code defect). [INDMoneyExtractor.extract] asks the converter for
    [get_usd_to_inr_rate], a method [CurrencyConverter] does not have: the
    [AttributeError] is caught by the handler of [extract], which returns
    the empty list, for every document. For the statement of AUGUST - 2025
    no record is emitted at all, although the converter holds the rate 83.0
    and the page loop, given that rate, would emit the row of 1,000 USD with
    a market value of 83,000. *)
Theorem indmoney_emits_nothing :
  (forall w file holding_dates, INDMoney.extract w file holding_dates = [])
  /\ CurrencyConverter.getattr "get_usd_to_inr_rate" = Raise AttributeError
  /\ INDMoney.extract SampleDoc.world_83 (Ok SampleDoc.indmoney_document) [] = []
  /\ INDMoney.read_report_date SampleDoc.indmoney_document = "2025-08-31"
  /\ CurrencyConverter.get_exchange_rate SampleDoc.world_83 "USD" "INR" = Some 83%float
  /\ map current_market_value
       (INDMoney.extract_pages 83 [] "2025-08-31" SampleDoc.indmoney_document)
     = [83000%float].
Proof.
  split; [intros; apply INDMoney_extract_nil|].
  repeat split; vm_compute; reflexivity.
Qed.

(** C3 (code defect). The table path of [ClientAssociatesExtractor.extract]
    copies [pl_amount] from the gain/loss column of the row instead of
    recomputing it: for a row with total cost 5,000, market value 6,000 and
    999 in that column the emitted record has [pl_amount] 999, not 1,000. *)
Theorem client_associates_table_pl_verbatim :
  ClientAssociates.extract (Ok SampleDoc.client_associates_document)
  = [SampleDoc.client_associates_holding]
  /\ current_investment_value SampleDoc.client_associates_holding = 5000%float
  /\ current_market_value SampleDoc.client_associates_holding = 6000%float
  /\ pl_amount SampleDoc.client_associates_holding = 999%float
  /\ (current_market_value SampleDoc.client_associates_holding
      - current_investment_value SampleDoc.client_associates_holding)%float = 1000%float
  /\ PrimFloat.eqb (pl_amount SampleDoc.client_associates_holding)
       (current_market_value SampleDoc.client_associates_holding
        - current_investment_value SampleDoc.client_associates_holding) = false.
Proof. repeat split; vm_compute; reflexivity. Qed.

(** C8. Every holding the Kotak extractor emits with asset type 'Bonds'
    has its market value equal to its investment value, and a P&L amount
    and percentage of zero. *)
Theorem kotak_bonds_fixed_value (file : pdf) (h : Holding) :
  h ∈ Kotak.extract file ->
  asset_type h = "Bonds" ->
  current_market_value h = current_investment_value h
  /\ pl_amount h = 0%float
  /\ pl_percentage h = 0%float.
Proof.
  intros Hin Hb.
  pose proof (KotakFacts.extract_Forall
                (fun h => asset_type h = "Bonds" ->
                          current_market_value h = current_investment_value h
                          /\ pl_amount h = 0%float /\ pl_percentage h = 0%float) file) as H.
  rewrite Forall_forall in H. apply H; [|exact Hin|exact Hb].
  intros name r cat rd pn pc idate h' Hrow _.
  apply (KotakFacts.row_holding_facts _ _ _ _ _ _ _ _ Hrow).
Qed.

Lemma kotak_bonds_fixed_value_witness :
  current_market_value SampleDoc.kotak_holding
  = current_investment_value SampleDoc.kotak_holding
  /\ pl_amount SampleDoc.kotak_holding = 0%float
  /\ pl_percentage SampleDoc.kotak_holding = 0%float.
Proof.
  apply (kotak_bonds_fixed_value (Ok SampleDoc.kotak_document) SampleDoc.kotak_holding).
  - assert (Kotak.extract (Ok SampleDoc.kotak_document) = [SampleDoc.kotak_holding]) as ->
      by (vm_compute; reflexivity).
    apply list_elem_of_here.
  - reflexivity.
Defined.

(** C9 (as amended). Every emitted holding has a market value above the
    threshold of its extractor, 1,000 for Client Associates, Yes Bank,
    IIFL 360 One and Kotak and 0 for Motilal Oswal and IND Money, so that a
    candidate with [current_market_value <= threshold] is never emitted.
    The investment value is above 1,000 as well for Client Associates,
    Yes Bank, IIFL 360 One and Kotak; Motilal Oswal and IND Money do not
    test it. (For IND Money the same holds of its page loop under any rate:
    [INDMoney_pages_Forall].) *)
Theorem acceptance_filter (e : extractor) (file : pdf) (h : Holding) :
  h ∈ run_extractor e file ->
  gt (current_market_value h) (materiality_threshold (extractor_name e)) = true
  /\ PrimFloat.leb (current_market_value h) (materiality_threshold (extractor_name e)) = false
  /\ match investment_floor e with
     | Some floor => gt (current_investment_value h) floor = true
     | None => True
     end.
Proof.
  intros Hin.
  assert (Hmv : gt (current_market_value h) (materiality_threshold (extractor_name e)) = true
                /\ match investment_floor e with
                   | Some floor => gt (current_investment_value h) floor = true
                   | None => True
                   end).
  { destruct e as [w dates| | | | |]; simpl in Hin |- *.
    - rewrite INDMoney_extract_nil in Hin. by apply elem_of_nil in Hin.
    - pose proof (ClientAssociates_extract_Forall file) as H.
      rewrite Forall_forall in H. destruct (H h Hin). by split.
    - pose proof (YesBank_extract_Forall file) as H.
      rewrite Forall_forall in H. destruct (H h Hin). by split.
    - pose proof (MotilalOswal_extract_Forall file) as H.
      rewrite Forall_forall in H. split; [exact (H h Hin)|exact I].
    - pose proof (IIFL360One_extract_Forall file) as H.
      rewrite Forall_forall in H. destruct (H h Hin). by split.
    - pose proof (KotakFacts.extract_Forall
                    (fun h => gt (current_market_value h) 1000 = true
                              /\ gt (current_investment_value h) 1000 = true) file) as H.
      rewrite Forall_forall in H. apply H; [|exact Hin].
      intros name r cat rd pn pc idate h' Hrow Hgt. split; [exact Hgt|].
      apply gt_10000_1000. apply (KotakFacts.row_holding_facts _ _ _ _ _ _ _ _ Hrow). }
  destruct Hmv as [Hmv Hiv]. split; [exact Hmv|]. split; [|exact Hiv].
  destruct e; simpl in Hmv |- *;
    first [apply gt_1000_not_le; exact Hmv | apply gt_0_not_le; exact Hmv].
Qed.

Lemma acceptance_filter_witness :
  gt (current_market_value SampleDoc.client_associates_holding)
     (materiality_threshold "Client Associates") = true
  /\ PrimFloat.leb (current_market_value SampleDoc.client_associates_holding)
       (materiality_threshold "Client Associates") = false
  /\ gt (current_investment_value SampleDoc.client_associates_holding) 1000 = true.
Proof.
  apply (acceptance_filter ExClientAssociates (Ok SampleDoc.client_associates_document)
           SampleDoc.client_associates_holding).
  assert (run_extractor ExClientAssociates (Ok SampleDoc.client_associates_document)
          = [SampleDoc.client_associates_holding]) as -> by (vm_compute; reflexivity).
  apply list_elem_of_here.
Defined.

(** C9 as stated fails for Motilal Oswal, whose only test is
    [current_market_value > 0]: a row without an investment value is
    emitted with [current_investment_value] 0, which is above no threshold. *)
Lemma motilal_emits_zero_investment :
  run_extractor ExMotilalOswal (Ok SampleDoc.motilal_document) = [SampleDoc.motilal_holding]
  /\ current_investment_value SampleDoc.motilal_holding = 0%float
  /\ current_market_value SampleDoc.motilal_holding = 5000%float
  /\ gt (current_investment_value SampleDoc.motilal_holding)
        (materiality_threshold "Motilal Oswal") = false
  /\ gt (current_investment_value SampleDoc.motilal_holding) 0 = false.
Proof. repeat split; vm_compute; reflexivity. Qed.

(** * Deduplication: what the loop keeps *)

Ltac set_eq_tac :=
  apply set_eq; intros ?; rewrite ?elem_of_union, ?elem_of_singleton; intuition (subst; auto).

Section DedupMore.
Implicit Types (h : Holding) (l all : list Holding) (m : string) (st : dedup_state)
  (seen : gset string).

Lemma keep_first_fresh seen l :
  Forall (fun h => asset_key h ∉ seen) (keep_first seen l).
Proof.
  revert seen. induction l as [|x l IH]; intros seen; simpl; [constructor|].
  destruct (bool_decide _) eqn:E; [apply IH|].
  apply bool_decide_eq_false in E. constructor; [exact E|].
  eapply Forall_impl; [apply IH|]. intros h Hh Hin. apply Hh.
  apply elem_of_union. by right.
Qed.

Lemma keep_first_NoDup seen l : NoDup (asset_key <$> keep_first seen l).
Proof.
  revert seen. induction l as [|x l IH]; intros seen; simpl; [constructor|].
  destruct (bool_decide _) eqn:E; [apply IH|].
  rewrite fmap_cons. apply NoDup_cons. split; [|apply IH].
  intros Hin. apply list_elem_of_fmap in Hin as (h & Hk & Hh).
  pose proof (keep_first_fresh ({[create_asset_key (asset_name x)]} ∪ seen) l) as F.
  rewrite Forall_forall in F. apply (F h Hh).
  apply elem_of_union. left. apply elem_of_singleton. by unfold asset_key in *.
Qed.

Lemma keep_first_sublist seen l : keep_first seen l `sublist_of` l.
Proof.
  revert seen. induction l as [|x l IH]; intros seen; simpl; [constructor|].
  destruct (bool_decide _); [apply sublist_cons, IH|apply sublist_skip, IH].
Qed.

Lemma keep_first_covers seen l h :
  h ∈ l -> asset_key h ∈ seen \/ exists h', h' ∈ keep_first seen l /\ asset_key h' = asset_key h.
Proof.
  revert seen. induction l as [|x l IH]; intros seen Hin; [by apply elem_of_nil in Hin|].
  simpl. apply elem_of_cons in Hin as [->|Hin].
  - destruct (bool_decide _) eqn:E.
    + left. by apply bool_decide_eq_true in E.
    + right. exists x. split; [apply list_elem_of_here|done].
  - destruct (bool_decide _) eqn:E.
    + by apply IH.
    + destruct (IH ({[create_asset_key (asset_name x)]} ∪ seen) Hin) as [H|(h' & H1 & H2)].
      * apply elem_of_union in H as [H|H]; [|by left].
        apply elem_of_singleton in H. right. exists x.
        split; [apply list_elem_of_here|]. by unfold asset_key.
      * right. exists h'. split; [by apply list_elem_of_further|done].
Qed.

Lemma keep_first_app_keys seen l1 l2 :
  keep_first seen (l1 ++ l2) =
  keep_first seen l1 ++ keep_first (list_to_set (asset_key <$> l1) ∪ seen) l2.
Proof.
  revert seen. induction l1 as [|x l1 IH]; intros seen; simpl.
  - f_equal. by rewrite (left_id_L ∅ (∪)).
  - destruct (bool_decide _) eqn:E.
    + rewrite IH. f_equal. f_equal. apply bool_decide_eq_true in E.
      unfold asset_key at 2. set_eq_tac.
    + rewrite IH. simpl. do 3 f_equal. unfold asset_key at 2. set_eq_tac.
Qed.

Lemma keep_first_id seen l :
  Forall (fun h => asset_key h ∉ seen) l -> NoDup (asset_key <$> l) -> keep_first seen l = l.
Proof.
  revert seen. induction l as [|x l IH]; intros seen HF HN; simpl; [done|].
  inversion HF as [|? ? Hx HF']; subst. rewrite fmap_cons in HN.
  apply NoDup_cons in HN as [Hnx HN].
  rewrite bool_decide_eq_false_2 by exact Hx. f_equal. apply IH; [|done].
  apply Forall_forall. intros h Hh. rewrite Forall_forall in HF'.
  specialize (HF' h Hh). intros Hin. apply elem_of_union in Hin as [Hin|Hin]; [|done].
  apply elem_of_singleton in Hin. apply Hnx. apply list_elem_of_fmap. exists h.
  split; [|done]. by unfold asset_key.
Qed.


Lemma dedup_fold_lengths l st :
  length (clean_holdings (fold_left dedup_holding l st))
  + length (removed_duplicates (fold_left dedup_holding l st))
  = length (clean_holdings st) + length (removed_duplicates st) + length l.
Proof.
  revert st. induction l as [|x l IH]; intros st; simpl; [lia|].
  rewrite IH.
  destruct (dedup_holding_cases st x) as [[Hc Hr]|[Hc [o Hr]]]; rewrite Hc, Hr;
    rewrite length_app; simpl; lia.
Qed.

Lemma by_priority_cons_length ps h all :
  NoDup ps ->
  length (by_priority ps (h :: all)) =
  (if bool_decide (manager_name h ∈ ps) then 1 else 0) + length (by_priority ps all).
Proof.
  unfold by_priority. induction ps as [|p ps IH]; intros Hnd; simpl; [done|].
  apply NoDup_cons in Hnd as [Hp Hnd].
  rewrite !length_app, IH by done. rewrite filter_cons.
  destruct (decide (manager_name h = p)) as [E|E].
  - rewrite (bool_decide_eq_true_2 (manager_name h ∈ p :: ps))
      by (rewrite E; apply list_elem_of_here).
    rewrite (bool_decide_eq_false_2 (manager_name h ∈ ps)) by (rewrite E; exact Hp).
    simpl. lia.
  - destruct (bool_decide (manager_name h ∈ ps)) eqn:B.
    + rewrite (bool_decide_eq_true_2 (manager_name h ∈ p :: ps)); [lia|].
      apply list_elem_of_further. by apply bool_decide_eq_true in B.
    + rewrite (bool_decide_eq_false_2 (manager_name h ∈ p :: ps)); [lia|].
      apply bool_decide_eq_false in B. intros H. apply elem_of_cons in H as [H|H]; done.
Qed.

Lemma by_priority_length ps all :
  NoDup ps ->
  length (by_priority ps all) = length (filter (fun h => manager_name h ∈ ps) all).
Proof.
  intros Hnd. induction all as [|h all IH].
  - unfold by_priority. induction ps as [|p ps IHp]; simpl; [done|].
    apply NoDup_cons in Hnd as [_ Hnd]. by rewrite IHp.
  - rewrite by_priority_cons_length, filter_cons by done.
    destruct (decide (manager_name h ∈ ps)) as [E|E].
    + rewrite bool_decide_eq_true_2 by done. simpl. by rewrite IH.
    + rewrite bool_decide_eq_false_2 by done. simpl. by rewrite IH.
Qed.

Lemma get_original_manager_found seen k clean :
  (exists h, h ∈ clean /\ asset_key h = k) ->
  exists h, h ∈ clean /\ asset_key h = k /\ get_original_manager seen k clean = manager_name h.
Proof.
  induction clean as [|x clean IH]; intros (h & Hin & Hk).
  - by apply elem_of_nil in Hin.
  - simpl. destruct (String.eqb_spec (create_asset_key (asset_name x)) k) as [E|E].
    + exists x. split; [apply list_elem_of_here|]. by split.
    + apply elem_of_cons in Hin as [->|Hin]; [by unfold asset_key in Hk|].
      destruct IH as (h' & H1 & H2 & H3); [by exists h|].
      exists h'. split; [by apply list_elem_of_further|]. by split.
Qed.

Lemma dedup_holding_provenance st x : provenance_ok st -> provenance_ok (dedup_holding st x).
Proof.
  intros [Hseen Hlog]. unfold dedup_holding, provenance_ok.
  destruct (bool_decide _) eqn:E; cbn [clean_holdings removed_duplicates seen_assets].
  - apply bool_decide_eq_true in E. split; [exact Hseen|].
    apply Forall_app. split; [exact Hlog|]. repeat constructor.
    cbn [duplicate_holding original_manager].
    apply get_original_manager_found. by apply Hseen.
  - split.
    + intros k. rewrite elem_of_union, elem_of_singleton, Hseen. split.
      * intros [->|(h & H1 & H2)].
        -- exists x. split; [apply elem_of_app; right; apply list_elem_of_here|done].
        -- exists h. split; [apply elem_of_app; by left|done].
      * intros (h & H1 & H2). apply elem_of_app in H1 as [H1|H1].
        -- right. by exists h.
        -- apply list_elem_of_singleton in H1 as ->. by left.
    + eapply Forall_impl; [exact Hlog|]. intros e (h & H1 & H2 & H3).
      exists h. split; [apply elem_of_app; by left|]. by split.
Qed.

Lemma dedup_run_provenance all : provenance_ok (dedup_run all).
Proof.
  rewrite dedup_run_by_priority.
  apply (fold_left_invariant provenance_ok); [|intros; by apply dedup_holding_provenance].
  split; [|constructor]. intros k. split.
  - intros H. by apply elem_of_empty in H.
  - intros (h & H & _). by apply elem_of_nil in H.
Qed.

Lemma keep_first_priority ps all seen h h' :
  NoDup ps ->
  h ∈ keep_first seen (by_priority ps all) ->
  h' ∈ by_priority ps all ->
  asset_key h' = asset_key h ->
  exists i j, ps !! i = Some (manager_name h) /\ ps !! j = Some (manager_name h') /\ i <= j.
Proof.
  revert seen. induction ps as [|p ps IH]; intros seen Hnd Hh Hh' Hk.
  - by apply elem_of_nil in Hh'.
  - apply NoDup_cons in Hnd as [Hp Hnd].
    change (by_priority (p :: ps) all)
      with (filter (fun x => manager_name x = p) all ++ by_priority ps all) in *.
    rewrite keep_first_app_keys in Hh. apply elem_of_app in Hh as [Hh|Hh].
    + pose proof (keep_first_sublist seen (filter (fun x => manager_name x = p) all)) as Hs.
      pose proof (elem_of_sublist _ _ _ Hh Hs) as Hf.
      apply list_elem_of_filter in Hf as [Hm _].
      assert (Hm' : manager_name h' ∈ p :: ps).
      { apply elem_of_app in Hh' as [H|H].
        - apply list_elem_of_filter in H as [-> _]. apply list_elem_of_here.
        - apply list_elem_of_further. by apply elem_of_by_priority in H as [_ ?]. }
      apply list_elem_of_lookup in Hm' as [j Hj].
      exists 0, j. rewrite Hm. split; [done|]. split; [done|lia].
    + apply elem_of_app in Hh' as [Hh'|Hh'].
      * exfalso.
        pose proof (keep_first_fresh
                      (list_to_set (asset_key <$> filter (fun x => manager_name x = p) all) ∪ seen)
                      (by_priority ps all)) as F.
        rewrite Forall_forall in F. apply (F h Hh).
        apply elem_of_union. left. apply elem_of_list_to_set.
        rewrite <- Hk. by apply list_elem_of_fmap_2.
      * destruct (IH _ Hnd Hh Hh' Hk) as (i & j & Hi & Hj & Hij).
        exists (S i), (S j). split; [done|]. split; [done|lia].
Qed.

End DedupMore.

(** * The shape of emitted records *)

Ltac in_list := solve [repeat first [apply list_elem_of_here | apply list_elem_of_further]].

Lemma YesBank_classify_vocabulary category fund_name :
  YesBank._classify_asset_type category fund_name ∈ asset_types ExYesBank.
Proof. unfold YesBank._classify_asset_type. repeat case_match; in_list. Qed.

Lemma IIFL_classify_vocabulary name context :
  IIFL360One._classify_asset_type name context ∈ asset_types ExIIFL360One.
Proof. unfold IIFL360One._classify_asset_type. repeat case_match; in_list. Qed.

Lemma Kotak_classify_vocabulary category name :
  Kotak._classify_kotak_asset_type category name ∈ asset_types ExKotak.
Proof.
  unfold Kotak._classify_kotak_asset_type.
  generalize (if truthy category then str_upper category else ""). intros cu.
  repeat case_match; in_list.
Qed.

Lemma Kotak_check_for_duplicates_managers name :
  Forall (fun m => m = "Client Associates") (Kotak._check_for_duplicates name).
Proof.
  unfold Kotak._check_for_duplicates, Kotak.duplicate_patterns. cbn [flat_map fst snd].
  repeat (apply Forall_app; split; [case_match; repeat constructor|]).
  constructor.
Qed.

Lemma Kotak_row_shape name r cat pn pc idate h :
  Kotak._extract_holding_from_row name r cat "2025-08-31" pn pc idate = Some h ->
  emitted_shape ExKotak h.
Proof.
  unfold Kotak._extract_holding_from_row.
  destruct (Kotak.row_amounts r) as [hc mv].
  destruct (gt hc 0 && gt mv 0) eqn:G; [|discriminate].
  intros [= <-]. unfold emitted_shape. cbn -[String.eqb asset_types].
  split; [reflexivity|]. split; [apply Kotak_classify_vocabulary|].
  split.
  - destruct (String.eqb _ "Bonds"); [repeat split|]. split; reflexivity.
  - split; [reflexivity|]. split; [|reflexivity].
    eexists. split; [reflexivity|apply Kotak_check_for_duplicates_managers].
Qed.

Lemma Kotak_extract_rows_Forall (P : Holding -> Prop) (file : pdf) :
  (forall name r cat pn pc idate h,
      Kotak._extract_holding_from_row name r cat "2025-08-31" pn pc idate = Some h ->
      gt (current_market_value h) 1000 = true -> P h) ->
  Forall P (Kotak.extract file).
Proof.
  intros HP. unfold Kotak.extract. destruct file as [pages|e]; [|apply Forall_nil_2].
  cbn [mbind result_bind mret result_ret try_except].
  apply Forall_flat_map. intros [page_num page]. unfold Kotak.extract_page.
  emit_cases. apply Forall_flat_map. intros t. unfold Kotak.extract_table.
  emit_cases.
  apply (fold_left_invariant (fun acc => Forall P (snd acc))); [constructor|].
  intros [cat found] [row_idx r] Hacc. simpl in Hacc. unfold Kotak.row_step.
  emit_cases; simpl; try exact Hacc.
  apply Forall_app. split; [exact Hacc|]. repeat constructor. eapply HP; eauto.
Qed.

Ltac one_record := apply Forall_cons_2; [|apply Forall_nil_2].

Ltac shape_record :=
  unfold emitted_shape, recomputed;
  cbn [manager_name asset_type asset_name current_investment_value current_market_value
       value_as_of_date pl_amount pl_percentage irr_percentage investment_date raw_data
       potential_duplicate extractor_name standard_schema];
  repeat split; try reflexivity; try in_list.

Lemma YesBank_shape file : Forall (emitted_shape ExYesBank) (YesBank.extract file).
Proof.
  unfold YesBank.extract. destruct file as [pages|e]; [|apply Forall_nil_2].
  cbn [mbind result_bind mret result_ret try_except].
  apply Forall_flat_map. intros [page_num page]. unfold YesBank.extract_page.
  emit_cases. apply Forall_flat_map. intros [table_idx t]. unfold YesBank.extract_table.
  emit_cases.
  - unfold YesBank.simple_table. emit_cases.
    all: one_record; shape_record; apply YesBank_classify_vocabulary.
  - apply Forall_flat_map. intros fnd. unfold YesBank.fund_holding.
    emit_cases. one_record; shape_record; apply YesBank_classify_vocabulary.
Qed.

Lemma IIFL360One_shape file : Forall (emitted_shape ExIIFL360One) (IIFL360One.extract file).
Proof.
  unfold IIFL360One.extract. destruct file as [pages|e]; [|apply Forall_nil_2].
  cbn [mbind result_bind mret result_ret try_except].
  apply Forall_flat_map. intros [page_num page]. unfold IIFL360One.extract_page.
  emit_cases.
  apply (fold_left_invariant (fun acc => Forall (emitted_shape ExIIFL360One) (snd acc)));
    [constructor|].
  intros [cat found] [i raw_line] Hf. simpl in Hf.
  unfold IIFL360One.text_line_step.
  emit_cases; simpl; try exact Hf.
  apply Forall_app. split; [exact Hf|].
  unfold IIFL360One.extract_instrument_line.
  emit_cases.
  all: one_record; shape_record; apply IIFL_classify_vocabulary.
Qed.

Lemma MotilalOswal_shape file : Forall (emitted_shape ExMotilalOswal) (MotilalOswal.extract file).
Proof.
  unfold MotilalOswal.extract. destruct file as [pages|e]; [|apply Forall_nil_2].
  cbn [mbind result_bind mret result_ret try_except].
  apply Forall_flat_map. intros [page_num page]. unfold MotilalOswal.extract_page.
  emit_cases.
  all: apply Forall_app; split.
  all: emit_cases.
  all: unfold MotilalOswal.extract_direct_equity, MotilalOswal.extract_aif_holdings.
  all: apply Forall_flat_map; intros t; emit_cases.
  all: apply Forall_flat_map; intros r.
  all: unfold MotilalOswal.equity_row, MotilalOswal.aif_row; emit_cases.
  all: one_record; shape_record.
Qed.

Lemma ClientAssociates_shape file :
  Forall (emitted_shape ExClientAssociates) (ClientAssociates.extract file).
Proof.
  unfold ClientAssociates.extract. destruct file as [pages|e]; [|apply Forall_nil_2].
  generalize (enumerate pages). intros ps.
  destruct pages as [|first pages']; [apply Forall_nil_2|].
  cbn [mbind result_bind mret result_ret try_except].
  set (rd := match Re.search _ _ with Some _ => _ | None => _ end). clearbody rd.
  set (Q := emitted_shape ExClientAssociates).
  apply (fold_left_invariant (Forall Q)); [constructor|].
  intros holdings [page_num page] Hacc. unfold ClientAssociates.page_step.
  emit_cases; try exact Hacc.
  apply (fold_left_invariant (Forall Q)).
  - apply Forall_app. split; [exact Hacc|].
    unfold ClientAssociates.extract_text_lines.
    apply (fold_left_invariant (fun acc => Forall Q (snd acc))); [constructor|].
    intros [cat found] [i raw_line] Hf. simpl in Hf.
    unfold ClientAssociates.text_line_step.
    emit_cases; simpl; try exact Hf.
    apply Forall_app. split; [exact Hf|].
    unfold ClientAssociates.extract_fund_line.
    emit_cases.
    all: one_record; subst Q; shape_record.
  - intros hs [table_idx t] Hhs. unfold ClientAssociates.table_step.
    emit_cases; try exact Hhs.
    apply (fold_left_invariant (Forall Q)); [exact Hhs|].
    intros hs' [row_idx r] Hhs'. unfold ClientAssociates.table_row_step.
    emit_cases; try exact Hhs'.
    apply Forall_app. split; [exact Hhs'|].
    one_record; subst Q; shape_record.
Qed.

Lemma Kotak_shape file : Forall (emitted_shape ExKotak) (Kotak.extract file).
Proof.
  apply Kotak_extract_rows_Forall. intros name r cat pn pc idate h Hrow _.
  by eapply Kotak_row_shape.
Qed.

Lemma extractors_shape e file : Forall (emitted_shape e) (run_extractor e file).
Proof.
  destruct e as [w dates| | | | |]; simpl.
  - rewrite INDMoney_extract_nil. constructor.
  - apply ClientAssociates_shape.
  - apply YesBank_shape.
  - apply MotilalOswal_shape.
  - apply IIFL360One_shape.
  - apply Kotak_shape.
Qed.

(** * Floors and page ranges *)


Lemma gt_1000_0 (v : float) : gt v 1000 = true -> gt v 0 = true.
Proof.
  unfold gt. rewrite !ltb_spec.
  replace (Prim2SF 1000) with (S754_finite false 8796093022208000 (-43))
    by (vm_compute; reflexivity).
  replace (Prim2SF 0) with (S754_zero false) by (vm_compute; reflexivity).
  destruct (Prim2SF v) as [s| s| |s m e]; try destruct s; simpl;
    try discriminate; reflexivity.
Qed.

Lemma Kotak_row_floor name r cat rd pn pc idate h :
  Kotak._extract_holding_from_row name r cat rd pn pc idate = Some h -> above 10000 h.
Proof.
  unfold Kotak._extract_holding_from_row.
  pose proof (KotakFacts.row_amounts_ok r) as [Hc Hm].
  destruct (Kotak.row_amounts r) as [hc mv]. cbn [fst snd] in Hc, Hm.
  destruct (gt hc 0 && gt mv 0) eqn:G; [|discriminate].
  apply andb_true_iff in G as [G1 G2].
  assert (Hc' : gt hc 10000 = true).
  { destruct Hc as [-> | Hc]; [|exact Hc]. vm_compute in G1. discriminate. }
  assert (Hm' : gt mv 10000 = true).
  { destruct Hm as [-> | Hm]; [|exact Hm]. vm_compute in G2. discriminate. }
  intros [= <-]. unfold above.
  cbn [current_investment_value current_market_value].
  split; [exact Hc'|]. destruct (String.eqb _ _); assumption.
Qed.

Lemma Kotak_floor file : Forall (above 10000) (Kotak.extract file).
Proof.
  apply KotakFacts.extract_Forall. intros name r cat rd pn pc idate h Hrow _.
  by eapply Kotak_row_floor.
Qed.

Lemma filter_gt_Forall (t : float) (l : list float) :
  Forall (fun v => gt v t = true) (List.filter (fun v => gt v t) l).
Proof.
  induction l as [|x l IH]; simpl; [constructor|].
  destruct (gt x t) eqn:E; [constructor; assumption|assumption].
Qed.

Lemma IIFL360One_floor file : Forall (above 100000) (IIFL360One.extract file).
Proof.
  unfold IIFL360One.extract. destruct file as [pages|e]; [|apply Forall_nil_2].
  cbn [mbind result_bind mret result_ret try_except].
  apply Forall_flat_map. intros [page_num page]. unfold IIFL360One.extract_page.
  emit_cases.
  apply (fold_left_invariant (fun acc => Forall (above 100000) (snd acc))); [constructor|].
  intros [cat found] [i raw_line] Hf. simpl in Hf.
  unfold IIFL360One.text_line_step.
  emit_cases; simpl; try exact Hf.
  apply Forall_app. split; [exact Hf|].
  unfold IIFL360One.extract_instrument_line.
  emit_cases.
  match goal with
  | H : _ && _ && _ = true |- _ => apply andb_true_iff in H as [H _];
                                   apply andb_true_iff in H as [G1 G2]
  end.
  match goal with
  | _ : fold_left IIFL360One.scan_part _ _ = (_, ?nv) |- _ =>
      pose proof (filter_gt_Forall 100000 nv) as HF;
      destruct (List.filter (fun v => gt v 100000) nv) as [|a [|b large]]
  end.
  - vm_compute in G1. discriminate.
  - vm_compute in G1. discriminate.
  - inversion HF as [|? ? Ha HF']; subst. inversion HF' as [|? ? Hb _]; subst.
    one_record. split; assumption.
Qed.

Lemma positive_market_value e file :
  Forall (fun h => gt (current_market_value h) 0 = true) (run_extractor e file).
Proof.
  destruct e as [w dates| | | | |]; simpl.
  - rewrite INDMoney_extract_nil. constructor.
  - eapply Forall_impl; [apply ClientAssociates_extract_Forall|].
    intros h [_ H]. by apply gt_1000_0.
  - eapply Forall_impl; [apply YesBank_extract_Forall|].
    intros h [_ H]. by apply gt_1000_0.
  - apply MotilalOswal_extract_Forall.
  - eapply Forall_impl; [apply IIFL360One_extract_Forall|].
    intros h [_ H]. by apply gt_1000_0.
  - eapply Forall_impl; [apply Kotak_floor|].
    intros h [_ H]. by apply gt_1000_0, gt_10000_1000.
Qed.

Lemma enumerate_from_index {A} (start : nat) (xs : list A) i x :
  (i, x) ∈ enumerate_from start xs -> start <= i < start + length xs.
Proof.
  revert start. induction xs as [|y xs IH]; intros start H; simpl in *.
  - by apply elem_of_nil in H.
  - apply elem_of_cons in H as [[= -> ->]|H]; [lia|]. apply IH in H. lia.
Qed.

Lemma flat_map_nil_if {A B} (f : A -> list B) (xs : list A) :
  (forall x, x ∈ xs -> f x = []) -> flat_map f xs = [].
Proof.
  induction xs as [|x xs IH]; intros H; simpl; [done|].
  rewrite (H x) by apply list_elem_of_here. apply IH.
  intros y Hy. apply H. by apply list_elem_of_further.
Qed.


(** * Letter case, rates and dates *)

(** ** Letter case *)







(** ** Rates *)

(** X21. For USD, EUR and GBP to INR [get_exchange_rate] always returns a
    rate, whatever the cache holds and whether or not the rate service
    answers. *)
Theorem fallback_pairs_always_have_a_rate (w : CurrencyConverter.world) :
  Forall (fun c => is_Some (CurrencyConverter.get_exchange_rate w c "INR"))
         ["USD"; "EUR"; "GBP"].
Proof.
  repeat (apply Forall_cons_2; [|]); [| | |apply Forall_nil_2];
    unfold CurrencyConverter.get_exchange_rate;
    cbn [String.append];
    destruct (CurrencyConverter.valid_cache w _); try (eexists; reflexivity);
    destruct (CurrencyConverter.service_rate w _ _); try (eexists; reflexivity);
    vm_compute; eexists; reflexivity.
Qed.

Lemma append_eqb_r (s s' t : string) : String.eqb (s +:+ t) (s' +:+ t) = String.eqb s s'.
Proof.
  destruct (String.eqb_spec s s') as [->|Hne]; [apply String.eqb_refl|].
  apply String.eqb_neq. intros E. apply Hne.
  apply (f_equal list_ascii_of_string) in E.
  assert (forall a b, list_ascii_of_string (a +:+ b)
                      = (list_ascii_of_string a ++ list_ascii_of_string b)%list) as Happ.
  { intros a b. induction a as [|c a IH]; simpl; [reflexivity|]. by rewrite IH. }
  rewrite !Happ in E. apply app_inv_tail in E.
  rewrite <- (string_of_list_ascii_of_string s), <- (string_of_list_ascii_of_string s').
  by rewrite E.
Qed.

Lemma offline_rate (w : CurrencyConverter.world) (from_currency : string) :
  CurrencyConverter.valid_cache w (from_currency +:+ "_INR") = None ->
  CurrencyConverter.service_rate w from_currency "INR" = None ->
  CurrencyConverter.get_exchange_rate w from_currency "INR" =
    if String.eqb from_currency "USD" then Some 83.25%float
    else if String.eqb from_currency "EUR" then Some 90.5%float
    else if String.eqb from_currency "GBP" then Some 105.75%float
    else None.
Proof.
  intros Hc Hs. unfold CurrencyConverter.get_exchange_rate.
  cbv zeta.
  change (from_currency +:+ "_" +:+ "INR") with (from_currency +:+ "_INR").
  rewrite Hc, Hs.
  unfold CurrencyConverter.fallback_rates, CurrencyConverter.lookup_rate.
  change "USD_INR" with ("USD" +:+ "_INR").
  change "EUR_INR" with ("EUR" +:+ "_INR").
  change "GBP_INR" with ("GBP" +:+ "_INR").
  rewrite !append_eqb_r. reflexivity.
Qed.

(** X22. With no fresh cache entry and no answer from the rate service, an
    amount is converted to INR at the built-in rate 83.25, 90.50 or 105.75
    when it is in USD, EUR or GBP, and comes back unconverted, without an
    error, when it is in any other currency. *)
Theorem offline_conversion (w : CurrencyConverter.world) (amount : float)
    (from_currency : string) :
  CurrencyConverter.valid_cache w (from_currency +:+ "_INR") = None ->
  CurrencyConverter.service_rate w from_currency "INR" = None ->
  convert_amount w amount from_currency "INR" =
    if String.eqb from_currency "USD" then (amount * 83.25)%float
    else if String.eqb from_currency "EUR" then (amount * 90.5)%float
    else if String.eqb from_currency "GBP" then (amount * 105.75)%float
    else amount.
Proof.
  intros Hc Hs. unfold convert_amount.
  destruct (String.eqb_spec from_currency "INR") as [->|_]; [reflexivity|].
  rewrite (offline_rate w from_currency Hc Hs).
  destruct (String.eqb from_currency "USD"); [reflexivity|].
  destruct (String.eqb from_currency "EUR"); [reflexivity|].
  destruct (String.eqb from_currency "GBP"); reflexivity.
Qed.

Lemma offline_conversion_witness :
  convert_amount {| CurrencyConverter.valid_cache := fun _ => None;
                    CurrencyConverter.service_rate := fun _ _ => None |}
                 100 "EUR" "INR" = (100 * 90.5)%float.
Proof.
  exact (offline_conversion
           {| CurrencyConverter.valid_cache := fun _ => None;
              CurrencyConverter.service_rate := fun _ _ => None |}
           100 "EUR" eq_refl eq_refl).
Defined.

(** ** Dates *)

Lemma parse_date_loop_hyphen (patterns : list string) (s : string) :
  str_in "-" s = true ->
  parse_date_loop patterns s = s \/ parse_date_loop patterns s = str_prefix s 10.
Proof.
  intros H. induction patterns as [|p ps IH]; simpl; [by left|].
  destruct (Re.search p s); [|exact IH].
  rewrite H. by right.
Qed.

(** X23. A date string that contains a hyphen is never rearranged by
    [parse_date]: the result is the string itself or its first ten
    characters, also when the date in it is written as day, month name and
    year. *)
Theorem parse_date_keeps_hyphenated (s : string) :
  str_in "-" s = true ->
  parse_date s = s \/ parse_date s = str_prefix s 10.
Proof.
  intros H. unfold parse_date.
  destruct (negb (truthy s)) eqn:E; [|by apply parse_date_loop_hyphen].
  left. unfold truthy in E. apply negb_true_iff, negb_false_iff, String.eqb_eq in E.
  by subst.
Qed.

Lemma parse_date_keeps_hyphenated_witness :
  str_in "-" "12 Aug 2025 - final" = true
  /\ (parse_date "12 Aug 2025 - final" = "12 Aug 2025 - final"
      \/ parse_date "12 Aug 2025 - final" = str_prefix "12 Aug 2025 - final" 10).
Proof.
  split; [vm_compute; reflexivity|].
  apply (parse_date_keeps_hyphenated "12 Aug 2025 - final"). vm_compute. reflexivity.
Defined.

Lemma dict_get_cases (d : list (string * string)) (k default : string) :
  dict_get d k default = default \/ dict_get d k default ∈ (snd <$> d).
Proof.
  induction d as [|[k' v] d IH]; simpl; [by left|].
  destruct (String.eqb k k'); [right; apply list_elem_of_here|].
  destruct IH as [IH|IH]; [by left|right; by apply list_elem_of_further].
Qed.

(** X24. [parse_date_from_period] returns the empty string or a year
    followed by the last day of a month as in a year that is not a leap
    year: February always ends on the 28th, and a month name it does not
    know is taken for December. *)
Theorem period_date_is_month_end (period_str : string) :
  INDMoney.parse_date_from_period period_str = ""
  \/ exists year month_end,
       month_end ∈ month_ends
       /\ INDMoney.parse_date_from_period period_str = year +:+ "-" +:+ month_end.
Proof.
  unfold INDMoney.parse_date_from_period.
  destruct (negb (truthy period_str)); [by left|].
  destruct (Re.search _ _) as [m|]; [|by left].
  right. exists (Re.group m 2). cbv zeta.
  destruct (dict_get_cases INDMoney.period_months (str_upper (Re.group m 1)) "12") as [->|H].
  - exists "12-31". split; [|reflexivity].
    unfold month_ends. repeat first [apply list_elem_of_here|apply list_elem_of_further].
  - revert H. generalize (dict_get INDMoney.period_months (str_upper (Re.group m 1)) "12").
    intros v H. cbn in H.
    repeat (apply elem_of_cons in H as [->|H];
            [eexists; split; [|reflexivity]; unfold month_ends;
             solve [repeat first [apply list_elem_of_here|apply list_elem_of_further]]|]).
    by apply elem_of_nil in H.
Qed.

(** * Deduplication: the clean list and the log *)

(** X1. No two holdings of the clean list of [remove_duplicates] have the
    same canonical key. *)
Theorem clean_keys_distinct (all_holdings : list Holding) :
  NoDup (asset_key <$> remove_duplicates all_holdings).
Proof. rewrite remove_duplicates_keep_first. apply keep_first_NoDup. Qed.

(** X2. The clean list is a subsequence of the input taken manager by
    manager in the order of the priority list: records are neither changed
    nor made up, and they leave in priority order whatever order they came
    in. *)
Theorem clean_list_in_priority_order (all_holdings : list Holding) :
  remove_duplicates all_holdings `sublist_of` by_priority manager_priority all_holdings.
Proof. rewrite remove_duplicates_keep_first. apply keep_first_sublist. Qed.

(** X3. Every input holding of a listed manager is accounted for once: the
    clean list and the removed log together are as long as the part of the
    input whose manager is in the priority list. *)
Theorem clean_and_log_account_for_input (all_holdings : list Holding) :
  length (remove_duplicates all_holdings)
  + length (removed_duplicates (dedup_run all_holdings))
  = length (filter (fun h => manager_name h ∈ manager_priority) all_holdings).
Proof.
  unfold remove_duplicates. rewrite dedup_run_by_priority, dedup_fold_lengths.
  simpl. apply by_priority_length, NoDup_manager_priority.
Qed.

(** X4. Deduplication loses no asset: the keys of the clean list are the
    keys of the input holdings whose manager is in the priority list. *)
Theorem clean_keys_cover_input (all_holdings : list Holding) :
  list_to_set (asset_key <$> remove_duplicates all_holdings)
  =@{gset string}
  list_to_set (asset_key <$>
                 filter (fun h => manager_name h ∈ manager_priority) all_holdings).
Proof.
  apply set_eq. intros k. rewrite !elem_of_list_to_set, !list_elem_of_fmap.
  rewrite remove_duplicates_keep_first. split.
  - intros (h & -> & Hin). exists h. split; [done|].
    pose proof (elem_of_sublist _ _ _ Hin (keep_first_sublist _ _)) as Hin'.
    apply elem_of_by_priority in Hin' as [Hall Hm]. apply list_elem_of_filter. done.
  - intros (h & -> & Hin). apply list_elem_of_filter in Hin as [Hm Hall].
    assert (h ∈ by_priority manager_priority all_holdings) as Hb
      by (apply elem_of_by_priority; done).
    destruct (keep_first_covers ∅ _ h Hb) as [Hs|(h' & Hh' & Hk)].
    + by apply elem_of_empty in Hs.
    + exists h'. done.
Qed.

(** X5. Every entry of the removed log names, as original manager, the
    manager of a holding of the clean list that has the key of the dropped
    record: the fall-back name "Unknown" of [get_original_manager] is never
    logged by [remove_duplicates]. *)
Theorem log_names_the_keeper (all_holdings : list Holding) :
  Forall (fun e => exists h, h ∈ remove_duplicates all_holdings
                             /\ asset_key h = asset_key (duplicate_holding e)
                             /\ original_manager e = manager_name h)
         (removed_duplicates (dedup_run all_holdings)).
Proof. exact (proj2 (dedup_run_provenance all_holdings)). Qed.

(** X6. First claim wins, in general: the holding kept for a key comes
    from a manager that stands no later in the priority list than the
    manager of any input holding with that key. *)
Theorem survivor_has_best_priority (all_holdings : list Holding) (kept other : Holding) :
  kept ∈ remove_duplicates all_holdings ->
  other ∈ all_holdings ->
  manager_name other ∈ manager_priority ->
  asset_key other = asset_key kept ->
  exists i j, manager_priority !! i = Some (manager_name kept)
              /\ manager_priority !! j = Some (manager_name other)
              /\ i <= j.
Proof.
  intros Hk Ho Hm He. rewrite remove_duplicates_keep_first in Hk.
  apply (keep_first_priority manager_priority all_holdings ∅ kept other);
    [apply NoDup_manager_priority|exact Hk| |exact He].
  apply elem_of_by_priority. done.
Qed.

Lemma survivor_has_best_priority_witness :
  exists i j, manager_priority !! i = Some (manager_name Sample.alpha_from_ca)
              /\ manager_priority !! j = Some (manager_name Sample.alpha_from_kotak)
              /\ i <= j.
Proof.
  apply (survivor_has_best_priority [Sample.alpha_from_kotak; Sample.alpha_from_ca]
           Sample.alpha_from_ca Sample.alpha_from_kotak).
  - assert (remove_duplicates [Sample.alpha_from_kotak; Sample.alpha_from_ca]
            = [Sample.alpha_from_ca]) as -> by (vm_compute; reflexivity).
    apply list_elem_of_here.
  - apply list_elem_of_here.
  - apply (bool_decide_unpack _). vm_compute. exact I.
  - vm_compute. reflexivity.
Defined.

(** X7. A list that is already clean is returned as it is: holdings that
    stand manager by manager in priority order and have distinct keys pass
    [remove_duplicates] unchanged, and nothing is logged. *)
Theorem clean_input_unchanged (all_holdings : list Holding) :
  grouped manager_priority all_holdings ->
  NoDup (asset_key <$> all_holdings) ->
  remove_duplicates all_holdings = all_holdings
  /\ removed_duplicates (dedup_run all_holdings) = [].
Proof.
  intros Hg Hn.
  assert (remove_duplicates all_holdings = all_holdings) as E.
  { rewrite remove_duplicates_keep_first, (by_priority_grouped _ _ NoDup_manager_priority Hg).
    apply keep_first_id; [|exact Hn].
    apply Forall_forall. intros h _. apply not_elem_of_empty. }
  split; [exact E|].
  pose proof (dedup_fold_lengths (by_priority manager_priority all_holdings) dedup_init) as L.
  rewrite <- dedup_run_by_priority in L. fold (remove_duplicates all_holdings) in L.
  rewrite E, (by_priority_grouped _ _ NoDup_manager_priority Hg) in L. simpl in L.
  apply length_zero_iff_nil. lia.
Qed.

Lemma clean_input_unchanged_witness :
  remove_duplicates [Sample.alpha_from_ca; Sample.abc_sr_one]
  = [Sample.alpha_from_ca; Sample.abc_sr_one]
  /\ removed_duplicates (dedup_run [Sample.alpha_from_ca; Sample.abc_sr_one]) = [].
Proof.
  apply (clean_input_unchanged [Sample.alpha_from_ca; Sample.abc_sr_one]).
  - apply (grouped_pair manager_priority Sample.alpha_from_ca Sample.abc_sr_one 0 5);
      [reflexivity|reflexivity|lia].
  - apply (bool_decide_unpack _). vm_compute. exact I.
Defined.

(** * Extractors: what every emitted record satisfies *)

(** X8. Every record an extractor emits carries that extractor's manager
    name, and an asset type out of the few that extractor can assign. *)
Theorem records_carry_manager_and_known_type (e : extractor) (file : pdf) :
  Forall (fun h => manager_name h = extractor_name e /\ asset_type h ∈ asset_types e)
         (run_extractor e file).
Proof.
  eapply Forall_impl; [apply extractors_shape|].
  intros h (Hm & Ht & _). split; assumption.
Qed.

(** X9. Yes Bank, Motilal Oswal and IIFL 360 One recompute the P&L of every
    record they emit from its two values (amount = market - investment,
    percentage = amount / investment * 100 when the investment is positive,
    else 0); Kotak does so for every record that is not a bond. *)
Theorem pl_recomputed_from_values (file : pdf) :
  Forall recomputed (YesBank.extract file)
  /\ Forall recomputed (MotilalOswal.extract file)
  /\ Forall recomputed (IIFL360One.extract file)
  /\ Forall (fun h => asset_type h = "Bonds" \/ recomputed h) (Kotak.extract file).
Proof.
  repeat split.
  - eapply Forall_impl; [apply (extractors_shape ExYesBank)|].
    intros h (_ & _ & H & _). exact H.
  - eapply Forall_impl; [apply (extractors_shape ExMotilalOswal)|].
    intros h (_ & _ & H & _). exact H.
  - eapply Forall_impl; [apply (extractors_shape ExIIFL360One)|].
    intros h (_ & _ & H & _). exact H.
  - eapply Forall_impl; [apply (extractors_shape ExKotak)|].
    intros h (_ & _ & H & _).
    destruct (String.eqb_spec (asset_type h) "Bonds") as [E|_]; [by left|by right].
Qed.

(** X10. The Yes Bank and Kotak extractors stamp every record with the date
    2025-08-31, whatever the document says. *)
Theorem statement_date_is_fixed (file : pdf) :
  Forall (fun h => value_as_of_date h = "2025-08-31") (YesBank.extract file)
  /\ Forall (fun h => value_as_of_date h = "2025-08-31") (Kotak.extract file).
Proof.
  split.
  - eapply Forall_impl; [apply (extractors_shape ExYesBank)|].
    intros h (_ & _ & _ & H & _). exact H.
  - eapply Forall_impl; [apply (extractors_shape ExKotak)|].
    intros h (_ & _ & _ & H & _). exact H.
Qed.

(** X11. Only Kotak fills [potential_duplicate]: its records carry a list
    that names no manager other than Client Associates, and the records of
    every other extractor leave the field empty. *)
Theorem duplicate_flag_only_from_kotak (e : extractor) (file : pdf) :
  Forall (fun h =>
            match e with
            | ExKotak =>
                exists managers, potential_duplicate h = Some managers
                                 /\ Forall (fun m => m = "Client Associates") managers
            | _ => potential_duplicate h = None
            end)
         (run_extractor e file).
Proof.
  eapply Forall_impl; [apply extractors_shape|].
  intros h (_ & _ & _ & _ & H & _). exact H.
Qed.

(** X12. The row scans of Kotak and IIFL 360 One set floors above the
    acceptance test: both values of a Kotak record exceed 10,000 and both
    values of an IIFL 360 One record exceed 100,000. *)
Theorem kotak_and_iifl_floors (file : pdf) :
  Forall (above 10000) (Kotak.extract file)
  /\ Forall (above 100000) (IIFL360One.extract file).
Proof. split; [apply Kotak_floor|apply IIFL360One_floor]. Qed.

(** X13. No extractor emits a record whose market value is zero, negative
    or not a number. *)
Theorem emitted_market_value_positive (e : extractor) (file : pdf) (h : Holding) :
  h ∈ run_extractor e file -> gt (current_market_value h) 0 = true.
Proof.
  intros Hin. pose proof (positive_market_value e file) as H.
  rewrite Forall_forall in H. by apply H.
Qed.

Lemma emitted_market_value_positive_witness :
  gt (current_market_value SampleDoc.kotak_holding) 0 = true.
Proof.
  apply (emitted_market_value_positive ExKotak (Ok SampleDoc.kotak_document)).
  assert (run_extractor ExKotak (Ok SampleDoc.kotak_document) = [SampleDoc.kotak_holding])
    as -> by (vm_compute; reflexivity).
  apply list_elem_of_here.
Defined.

(** X14. A document that cannot be opened, or that has no more pages than
    the extractor skips at the start (5 for Yes Bank, 4 for Kotak, 3 for
    IIFL 360 One, 2 for Motilal Oswal, none for the other two), gives an
    empty list and no error. *)
Theorem short_or_unreadable_document_yields_nothing (e : extractor) (pages : list Page) :
  length pages <= leading_pages e ->
  run_extractor e (Ok pages) = []
  /\ forall x : exn, run_extractor e (Raise x) = [].
Proof.
  intros Hlen. split.
  - destruct e as [w dates| | | | |]; simpl in *.
    + apply INDMoney_extract_nil.
    + destruct pages; [reflexivity|simpl in Hlen; lia].
    + unfold YesBank.extract. cbn [mbind result_bind mret result_ret try_except].
      apply flat_map_nil_if. intros [i p] Hin.
      apply enumerate_from_index in Hin. simpl in Hin. unfold YesBank.extract_page.
      assert ((i <? 5) = true) as -> by (apply Nat.ltb_lt; lia). reflexivity.
    + unfold MotilalOswal.extract. cbn [mbind result_bind mret result_ret try_except].
      apply flat_map_nil_if. intros [i p] Hin.
      apply enumerate_from_index in Hin. simpl in Hin. unfold MotilalOswal.extract_page.
      assert ((i <? 2) = true) as -> by (apply Nat.ltb_lt; lia). reflexivity.
    + unfold IIFL360One.extract. cbn [mbind result_bind mret result_ret try_except].
      apply flat_map_nil_if. intros [i p] Hin.
      apply enumerate_from_index in Hin. simpl in Hin. unfold IIFL360One.extract_page.
      assert ((i <? 3) = true) as -> by (apply Nat.ltb_lt; lia). reflexivity.
    + unfold Kotak.extract. cbn [mbind result_bind mret result_ret try_except].
      apply flat_map_nil_if. intros [i p] Hin.
      apply enumerate_from_index in Hin. simpl in Hin. unfold Kotak.extract_page.
      assert ((i <? 4) = true) as -> by (apply Nat.ltb_lt; lia). reflexivity.
  - intros x. destruct e as [w dates| | | | |]; simpl;
      [apply INDMoney_extract_nil|reflexivity..].
Qed.

Lemma short_or_unreadable_document_yields_nothing_witness :
  run_extractor ExKotak (Ok [SampleDoc.blank_page; SampleDoc.blank_page; SampleDoc.blank_page;
                            SampleDoc.blank_page]) = []
  /\ forall x : exn, run_extractor ExKotak (Raise x) = [].
Proof.
  apply (short_or_unreadable_document_yields_nothing ExKotak
           [SampleDoc.blank_page; SampleDoc.blank_page; SampleDoc.blank_page;
            SampleDoc.blank_page]).
  vm_compute. lia.
Defined.

(** * The driver and the dashboard *)

Lemma extracted_Forall (P : extractor -> Holding -> Prop) e file :
  (forall f, Forall (P e) (run_extractor e f)) -> Forall (P e) (Driver.extracted e file).
Proof. intros H. destruct file as [f|]; simpl; [apply H|constructor]. Qed.

Lemma all_holdings_Forall (Q : Holding -> Prop) w i :
  (forall e f, Forall Q (run_extractor e f)) -> Forall Q (Driver.all_holdings w i).
Proof.
  intros H. unfold Driver.all_holdings.
  repeat (apply Forall_app; split);
    apply (extracted_Forall (fun _ => Q)); intros f; apply H.
Qed.

Lemma all_holdings_listed w i :
  Forall (fun h => manager_name h ∈ manager_priority) (Driver.all_holdings w i).
Proof.
  apply all_holdings_Forall. intros e f.
  eapply Forall_impl; [apply extractors_shape|].
  intros h (-> & _). destruct e; simpl; in_list.
Qed.

(** X15. In a run of the driver nothing that was extracted goes missing:
    the saved list and the removed log together are as long as the list of
    all holdings extracted. *)
Theorem driver_accounts_for_every_holding (w : CurrencyConverter.world) (i : Driver.inputs) :
  length (Driver.clean_holdings w i)
  + length (removed_duplicates (dedup_run (Driver.all_holdings w i)))
  = length (Driver.all_holdings w i).
Proof.
  unfold Driver.clean_holdings, remove_duplicates.
  rewrite dedup_run_by_priority, dedup_fold_lengths. simpl.
  rewrite (by_priority_length _ _ NoDup_manager_priority).
  by rewrite (filter_all _ _ (all_holdings_listed w i)).
Qed.

(** X16. The value test of [load_portfolio_data] never drops a holding the
    driver saved: on the saved list the dashboard keeps exactly the
    holdings whose name starts with neither "*" nor "Disclaimer". *)
Theorem dashboard_drops_by_name_only (w : CurrencyConverter.world) (i : Driver.inputs) :
  Dashboard.load_portfolio_data (Driver.clean_holdings w i)
  = List.filter (fun item => negb (str_startswith (asset_name item) "*")
                             && negb (str_startswith (asset_name item) "Disclaimer"))
                (Driver.clean_holdings w i).
Proof.
  unfold Dashboard.load_portfolio_data. apply List.filter_ext_in.
  intros h Hin. apply list_elem_of_In in Hin.
  unfold Driver.clean_holdings in Hin. rewrite remove_duplicates_keep_first in Hin.
  pose proof (elem_of_sublist _ _ _ Hin (keep_first_sublist _ _)) as Hb.
  apply elem_of_by_priority in Hb as [Hall _].
  pose proof (all_holdings_Forall (fun h => gt (current_market_value h) 0 = true) w i
                positive_market_value) as HF.
  rewrite Forall_forall in HF. unfold Dashboard.is_valid.
  rewrite (HF h Hall). reflexivity.
Qed.

(** ** [managers_summary] *)

Lemma add_items_closed (items : list Holding) (s : Dashboard.summary) :
  fold_left Dashboard.add_item items s =
  {| Dashboard.investment :=
       fold_left (fun a h => (a + current_investment_value h)%float) items
                 (Dashboard.investment s);
     Dashboard.market_value :=
       fold_left (fun a h => (a + current_market_value h)%float) items
                 (Dashboard.market_value s);
     Dashboard.count := Dashboard.count s + length items;
     Dashboard.asset_types :=
       Dashboard.asset_types s ∪ list_to_set (asset_type <$> items) |}.
Proof.
  revert s. induction items as [|x items IH]; intros s; simpl.
  - destruct s; simpl. f_equal; [lia|].
    apply set_eq. intros k. rewrite elem_of_union, elem_of_empty. tauto.
  - rewrite IH. unfold Dashboard.add_item at 1 2 3 4. simpl. f_equal; [lia|].
    apply set_eq. intros k. rewrite !elem_of_union, elem_of_singleton. tauto.
Qed.

Lemma summarize_item_lookup (d : gmap string Dashboard.summary) (item : Holding) (m : string) :
  Dashboard.summarize_item d item !! m =
  if bool_decide (manager_name item = m)
  then Some (Dashboard.add_item (default Dashboard.empty_summary (d !! m)) item)
  else d !! m.
Proof.
  unfold Dashboard.summarize_item. cbv zeta.
  destruct (bool_decide_reflect (manager_name item = m)) as [<-|Hne].
  - rewrite lookup_alter_eq.
    destruct (d !! manager_name item) as [s|] eqn:E; [by rewrite E|].
    by rewrite lookup_insert_eq.
  - rewrite lookup_alter_ne by done.
    destruct (d !! manager_name item); [done|]. by rewrite lookup_insert_ne.
Qed.

Lemma summary_fold_lookup (data : list Holding) (d : gmap string Dashboard.summary) (m : string) :
  fold_left Dashboard.summarize_item data d !! m =
  match filter (fun h => manager_name h = m) data with
  | [] => d !! m
  | items => Some (fold_left Dashboard.add_item items
                             (default Dashboard.empty_summary (d !! m)))
  end.
Proof.
  revert d. induction data as [|x data IH]; intros d; [reflexivity|].
  simpl. rewrite IH, summarize_item_lookup.
  destruct (bool_decide_reflect (manager_name x = m)) as [E|Hne].
  - rewrite filter_cons_True by done. simpl.
    destruct (filter _ data); reflexivity.
  - rewrite filter_cons_False by done. reflexivity.
Qed.

(** X17. [managers_summary] has an entry for exactly the managers that
    occur in the data; the entry counts that manager's holdings, collects
    their asset types and adds up their two values from 0 in list order. *)
Theorem managers_summary_entry (portfolio_data : list Holding) (manager : string) :
  Dashboard.managers_summary portfolio_data !! manager =
  match filter (fun h => manager_name h = manager) portfolio_data with
  | [] => None
  | items =>
      Some {| Dashboard.investment :=
                fold_left (fun a h => (a + current_investment_value h)%float) items 0%float;
              Dashboard.market_value :=
                fold_left (fun a h => (a + current_market_value h)%float) items 0%float;
              Dashboard.count := length items;
              Dashboard.asset_types := list_to_set (asset_type <$> items) |}
  end.
Proof.
  unfold Dashboard.managers_summary. rewrite summary_fold_lookup.
  destruct (filter _ portfolio_data) as [|x items] eqn:E; [apply lookup_empty|].
  rewrite lookup_empty, add_items_closed. simpl. f_equal. f_equal.
  apply set_eq. intros k. rewrite elem_of_union, elem_of_empty. tauto.
Qed.

(** * Names *)

Lemma drop_while_snoc (p : ascii -> bool) (l : list ascii) (c : ascii) :
  p c = false -> Str.drop_while p (l ++ [c]) = Str.drop_while p l ++ [c].
Proof.
  intros Hc. induction l as [|x l IH]; simpl; [by rewrite Hc|].
  destruct (p x); [exact IH|reflexivity].
Qed.

Lemma drop_while_idem (p : ascii -> bool) (l : list ascii) :
  Str.drop_while p (Str.drop_while p l) = Str.drop_while p l.
Proof.
  induction l as [|x l IH]; simpl; [reflexivity|].
  destruct (p x) eqn:E; [exact IH|]. simpl. by rewrite E.
Qed.

Lemma drop_while_head (p : ascii -> bool) (l : list ascii) :
  Str.drop_while p l = [] \/ exists c t, Str.drop_while p l = c :: t /\ p c = false.
Proof.
  induction l as [|x l IH]; simpl; [by left|].
  destruct (p x) eqn:E; [exact IH|]. right. by exists x, l.
Qed.

Lemma strip_idem (s : list ascii) : Str.strip (Str.strip s) = Str.strip s.
Proof.
  unfold Str.strip, Str.lstrip.
  assert (Str.drop_while Chr.is_space (Str.rstrip (Str.drop_while Chr.is_space s))
          = Str.rstrip (Str.drop_while Chr.is_space s)) as ->.
  { destruct (drop_while_head Chr.is_space s) as [->|(c & t & -> & Hc)]; [reflexivity|].
    unfold Str.rstrip. simpl rev. rewrite drop_while_snoc by exact Hc.
    rewrite rev_app_distr. simpl. by rewrite Hc. }
  unfold Str.rstrip. rewrite rev_involutive, drop_while_idem. reflexivity.
Qed.

Lemma str_strip_idem (s : string) : str_strip (str_strip s) = str_strip s.
Proof.
  unfold str_strip, Str.to_string, Str.of_string.
  by rewrite list_ascii_of_string_of_list_ascii, strip_idem.
Qed.

Lemma stripped_cell_strip (r : row) (i : nat) :
  str_strip (stripped_cell r i) = stripped_cell r i.
Proof.
  unfold stripped_cell. destruct (cell_truthy _); [apply str_strip_idem|reflexivity].
Qed.

Lemma Kotak_row_name name r cat rd pn pc idate h :
  Kotak._extract_holding_from_row name r cat rd pn pc idate = Some h ->
  asset_name h = str_strip name.
Proof.
  unfold Kotak._extract_holding_from_row.
  destruct (Kotak.row_amounts r) as [hc mv].
  destruct (gt hc 0 && gt mv 0); [|discriminate].
  intros [= <-]. reflexivity.
Qed.

(** X18. Kotak never emits a header, total or category row, nor a
    transaction reference: the name of every record it emits is longer
    than ten characters, contains none of "Instrument Name", "Bal. No. Of",
    "Total" and "Category", and does not start with INE0TLC in any letter
    case. *)
Theorem kotak_names_are_instruments (file : pdf) :
  Forall (fun h => 10 < str_len (asset_name h)
                   /\ Forall (fun word => str_in word (asset_name h) = false)
                             ["Instrument Name"; "Bal. No. Of"; "Total"; "Category"]
                   /\ str_startswith (str_upper (asset_name h)) "INE0TLC" = false)
         (Kotak.extract file).
Proof.
  unfold Kotak.extract. destruct file as [pages|e]; [|apply Forall_nil_2].
  cbn [mbind result_bind mret result_ret try_except].
  apply Forall_flat_map. intros [page_num page]. unfold Kotak.extract_page.
  emit_cases. apply Forall_flat_map. intros t. unfold Kotak.extract_table.
  emit_cases.
  match goal with
  | |- Forall ?P _ => apply (fold_left_invariant (fun acc => Forall P (snd acc)))
  end; [constructor|].
  intros [cat found] [row_idx r] Hacc. simpl in Hacc. unfold Kotak.row_step.
  emit_cases; simpl; try exact Hacc.
  apply Forall_app. split; [exact Hacc|]. one_record.
  match goal with
  | H : Kotak._extract_holding_from_row _ _ _ _ _ _ _ = Some _ |- _ =>
      rewrite (Kotak_row_name _ _ _ _ _ _ _ _ H)
  end.
  rewrite stripped_cell_strip.
  repeat match goal with
         | H : (_ || _) = false |- _ => apply orb_false_iff in H as [? ?]
         | H : (_ && _) = true |- _ => apply andb_true_iff in H as [? ?]
         | H : negb _ = true |- _ => apply negb_true_iff in H
         end.
  split; [by apply Nat.ltb_lt|].
  split; [|assumption].
  repeat (apply Forall_cons_2; [assumption|]). apply Forall_nil_2.
Qed.

Lemma to_string_length (l : list ascii) : String.length (Str.to_string l) = length l.
Proof. induction l as [|c l IH]; simpl; [reflexivity|by rewrite IH]. Qed.

Lemma str_prefix_length (s : string) (n : nat) : str_len (str_prefix s n) <= n.
Proof.
  unfold str_len, str_prefix. rewrite to_string_length, length_firstn. lia.
Qed.

(** X19. IIFL 360 One cuts every name to its first hundred characters. *)
Theorem iifl_names_at_most_100 (file : pdf) :
  Forall (fun h => str_len (asset_name h) <= 100) (IIFL360One.extract file).
Proof.
  unfold IIFL360One.extract. destruct file as [pages|e]; [|apply Forall_nil_2].
  cbn [mbind result_bind mret result_ret try_except].
  apply Forall_flat_map. intros [page_num page]. unfold IIFL360One.extract_page.
  emit_cases.
  match goal with
  | |- Forall ?P _ => apply (fold_left_invariant (fun acc => Forall P (snd acc)))
  end; [constructor|].
  intros [cat found] [i raw_line] Hf. simpl in Hf.
  unfold IIFL360One.text_line_step.
  emit_cases; simpl; try exact Hf.
  apply Forall_app. split; [exact Hf|].
  unfold IIFL360One.extract_instrument_line.
  emit_cases.
  all: one_record; cbn [asset_name]; apply str_prefix_length.
Qed.
